(** * heplify: SIP decoding, packet pipeline and correlation engine

    A shallow embedding of [decoder/sip.go], [decoder/decoder.go] and the
    correlator file (cacheSDPIPPort, correlateRTCP, correlateLOG,
    correlateNG), followed by the properties of the specification that
    were checked against them.

    Go's [[]byte] and [string] are both byte sequences; both are modelled
    by [string] (a list of 8-bit characters).  A nil slice is told apart
    from an empty one, where the code does, by [option string]. *)

From Stdlib Require Import ZArith Lia Bool Ascii String List.
From stdpp Require Import base option gmap strings.

Local Open Scope string_scope.
Local Open Scope Z_scope.

(* ===================================================================== *)
(** ** The parts of Go's [bytes], [strings] and [strconv] the code uses   *)
(* ===================================================================== *)

Module Bytes.

Definition LF : ascii := ascii_of_nat 10.
Definition CR : ascii := ascii_of_nat 13.
Definition SP : ascii := ascii_of_nat 32.

(** The two-byte line terminator the correlator scans for. *)
Definition CRLF : string := String CR (String LF EmptyString).

Definition len (s : string) : Z := Z.of_nat (String.length s).

(** [s[lo:]] and [s[:hi]] for in-range bounds. *)
Fixpoint drop (n : nat) (s : string) : string :=
  match n, s with
  | O, _ => s
  | S n', String _ s' => drop n' s'
  | S _, EmptyString => EmptyString
  end.

Fixpoint take (n : nat) (s : string) : string :=
  match n, s with
  | S n', String c s' => String c (take n' s')
  | _, _ => EmptyString
  end.

(** [s[lo:hi]]; every use in the code is guarded so that
    [0 <= lo <= hi <= len s]. *)
Definition slice (s : string) (lo hi : Z) : string :=
  take (Z.to_nat (hi - lo)) (drop (Z.to_nat lo) s).

(** [bytes.HasPrefix] / [strings.HasPrefix]. *)
Fixpoint HasPrefix (s p : string) {struct p} : bool :=
  match p, s with
  | EmptyString, _ => true
  | String a p', String b s' => if Ascii.eqb a b then HasPrefix s' p' else false
  | String _ _, EmptyString => false
  end.

(** [bytes.Index]: offset of the first occurrence of [sep], or -1. *)
Fixpoint IndexFrom (i : Z) (s sep : string) : Z :=
  if HasPrefix s sep then i
  else match s with
       | EmptyString => -1
       | String _ s' => IndexFrom (i + 1) s' sep
       end.

Definition Index (s sep : string) : Z := IndexFrom 0 s sep.

Definition Contains (s sep : string) : bool := 0 <=? Index s sep.

(** Membership of a byte in a cutset. *)
Fixpoint inSet (c : ascii) (cutset : string) : bool :=
  match cutset with
  | EmptyString => false
  | String d rest => Ascii.eqb c d || inSet c rest
  end.

Fixpoint TrimLeft (s cutset : string) : string :=
  match s with
  | EmptyString => EmptyString
  | String c s' => if inSet c cutset then TrimLeft s' cutset else s
  end.

(** Trailing trim, right to left: a byte is kept as soon as something
    kept follows it. *)
Fixpoint TrimRight (s cutset : string) : string :=
  match s with
  | EmptyString => EmptyString
  | String c s' =>
      match TrimRight s' cutset with
      | EmptyString => if inSet c cutset then EmptyString else String c EmptyString
      | t => String c t
      end
  end.

(** [bytes.Trim] for an ASCII cutset. *)
Definition Trim (s cutset : string) : string :=
  TrimRight (TrimLeft s cutset) cutset.

(** Case mapping of one byte.  [bytes.ToUpper], [strings.ToUpper] and
    [strings.ToLower] map ASCII text byte by byte, and that is what
    [ToUpper] and [ToLower] below are: the Go functions on text whose
    bytes are all below 128 ([isASCII]).  On other text Go decodes
    UTF-8 and maps runes through the Unicode tables (dotless i to I,
    long s to S, the Kelvin sign to k), which is not modelled; here
    bytes above 127 are left as they are, and general statements about
    case mapping are made for ASCII text. *)
Definition upperByte (c : ascii) : ascii :=
  let n := nat_of_ascii c in
  if ((97 <=? n)%nat && (n <=? 122)%nat)%bool then ascii_of_nat (n - 32) else c.

Definition lowerByte (c : ascii) : ascii :=
  let n := nat_of_ascii c in
  if ((65 <=? n)%nat && (n <=? 90)%nat)%bool then ascii_of_nat (n + 32) else c.

Fixpoint ToUpper (s : string) : string :=
  match s with
  | EmptyString => EmptyString
  | String c s' => String (upperByte c) (ToUpper s')
  end.

Fixpoint ToLower (s : string) : string :=
  match s with
  | EmptyString => EmptyString
  | String c s' => String (lowerByte c) (ToLower s')
  end.

(** Cut at the first space: the text before it and the text after it. *)
Fixpoint cutSpace (s : string) : option (string * string) :=
  match s with
  | EmptyString => None
  | String c s' =>
      if Ascii.eqb c SP then Some (EmptyString, s')
      else match cutSpace s' with
           | Some (a, b) => Some (String c a, b)
           | None => None
           end
  end.

(** [strings.SplitN(s, " ", n)] for [n >= 0]: at most [n] parts, the
    last one holding the unsplit remainder. *)
Fixpoint SplitN (s : string) (n : nat) : list string :=
  match n with
  | O => []
  | S O => [s]
  | S n' =>
      match cutSpace s with
      | None => [s]
      | Some (a, rest) => a :: SplitN rest n'
      end
  end.

Definition isDigit (c : ascii) : bool :=
  let n := nat_of_ascii c in ((48 <=? n)%nat && (n <=? 57)%nat)%bool.

(** Value of a string of decimal digits, [None] on any other byte. *)
Fixpoint digitsFrom (acc : Z) (s : string) : option Z :=
  match s with
  | EmptyString => Some acc
  | String c s' =>
      if isDigit c
      then digitsFrom (10 * acc + (Z.of_nat (nat_of_ascii c) - 48)) s'
      else None
  end.

Definition maxInt : Z := 2 ^ 63 - 1.
Definition minInt : Z := - 2 ^ 63.

(** [strconv.Atoi] on a 64-bit platform: the value and whether an
    error is reported.  A syntax error gives 0, a range error the
    nearest bound. *)
Definition Atoi (s : string) : Z * bool :=
  let '(neg, body) :=
    match s with
    | String c s' =>
        if Ascii.eqb c (ascii_of_nat 45) then (true, s')
        else if Ascii.eqb c (ascii_of_nat 43) then (false, s')
        else (false, s)
    | EmptyString => (false, s)
    end in
  match body with
  | EmptyString => (0, true)
  | _ =>
      match digitsFrom 0 body with
      | None => (0, true)
      | Some v =>
          let n := if neg then - v else v in
          if n <? minInt then (minInt, true)
          else if maxInt <? n then (maxInt, true)
          else (n, false)
      end
  end.

(** Decimal digits of a natural number, most significant first. *)
Fixpoint digitsOf (fuel : nat) (n : Z) (acc : string) : string :=
  match fuel with
  | O => acc
  | S f =>
      let acc' := String (ascii_of_nat (48 + Z.to_nat (n mod 10))) acc in
      if n <? 10 then acc' else digitsOf f (n / 10) acc'
  end.

(** [strconv.Itoa] on a non-negative argument below 10^20. *)
Definition Itoa (n : Z) : string := digitsOf 20 n EmptyString.

(** Every byte is below 128.  On such text [strings.ToUpper] and
    [strings.ToLower] map byte by byte, as [ToUpper] and [ToLower] here
    do; on other text they map runes and rewrite invalid UTF-8, which
    the byte-wise functions do not follow. *)
Fixpoint isASCII (s : string) : bool :=
  match s with
  | EmptyString => true
  | String c s' => (nat_of_ascii c <? 128)%nat && isASCII s'
  end.

(** [strings.Count(s, string(c))] for one byte. *)
Fixpoint Count (s : string) (c : ascii) : nat :=
  match s with
  | EmptyString => O
  | String x s' => ((if Ascii.eqb x c then 1 else 0) + Count s' c)%nat
  end.

End Bytes.

(* ===================================================================== *)
(** ** decoder/sip.go                                                     *)
(* ===================================================================== *)

Module Sip.
Import Bytes.

(** [type SIPVersion uint8] *)
Definition SIPVersion := Z.
Definition SIPVersion1 : SIPVersion := 1.
Definition SIPVersion2 : SIPVersion := 2.

Definition SIPVersion_String (sv : SIPVersion) : string :=
  if sv =? SIPVersion1 then "SIP/1.0"
  else if sv =? SIPVersion2 then "SIP/2.0"
  else "SIP/2.0".

(** The errors [fmt.Errorf] and [strconv] produce in this file, one
    constructor per message. *)
Inductive error : Type :=
| InvalidFirstLine (line : string)   (* "invalid first SIP line: '%s'" *)
| InvalidVersion (version : string)  (* "invalid SIP version: '%s'" *)
| InvalidMethod (method : string)    (* "invalid SIP method: '%s'" *)
| AtoiError (text : string).         (* strconv.Atoi: syntax or range *)

Definition GetSIPVersion (version : string) : SIPVersion * option error :=
  let u := ToUpper version in
  if String.eqb u "SIP/1.0" then (SIPVersion1, None)
  else if String.eqb u "SIP/2.0" then (SIPVersion2, None)
  else (0, Some (InvalidVersion version)).

(** [type SIPMethod uint16] *)
Definition SIPMethod := Z.
Definition SIPMethodInvite : SIPMethod := 1.
Definition SIPMethodAck : SIPMethod := 2.
Definition SIPMethodBye : SIPMethod := 3.
Definition SIPMethodCancel : SIPMethod := 4.
Definition SIPMethodOptions : SIPMethod := 5.
Definition SIPMethodRegister : SIPMethod := 6.
Definition SIPMethodPrack : SIPMethod := 7.
Definition SIPMethodSubscribe : SIPMethod := 8.
Definition SIPMethodNotify : SIPMethod := 9.
Definition SIPMethodPublish : SIPMethod := 10.
Definition SIPMethodInfo : SIPMethod := 11.
Definition SIPMethodRefer : SIPMethod := 12.
Definition SIPMethodMessage : SIPMethod := 13.
Definition SIPMethodUpdate : SIPMethod := 14.
Definition SIPMethodPing : SIPMethod := 15.

Definition SIPMethod_String (sm : SIPMethod) : string :=
  if sm =? SIPMethodInvite then "INVITE"
  else if sm =? SIPMethodAck then "ACK"
  else if sm =? SIPMethodBye then "BYE"
  else if sm =? SIPMethodCancel then "CANCEL"
  else if sm =? SIPMethodOptions then "OPTIONS"
  else if sm =? SIPMethodRegister then "REGISTER"
  else if sm =? SIPMethodPrack then "PRACK"
  else if sm =? SIPMethodSubscribe then "SUBSCRIBE"
  else if sm =? SIPMethodNotify then "NOTIFY"
  else if sm =? SIPMethodPublish then "PUBLISH"
  else if sm =? SIPMethodInfo then "INFO"
  else if sm =? SIPMethodRefer then "REFER"
  else if sm =? SIPMethodMessage then "MESSAGE"
  else if sm =? SIPMethodUpdate then "UPDATE"
  else if sm =? SIPMethodPing then "PING"
  else "Unknown method".

Definition GetSIPMethod (method : string) : SIPMethod * option error :=
  let u := ToUpper method in
  if String.eqb u "INVITE" then (SIPMethodInvite, None)
  else if String.eqb u "ACK" then (SIPMethodAck, None)
  else if String.eqb u "BYE" then (SIPMethodBye, None)
  else if String.eqb u "CANCEL" then (SIPMethodCancel, None)
  else if String.eqb u "OPTIONS" then (SIPMethodOptions, None)
  else if String.eqb u "REGISTER" then (SIPMethodRegister, None)
  else if String.eqb u "PRACK" then (SIPMethodPrack, None)
  else if String.eqb u "SUBSCRIBE" then (SIPMethodSubscribe, None)
  else if String.eqb u "NOTIFY" then (SIPMethodNotify, None)
  else if String.eqb u "PUBLISH" then (SIPMethodPublish, None)
  else if String.eqb u "INFO" then (SIPMethodInfo, None)
  else if String.eqb u "REFER" then (SIPMethodRefer, None)
  else if String.eqb u "MESSAGE" then (SIPMethodMessage, None)
  else if String.eqb u "UPDATE" then (SIPMethodUpdate, None)
  else if String.eqb u "PING" then (SIPMethodPing, None)
  else (0, Some (InvalidMethod method)).

(** [type SIP struct]; [Payload] is the field of the embedded
    [layers.BaseLayer] that the decoder fills. *)
Record SIP : Type := mkSIP {
  Payload : option string;
  Version : SIPVersion;
  Headers : gmap string (list string);
  Method : SIPMethod;
  IsResponse : bool;
  ResponseCode : Z;
  ResponseStatus : string
}.

(** [NewSIP]: every field at its zero value, the header map allocated. *)
Definition NewSIP : SIP :=
  {| Payload := None; Version := 0; Headers := ∅; Method := 0;
     IsResponse := false; ResponseCode := 0; ResponseStatus := "" |}.

Definition setVersion (s : SIP) (v : SIPVersion) : SIP :=
  mkSIP (Payload s) v (Headers s) (Method s) (IsResponse s)
        (ResponseCode s) (ResponseStatus s).
Definition setMethod (s : SIP) (m : SIPMethod) : SIP :=
  mkSIP (Payload s) (Version s) (Headers s) m (IsResponse s)
        (ResponseCode s) (ResponseStatus s).
Definition setIsResponse (s : SIP) (b : bool) : SIP :=
  mkSIP (Payload s) (Version s) (Headers s) (Method s) b
        (ResponseCode s) (ResponseStatus s).
Definition setResponseCode (s : SIP) (c : Z) : SIP :=
  mkSIP (Payload s) (Version s) (Headers s) (Method s) (IsResponse s)
        c (ResponseStatus s).
Definition setResponseStatus (s : SIP) (t : string) : SIP :=
  mkSIP (Payload s) (Version s) (Headers s) (Method s) (IsResponse s)
        (ResponseCode s) t.
Definition setPayload (s : SIP) (p : string) : SIP :=
  mkSIP (Some p) (Version s) (Headers s) (Method s) (IsResponse s)
        (ResponseCode s) (ResponseStatus s).
Definition addHeader (s : SIP) (name value : string) : SIP :=
  mkSIP (Payload s) (Version s)
        (<[name := (default [] (Headers s !! name) ++ [value])%list]> (Headers s))
        (Method s) (IsResponse s) (ResponseCode s) (ResponseStatus s).

(** [ParseFirstLine]: the receiver after the call and the error
    returned.  The fields are assigned as the code assigns them, also
    on the failing paths. *)
Definition ParseFirstLine (s : SIP) (firstLine : string) : SIP * option error :=
  match SplitN firstLine 3 with
  | [f0; f1; f2] =>
      if HasPrefix f0 "SIP" then
        let s := setIsResponse s true in
        let '(v, err) := GetSIPVersion f0 in
        let s := setVersion s v in
        match err with
        | Some e => (s, Some e)
        | None =>
            let '(code, bad) := Atoi f1 in
            let s := setResponseCode s code in
            if bad then (s, Some (AtoiError f1))
            else (setResponseStatus s f2, None)
        end
      else
        let '(m, err) := GetSIPMethod f0 in
        let s := setMethod s m in
        match err with
        | Some e => (s, Some e)
        | None =>
            let '(v, err) := GetSIPVersion f2 in
            let s := setVersion s v in
            match err with
            | Some e => (s, Some e)
            | None => (s, None)
            end
        end
  | _ => (s, Some (InvalidFirstLine firstLine))   (* len(splits) < 3 *)
  end.

(** One header line: split at the first colon, when there is one. *)
Definition parseHeader (s : SIP) (line : string) : SIP :=
  let index := Index line ":" in
  if 0 <=? index then
    let headerName := ToLower (Trim (slice line 0 index) " ") in
    let headerValue := Trim (slice line (index + 1) (len line)) " " in
    addHeader s headerName headerValue
  else s.

(** The read loop of [DecodeFromBytes].  [buf] is what the buffer
    still holds and [cur] the bytes [ReadBytes] has consumed since the
    last line feed; reaching the end of [buf] is [io.EOF], at which
    the loop stops without looking at [cur]. *)
Fixpoint readLines (buf cur : string) (countLines : nat) (s : SIP)
  : SIP * option error :=
  match buf with
  | EmptyString => (s, None)
  | String c rest =>
      if Ascii.eqb c LF then
        let line := Trim (cur ++ String LF EmptyString) CRLF in
        if len line =? 0 then (setPayload s rest, None)
        else if (countLines =? 0)%nat then
          match ParseFirstLine s line with
          | (s', Some e) => (s', Some e)
          | (s', None) => readLines rest EmptyString (S countLines) s'
          end
        else readLines rest EmptyString (S countLines) (parseHeader s line)
      else readLines rest (cur ++ String c EmptyString) countLines s
  end.

Definition DecodeFromBytes (s : SIP) (data : string) : SIP * option error :=
  let data := Trim data (String LF EmptyString) in
  readLines data EmptyString 0 s.

(** [decodeSIP]: the layer handed to the packet builder, or the error. *)
Definition decodeSIP (data : string) : SIP + error :=
  match DecodeFromBytes NewSIP data with
  | (_, Some e) => inr e
  | (s, None) => inl s
  end.

Definition GetAllHeaders (s : SIP) : gmap string (list string) := Headers s.

Definition GetHeader (s : SIP) (headerName : string) : list string :=
  match Headers s !! ToLower headerName with
  | Some (v :: vs) => v :: vs
  | _ => []
  end.

Definition GetFirstHeader (s : SIP) (headerName : string) : string :=
  match Headers s !! ToLower headerName with
  | Some (v :: _) => v
  | _ => ""
  end.

End Sip.

(* ===================================================================== *)
(** ** decoder/decoder.go                                                 *)
(* ===================================================================== *)

Module Pipeline.
Import Bytes Sip.

(** What the code reads of [layers.IPv4]; [net.IP] is a byte slice. *)
Record IPv4 : Type := mkIPv4 {
  SrcIP : string;
  DstIP : string;
  Length : Z;
  ipPayload : string
}.

(** What the code reads of [layers.UDP] and [layers.TCP]. *)
Record Transport : Type := mkTransport {
  SrcPort : Z;
  DstPort : Z;
  tPayload : string
}.

(** A decoded layer of the captured frame, by [LayerType]. *)
Inductive Layer : Type :=
| LayerIPv4 (ip : IPv4)
| LayerUDP (u : Transport)
| LayerTCP (t : Transport)
| LayerOther.                 (* Ethernet, payload and all other types *)

(** The packet-layer library's view of one frame: its layers in order
    and the payload of its application layer, when it has one. *)
Record Frame : Type := mkFrame {
  frameLayers : list Layer;
  appPayload : option string
}.

(** [gopacket.CaptureInfo]: the timestamp as Unix seconds and the
    nanoseconds within the second. *)
Record CaptureInfo : Type := mkCaptureInfo {
  tsUnix : Z;
  tsNanosecond : Z
}.

(** [config.Cfg], the two settings [Process] reads. *)
Record Config : Type := mkConfig {
  HepFilter : string;
  Reasm : bool
}.

Record Packet : Type := mkPacket {
  Host : string;
  Tsec : Z;
  Tmsec : Z;
  Srcip : Z;
  Dstip : Z;
  Sport : Z;
  Dport : Z;
  Payload : option string;
  SipHeader : option (gmap string (list string))
}.

Definition uint32 (z : Z) : Z := z mod 2 ^ 32.
Definition uint16 (z : Z) : Z := z mod 2 ^ 16.

Definition byteAt (s : string) (i : nat) : option Z :=
  match String.get i s with
  | Some c => Some (Z.of_nat (nat_of_ascii c))
  | None => None
  end.

(** [binary.BigEndian.Uint32]; [None] is the run-time panic on a slice
    shorter than four bytes. *)
Definition BigEndian_Uint32 (b : string) : option Z :=
  match byteAt b 0, byteAt b 1, byteAt b 2, byteAt b 3 with
  | Some b0, Some b1, Some b2, Some b3 =>
      Some (Z.lor (Z.lor (Z.lor (Z.shiftl b0 24) (Z.shiftl b1 16)) (Z.shiftl b2 8)) b3)
  | _, _, _, _ => None
  end.

Definition ip2int (ip : string) : option Z :=
  if len ip =? 16 then BigEndian_Uint32 (slice ip 12 16)
  else BigEndian_Uint32 ip.

(** [packet.Layer(t)]: the first layer of the type asked for. *)
Fixpoint firstIPv4 (ls : list Layer) : option IPv4 :=
  match ls with
  | [] => None
  | LayerIPv4 ip :: _ => Some ip
  | _ :: r => firstIPv4 r
  end.

Fixpoint firstUDP (ls : list Layer) : option Transport :=
  match ls with
  | [] => None
  | LayerUDP u :: _ => Some u
  | _ :: r => firstUDP r
  end.

Fixpoint firstTCP (ls : list Layer) : option Transport :=
  match ls with
  | [] => None
  | LayerTCP t :: _ => Some t
  | _ :: r => firstTCP r
  end.

Definition LayerPayload (l : Layer) : string :=
  match l with
  | LayerIPv4 ip => ipPayload ip
  | LayerUDP u => tPayload u
  | LayerTCP t => tPayload t
  | LayerOther => EmptyString
  end.

(** The first layer of [gopacket.NewPacket(data, LayerTypeSIP, NoCopy)]:
    the packet-layer library runs [decodeSIP] at once and, when it
    reports an error, records a decode-failure layer in place of the
    SIP layer.  [Some s] is the case in which the assertion to [*SIP]
    holds. *)
Definition sipLayerOf (data : string) : option SIP :=
  match decodeSIP data with
  | inl s => Some s
  | inr _ => None
  end.

(** What a call ends in: the value returned (the error is always nil)
    or a run-time panic. *)
Inductive outcome : Type :=
| Returned (p : option Packet)
| Panicked.

Record Decoder (D : Type) : Type := mkDecoder {
  decHost : string;
  defragger : D
}.
Arguments mkDecoder {D} _ _.
Arguments decHost {D} _.
Arguments defragger {D} _.

Definition setAddrs (pkt : Packet) (s d : Z) : Packet :=
  mkPacket (Host pkt) (Tsec pkt) (Tmsec pkt) s d (Sport pkt) (Dport pkt)
           (Payload pkt) (SipHeader pkt).

Definition setTransport (pkt : Packet) (t : Transport) : Packet :=
  mkPacket (Host pkt) (Tsec pkt) (Tmsec pkt) (Srcip pkt) (Dstip pkt)
           (uint16 (SrcPort t)) (uint16 (DstPort t))
           (Some (tPayload t)) (SipHeader pkt).

Definition setSipHeader (pkt : Packet) (h : gmap string (list string)) : Packet :=
  mkPacket (Host pkt) (Tsec pkt) (Tmsec pkt) (Srcip pkt) (Dstip pkt)
           (Sport pkt) (Dport pkt) (Payload pkt) (Some h).

Section WithDefragmenter.

(** The IPv4 defragmenter is a package of its own.  [D] is its
    state, [DefragIPv4] its one operation, giving the new state, the
    frame returned (nil as [None]) and whether an error came with
    it; [redispatch] gives the layers the next-layer decoder
    appends to the packet for a reassembled frame. *)
Context {D : Type}.
Variable DefragIPv4 : D -> IPv4 -> D * (option IPv4 * bool).
Variable redispatch : IPv4 -> list Layer.
Variable Cfg : Config.

(** The [for _, layer := range packet.Layers()] loop.  [ls] is what
    is left of the slice the range was taken over; [all] is the
    packet's current layer list, which re-dispatch may extend.
    A [break] inside the [switch] leaves the switch only, so the
    loop goes on with the next layer. *)
Fixpoint walkLayers (dfr : D) (all ls : list Layer) (pkt : Packet)
  : D * outcome :=
  match ls with
  | [] => (dfr, Returned None)
  | layer :: rest =>
      match layer with
      | LayerIPv4 _ =>
          match firstIPv4 all with
          | None => walkLayers dfr all rest pkt
          | Some ip4 =>
              let fill (dfr' : D) (all' : list Layer) :=
                match ip2int (SrcIP ip4), ip2int (DstIP ip4) with
                | Some s, Some d => walkLayers dfr' all' rest (setAddrs pkt s d)
                | _, _ => (dfr', Panicked)
                end in
              if Reasm Cfg then
                let l := Length ip4 in
                match DefragIPv4 dfr ip4 with
                | (dfr', (None, false)) => walkLayers dfr' all rest pkt
                | (dfr', (None, true)) => (dfr', Panicked)
                | (dfr', (Some r, _)) =>
                    if negb (Length r =? l)
                    then fill dfr' (all ++ redispatch r)%list
                    else fill dfr' all
                end
              else fill dfr all
          end
      | LayerUDP _ =>
          match firstUDP all with
          | None => walkLayers dfr all rest pkt
          | Some udp =>
              let pkt := setTransport pkt udp in
              match sipLayerOf (LayerPayload layer) with
              | None => walkLayers dfr all rest pkt
              | Some sipLayer =>
                  (dfr, Returned (Some (setSipHeader pkt (Headers sipLayer))))
              end
          end
      | LayerTCP _ =>
          match firstTCP all with
          | None => walkLayers dfr all rest pkt
          | Some tcp =>
              let pkt := setTransport pkt tcp in
              match sipLayerOf (LayerPayload layer) with
              | None => walkLayers dfr all rest pkt
              | Some sipLayer =>
                  (dfr, Returned (Some (setSipHeader pkt (Headers sipLayer))))
              end
          end
      | LayerOther => walkLayers dfr all rest pkt
      end
  end.

Definition Process (d : Decoder D) (data : Frame) (ci : CaptureInfo)
  : Decoder D * outcome :=
  let pkt :=
    {| Host := decHost d;
       Tsec := uint32 (tsUnix ci);
       Tmsec := uint32 (tsNanosecond ci / 1000);
       Srcip := 0; Dstip := 0; Sport := 0; Dport := 0;
       Payload := None; SipHeader := None |} in
  let filtered :=
    match appPayload data with
    | Some app =>
        negb (String.eqb (HepFilter Cfg) EmptyString)
        && Contains app (HepFilter Cfg)
    | None => false
    end in
  if filtered then (d, Returned None)
  else
    let '(dfr, r) :=
      walkLayers (defragger d) (frameLayers data) (frameLayers data) pkt in
    (mkDecoder (decHost d) dfr, r).

End WithDefragmenter.

(** A defragmenter that is never consulted, for runs with reassembly
    switched off. *)
Definition noDefrag (_ : unit) (ip : IPv4) : unit * (option IPv4 * bool) :=
  (tt, (Some ip, false)).
Definition noRedispatch (_ : IPv4) : list Layer := [].
Definition plainCfg : Config := {| HepFilter := EmptyString; Reasm := false |}.

Definition ip4bytes (a b c d : nat) : string :=
  String (ascii_of_nat a) (String (ascii_of_nat b)
    (String (ascii_of_nat c) (String (ascii_of_nat d) EmptyString))).

(** An Ethernet / IPv4 / UDP / payload frame carrying [data] from
    10.0.0.5:5060 to 10.0.0.9:5060, and the same over TCP. *)
Definition udpFrame (data : string) : Frame :=
  {| frameLayers :=
       [ LayerOther;
         LayerIPv4 (mkIPv4 (ip4bytes 10 0 0 5) (ip4bytes 10 0 0 9) 60 data);
         LayerUDP (mkTransport 5060 5060 data);
         LayerOther ];
     appPayload := Some data |}.

Definition tcpFrame (data : string) : Frame :=
  {| frameLayers :=
       [ LayerOther;
         LayerIPv4 (mkIPv4 (ip4bytes 10 0 0 5) (ip4bytes 10 0 0 9) 60 data);
         LayerTCP (mkTransport 5060 5060 data);
         LayerOther ];
     appPayload := Some data |}.

Definition runPlain (f : Frame) : outcome :=
  snd (Process noDefrag noRedispatch plainCfg
         (mkDecoder "probe" tt) f (mkCaptureInfo 1500000000 250000000)).

End Pipeline.

(* ===================================================================== *)
(** ** The correlator: cacheSDPIPPort, correlateRTCP, correlateLOG,       *)
(**    correlateNG                                                        *)
(* ===================================================================== *)

Module Correlate.
Import Bytes.

(** The cache type is declared outside the files at hand; the code
    uses two operations of it.  [cacheGet] gives the value when the
    lookup returns a nil error, [cacheSet] the cache after the call
    and whether it returned an error.  A nil key is the empty key. *)
Class CacheBackend (C : Type) : Type := {
  cacheGet : C -> string -> option string;
  cacheSet : C -> string -> string -> Z -> C * bool
}.

Inductive CacheName : Type := SDP | RTCP | SIPNG.

(** One call on a cache, as the correlator issues it. *)
Inductive CacheOp : Type :=
| OpGet (c : CacheName) (key : string)
| OpSet (c : CacheName) (key value : string) (ttl : Z).

(** The three caches of the [Decoder] this file's methods hang on. *)
Record Decoder (C : Type) : Type := mkDecoder {
  SDPCache : C;
  RTCPCache : C;
  SIPCache : C
}.
Arguments mkDecoder {C} _ _ _.
Arguments SDPCache {C} _.
Arguments RTCPCache {C} _.
Arguments SIPCache {C} _.

(** The result triple: payload, correlation id, record type.  [None]
    is a nil slice. *)
Definition triple : Type := option string * option string * Z.
Definition noMatch : triple := (None, None, 0).

Definition isNil {A : Type} (o : option A) : bool :=
  match o with None => true | Some _ => false end.

(** A nil byte slice used as a cache key is the empty key. *)
Definition keyOf (k : option string) : string := default EmptyString k.

(** *** [net.IP.String] *)

Definition hexDigit (n : Z) : ascii :=
  match String.get (Z.to_nat n) "0123456789abcdef" with
  | Some c => c
  | None => "0"%char
  end.

(** [hexString]: two lower-case digits for each byte. *)
Fixpoint hexString (b : string) : string :=
  match b with
  | EmptyString => EmptyString
  | String c r =>
      let n := Z.of_nat (nat_of_ascii c) in
      String (hexDigit (n / 16)) (String (hexDigit (n mod 16)) (hexString r))
  end.

(** [appendHex] of a 16-bit group: its digits from the first one that
    is not a leading zero, [0] for zero. *)
Definition appendHex (v : Z) : string :=
  if v =? 0 then "0"
  else
    (if 0 <? v / 4096 then String (hexDigit ((v / 4096) mod 16)) EmptyString else EmptyString)
    ++ (if 0 <? v / 256 then String (hexDigit ((v / 256) mod 16)) EmptyString else EmptyString)
    ++ (if 0 <? v / 16 then String (hexDigit ((v / 16) mod 16)) EmptyString else EmptyString)
    ++ String (hexDigit (v mod 16)) EmptyString.

Fixpoint allZeroBytes (s : string) : bool :=
  match s with
  | EmptyString => true
  | String c r => (nat_of_ascii c =? 0)%nat && allZeroBytes r
  end.

(** [IP.To4]: the four-byte form of an IPv4 address, given as four
    bytes or as an IPv4-mapped sixteen; nil ([None]) otherwise. *)
Definition To4 (ip : string) : option string :=
  if len ip =? 4 then Some ip
  else if (len ip =? 16) && allZeroBytes (take 10 ip)
          && String.eqb (slice ip 10 12)
               (String (ascii_of_nat 255) (String (ascii_of_nat 255) EmptyString))
       then Some (slice ip 12 16)
       else None.

Definition dotted (p4 : string) : string :=
  match p4 with
  | String a (String b (String c (String d EmptyString))) =>
      Itoa (Z.of_nat (nat_of_ascii a)) ++ "." ++ Itoa (Z.of_nat (nat_of_ascii b)) ++ "."
      ++ Itoa (Z.of_nat (nat_of_ascii c)) ++ "." ++ Itoa (Z.of_nat (nat_of_ascii d))
  | _ => EmptyString
  end.

(** The eight 16-bit groups of a sixteen-byte address. *)
Fixpoint groups (s : string) : list Z :=
  match s with
  | String a (String b r) =>
      (256 * Z.of_nat (nat_of_ascii a) + Z.of_nat (nat_of_ascii b)) :: groups r
  | _ => []
  end.

Fixpoint zerosFrom (gs : list Z) : Z :=
  match gs with
  | g :: r => if g =? 0 then 1 + zerosFrom r else 0
  | [] => 0
  end.

(** The search for the longest run of zero groups, counted in groups
    where the code counts in bytes: [i] is the loop index, [(e0, e1)]
    the best run so far, [(-1, -1)] at the start. *)
Fixpoint scanZeros (fuel : nat) (gs : list Z) (i e0 e1 : Z) : Z * Z :=
  match fuel with
  | O => (e0, e1)
  | S f =>
      if 8 <=? i then (e0, e1)
      else
        let j := i + zerosFrom (List.skipn (Z.to_nat i) gs) in
        if (i <? j) && (e1 - e0 <? j - i)
        then scanZeros f gs (j + 1) i j
        else scanZeros f gs (i + 1) e0 e1
  end.

(** The printing loop, with [::] in place of the run [(e0, e1)]. *)
Fixpoint printGroups (fuel : nat) (gs : list Z) (i e0 e1 : Z) : string :=
  match fuel with
  | O => EmptyString
  | S f =>
      if 8 <=? i then EmptyString
      else if i =? e0 then
        if 8 <=? e1 then "::"
        else "::" ++ appendHex (List.nth (Z.to_nat e1) gs 0)
                  ++ printGroups f gs (e1 + 1) e0 e1
      else
        (if 0 <? i then ":" else EmptyString)
        ++ appendHex (List.nth (Z.to_nat i) gs 0)
        ++ printGroups f gs (i + 1) e0 e1
  end.

(** [net.IP.String]: [<nil>] for the empty address, dotted decimal for
    an IPv4 address (four bytes, or sixteen IPv4-mapped), a question
    mark and the bytes in hexadecimal for a length other than 4 and 16,
    and the colon form with the longest run of at least two zero groups
    shortened for any other sixteen-byte address. *)
Definition ipv4String (ip : string) : string :=
  if len ip =? 0 then "<nil>"
  else match To4 ip with
       | Some p4 => dotted p4
       | None =>
           if negb (len ip =? 16) then "?" ++ hexString ip
           else
             let gs := groups ip in
             let '(e0, e1) := scanZeros 8 gs 0 (-1) (-1) in
             let '(e0, e1) := if e1 - e0 <=? 1 then (-1, -1) else (e0, e1) in
             printGroups 8 gs 0 e0 e1
       end.

(** [byte(uint32(b) + 1)] *)
Definition byteSucc (c : ascii) : ascii :=
  ascii_of_nat ((nat_of_ascii c + 1) mod 256).

(** [buf[len(buf)-1] = byte(uint32(buf[len(buf)-1]) + 1)] on a
    non-empty buffer. *)
Fixpoint bumpLast (s : string) : string :=
  match s with
  | EmptyString => EmptyString
  | String c EmptyString => String (byteSucc c) EmptyString
  | String c s' => String c (bumpLast s')
  end.

(** What the external NG decoder hands back as [interface{}]. *)
#[warnings="-register-all"] Inductive RawNG : Type :=
| NGNil
| NGBytes (b : string)
| NGInt (n : Z)
| NGList (l : list RawNG)
| NGDict (entries : list (string * RawNG)).  (* in the order [range] visits *)

(** A call either returns its triple or panics. *)
Inductive ngOutcome : Type :=
| NGReturned (t : triple)
| NGPanicked.

(** *** The first SDP block: connection address *)
Definition sdpIP (payload : string) (posSDPIP : Z) : option string :=
  let restIP := drop (Z.to_nat posSDPIP) payload in
  let posRestIP := Index restIP CRLF in
  if 16 <=? posRestIP
  then Some (slice restIP (len "c=IN IP" + 2) posRestIP)
  else None.

(** *** The second block: RTCP port, written after the address *)
Definition sdpPort (payload : string) (posSDPPort : Z) (ipPort : string)
  : option string :=
  let posRTCPPort := Index payload "a=rtcp:" in
  if 0 <? posRTCPPort then
    let restRTCPPort := drop (Z.to_nat posRTCPPort) payload in
    let posRestRTCPPort := Index restRTCPPort CRLF in
    if 11 <=? posRestRTCPPort
    then Some (ipPort ++ slice restRTCPPort (len "a=rtcp:") posRestRTCPPort)
    else None
  else
    let restPort := drop (Z.to_nat posSDPPort) payload in
    let posRestPort := Index restPort " RTP" in
    if 12 <=? posRestPort
    then Some (bumpLast (ipPort ++ slice restPort (len "m=audio ") posRestPort))
    else None.

(** One arm of the Call-ID chain, once its marker was found at
    [pos > 0]. *)
Definition callIDAt (payload marker : string) (pos minLen : Z) : option string :=
  let rest := drop (Z.to_nat pos) payload in
  let posRest := Index rest CRLF in
  if minLen <=? posRest then Some (slice rest (len marker) posRest) else None.

(** *** The third block: Call-ID, three header spellings in order *)
Definition sdpCallID (payload : string) : option string :=
  if 0 <? Index payload "Call-ID: "
  then callIDAt payload "Call-ID: " (Index payload "Call-ID: ") 10
  else if 0 <? Index payload "Call-ID:"
  then callIDAt payload "Call-ID:" (Index payload "Call-ID:") 9
  else if 0 <? Index payload "i: "
  then callIDAt payload "i: " (Index payload "i: ") 4
  else None.

(** [correlateLOG] touches no cache. *)
Definition correlateLOG (payload : string) : triple :=
  let posID := Index payload "ID=" in
  if 0 <? posID then
    let restID := drop (Z.to_nat posID) payload in
    let posRestID := Index restID " " in
    if 4 <=? posRestID then
      (Some payload, Some (slice restID (len "ID=") posRestID), 100)
    else if (8 <=? len restID) && (len restID <=? 64) then
      (Some payload, Some (slice restID 3 (len restID)), 100)
    else noMatch
  else
    let posID := Index payload ": [" in
    if 0 <? posID then
      let restID := drop (Z.to_nat posID) payload in
      let found :=
        if 8 <=? Index restID " port "
        then Some (slice restID (len ": [") (Index restID " port "))
        else if 4 <=? Index restID "]: "
        then Some (slice restID (len ": [") (Index restID "]: "))
        else None in
      match found with
      | None => noMatch
      | Some callID =>
          if (8 <=? len callID) && (len callID <=? 64)
          then (Some payload, Some callID, 100)
          else noMatch
      end
    else noMatch.

Section WithBackend.

Context {C : Type} `{CacheBackend C}.

(** State passing with a log: a computation takes the decoder and
    gives its value, the decoder afterwards and the cache calls it
    made, in order. *)
Definition M (A : Type) : Type := Decoder C -> A * Decoder C * list CacheOp.

Definition ret {A : Type} (a : A) : M A := fun d => (a, d, []).

Definition bind {A B : Type} (m : M A) (k : A -> M B) : M B :=
  fun d =>
    let '(a, d1, t1) := m d in
    let '(b, d2, t2) := k a d1 in
    (b, d2, (t1 ++ t2)%list).

Definition cacheOf (c : CacheName) (d : Decoder C) : C :=
  match c with
  | SDP => SDPCache d
  | RTCP => RTCPCache d
  | SIPNG => SIPCache d
  end.

Definition withCache (c : CacheName) (d : Decoder C) (x : C) : Decoder C :=
  match c with
  | SDP => mkDecoder x (RTCPCache d) (SIPCache d)
  | RTCP => mkDecoder (SDPCache d) x (SIPCache d)
  | SIPNG => mkDecoder (SDPCache d) (RTCPCache d) x
  end.

(** [d.<c>.Get(key)] *)
Definition getC (c : CacheName) (key : string) : M (option string) :=
  fun d => (cacheGet (cacheOf c d) key, d, [OpGet c key]).

(** [d.<c>.Set(key, value, ttl)]; the value is [err != nil]. *)
Definition setC (c : CacheName) (key value : string) (ttl : Z) : M bool :=
  fun d =>
    let '(x, err) := cacheSet (cacheOf c d) key value ttl in
    (err, withCache c d x, [OpSet c key value ttl]).

Notation "x <<- m ;; k" := (bind m (fun x => k))
  (at level 100, m at next level, right associativity).

Definition cacheSDPIPPort (payload : string) : M unit :=
  let posSDPIP := Index payload "c=IN IP" in
  let posSDPPort := Index payload "m=audio " in
  if (0 <? posSDPIP) && (0 <? posSDPPort) then
    match sdpIP payload posSDPIP with
    | None => ret tt
    | Some ip =>
        match sdpPort payload posSDPPort ip with
        | None => ret tt
        | Some ipPort =>
            match sdpCallID payload with
            | None => ret tt
            | Some callID =>
                _err <<- setC SDP ipPort callID 120 ;;
                ret tt
            end
        end
    end
  else ret tt.

(** The external decoders and [net.IP.String], as the code calls
    them.  [ParseRTCP] gives the SSRC key, the derived JSON and the
    advisory text; [unmarshalNG] the cookie, the decoded value and
    whether an error came back; [jsonMarshal] is [None] on error. *)
Variable IP_String : string -> string.
Variable ParseRTCP : string -> option string * option string * string.
Variable unmarshalNG : string -> string * RawNG * bool.
Variable jsonMarshal : RawNG -> option string.

Definition correlateRTCP (srcIP : string) (srcPort : Z) (payload : string)
  : M triple :=
  let srcIPString := IP_String srcIP in
  let srcPortString := Itoa srcPort in
  let keySDP := srcIPString ++ srcPortString in
  let '(keyRTCP, jsonRTCP, info) := ParseRTCP payload in
  if negb (String.eqb info EmptyString) && isNil jsonRTCP
  then ret noMatch
  else
    hit <<- getC RTCP (keyOf keyRTCP) ;;
    match hit, keyRTCP with
    | Some corrID, Some _ => ret (jsonRTCP, Some corrID, 5)
    | _, _ =>
        hit2 <<- getC SDP keySDP ;;
        match hit2 with
        | Some corrID =>
            err <<- setC RTCP (keyOf keyRTCP) corrID 43200 ;;
            if err then ret noMatch
            else ret (jsonRTCP, Some corrID, 5)
        | None => ret noMatch
        end
    end.

(** The [range] over the decoded dictionary. *)
Fixpoint rangeNG (cookie : string) (entries : list (string * RawNG))
  : M ngOutcome :=
  match entries with
  | [] => ret (NGReturned noMatch)
  | (rawMapKey, rawMapValue) :: rest =>
      let ssrcStep : M ngOutcome :=
        if String.eqb rawMapKey "SSRC" then
          match jsonMarshal rawMapValue with
          | None => ret (NGReturned noMatch)
          | Some data =>
              hit <<- getC SIPNG cookie ;;
              match hit with
              | Some corrID => ret (NGReturned (Some data, Some corrID, 100))
              | None => rangeNG cookie rest
              end
          end
        else rangeNG cookie rest in
      if String.eqb rawMapKey "call-id" then
        match rawMapValue with
        | NGBytes callid =>
            err <<- setC SIPNG cookie callid 10 ;;
            if err then ret (NGReturned noMatch) else ssrcStep
        | _ => ret NGPanicked      (* rawMapValue.([]byte) *)
        end
      else ssrcStep
  end.

Definition correlateNG (payload : string) : M ngOutcome :=
  let '(cookie, rawNG, err) := unmarshalNG payload in
  if err then ret (NGReturned noMatch)
  else
    match rawNG with
    | NGDict rawTypes => rangeNG cookie rawTypes
    | _ => ret (NGReturned noMatch)
    end.

End WithBackend.

(** A map-backed cache for running the code: each entry keeps the
    value and the time-to-live it was written with, and a write whose
    key and value together exceed [limit] bytes is refused with an
    error.  No time passes during one call, so a lookup finds what was
    written. *)
Record SizedCache : Type := mkSizedCache {
  limit : Z;
  entries : gmap string (string * Z)
}.

#[export] Instance SizedCache_backend : CacheBackend SizedCache := {
  cacheGet c k := fst <$> entries c !! k;
  cacheSet c k v ttl :=
    if limit c <? len k + len v then (c, true)
    else (mkSizedCache (limit c) (<[k := (v, ttl)]> (entries c)), false)
}.

Definition emptyCache (lim : Z) : SizedCache := mkSizedCache lim ∅.

End Correlate.

(* ===================================================================== *)
(** ** The specification's wording, for comparison                        *)
(* ===================================================================== *)

Module SpecWords.
Import Bytes.

(** Follows the specification's words, not the code: the
    "whitespace-separated tokens" of a line are its maximal runs of
    bytes that are not white space (space, tab, line feed, vertical
    tab, form feed, carriage return). *)
Definition isWhite (c : ascii) : bool :=
  let n := nat_of_ascii c in
  ((n =? 32)%nat || ((9 <=? n)%nat && (n <=? 13)%nat))%bool.

Fixpoint tokensFrom (s cur : string) : list string :=
  match s with
  | EmptyString =>
      match cur with EmptyString => [] | _ => [cur] end
  | String c s' =>
      if isWhite c
      then match cur with
           | EmptyString => tokensFrom s' EmptyString
           | _ => cur :: tokensFrom s' EmptyString
           end
      else tokensFrom s' (cur ++ String c EmptyString)
  end.

Definition whitespaceTokens (line : string) : list string :=
  tokensFrom line EmptyString.

End SpecWords.

(* ===================================================================== *)
(** ** Sample inputs                                                      *)
(* ===================================================================== *)

Module Samples.
Import Bytes Sip Pipeline Correlate.

(** A start line with two spaces between its two tokens. *)
Definition doubleSpaceLine : string := "INVITE  SIP/2.0".

(** A payload whose first line is complete and is not a SIP start line. *)
Definition notSip : string := "hello" ++ String LF "x".

(** An INVITE whose SDP body is the one the specification quotes. *)
Definition sdpBody : string :=
  "c=IN IP4 10.0.0.5" ++ CRLF ++ "m=audio 30000 RTP/AVP 0" ++ CRLF.

Definition inviteHead : string :=
  "INVITE sip:bob@example.com SIP/2.0" ++ CRLF.

Definition invite : string :=
  inviteHead ++ "Call-ID: abc" ++ CRLF ++ CRLF ++ "v=0" ++ CRLF ++ sdpBody.

(** The same message with a connection line too short to hold an
    address. *)
Definition inviteShortIP : string :=
  inviteHead ++ "Call-ID: abc" ++ CRLF ++ CRLF ++ "v=0" ++ CRLF
  ++ "c=IN IP4 1.1.1" ++ CRLF ++ "m=audio 30000 RTP/AVP 0" ++ CRLF.

(** The INVITE with its Call-ID header spelled in lower case, and with
    an extension header whose name ends in [Call-ID] before it. *)
Definition inviteLowerCallID : string :=
  inviteHead ++ "call-id: abc" ++ CRLF ++ CRLF ++ "v=0" ++ CRLF ++ sdpBody.

Definition inviteXCallID : string :=
  inviteHead ++ "X-Call-ID: zzz" ++ CRLF ++ "Call-ID: abc" ++ CRLF ++ CRLF
  ++ "v=0" ++ CRLF ++ sdpBody.

(** The INVITE with the compact Call-ID header. *)
Definition inviteCompact : string :=
  inviteHead ++ "i: abc" ++ CRLF ++ CRLF ++ "v=0" ++ CRLF ++ sdpBody.

(** The INVITE with an explicit RTCP port attribute. *)
Definition inviteRtcp : string :=
  invite ++ "a=rtcp:40002" ++ CRLF.

(** A payload that begins with the connection line. *)
Definition bodyFirst : string :=
  sdpBody ++ "Call-ID: abc" ++ CRLF.

Definition cache1k : SizedCache := emptyCache 1024.

Definition seeded (lim : Z) (k v : string) (ttl : Z) : SizedCache :=
  mkSizedCache lim {[ k := (v, ttl) ]}.

Definition freshDecoder : Correlate.Decoder SizedCache :=
  Correlate.mkDecoder cache1k cache1k cache1k.

(** SDP cache seeded as in the specification's promotion example. *)
Definition sdpSeeded : Correlate.Decoder SizedCache :=
  Correlate.mkDecoder (seeded 1024 "10.0.0.530001" "abc" 120) cache1k cache1k.

(** The same, with an RTCP cache that has no room for the entry. *)
Definition sdpSeededRtcpFull : Correlate.Decoder SizedCache :=
  Correlate.mkDecoder (seeded 1024 "10.0.0.530001" "abc" 120) (emptyCache 3) cache1k.

(** RTCP cache seeded with SSRC 1234. *)
Definition rtcpSeeded : Correlate.Decoder SizedCache :=
  Correlate.mkDecoder cache1k (seeded 1024 "1234" "abc" 43200) cache1k.

(** Decoder stand-ins: a report for SSRC 9999, and a result that has a
    key, no derived payload and no advisory text. *)
Definition rtcp9999 (_ : string) : option string * option string * string :=
  (Some "9999", Some "{}", EmptyString).

Definition rtcpNoJson (_ : string) : option string * option string * string :=
  (Some "1234", None, EmptyString).


(** An NG message whose call-id is an integer. *)
Definition ngIntCallID (_ : string) : string * RawNG * bool :=
  ("cookie1", NGDict [("call-id", NGInt 5)], false).

Definition noJson (_ : RawNG) : option string := None.

(** A serializer stand-in for the NG statistics. *)
Definition jsonStub (_ : RawNG) : option string := Some "{}".

(** One message with both entries; the payload text selects the order
    in which the dictionary is visited. *)
Definition ngBoth (p : string) : string * RawNG * bool :=
  if String.eqb p "call-id first"
  then ("cookie1", NGDict [("call-id", NGBytes "abc"); ("SSRC", NGInt 7)], false)
  else ("cookie1", NGDict [("SSRC", NGInt 7); ("call-id", NGBytes "abc")], false).

(** The offer and the report of one exchange, told apart by the
    payload text. *)
Definition ngExchange (p : string) : string * RawNG * bool :=
  if String.eqb p "offer"
  then ("cookie1", NGDict [("call-id", NGBytes "abc")], false)
  else ("cookie1", NGDict [("SSRC", NGInt 7)], false).

(** A decoder result without an SSRC key. *)
Definition rtcpNoKey (_ : string) : option string * option string * string :=
  (None, Some "{}", EmptyString).

(** RTCP cache holding an entry under the empty key, SDP cache seeded. *)
Definition emptyKeySeeded : Correlate.Decoder SizedCache :=
  Correlate.mkDecoder (seeded 1024 "10.0.0.530001" "abc" 120)
                      (seeded 1024 EmptyString "stale" 43200) cache1k.

Definition srcAddr : string := ip4bytes 10 0 0 5.

End Samples.

(* ===================================================================== *)
(** ** Byte-string facts                                                  *)
(* ===================================================================== *)

Import Bytes.

Lemma IndexFrom_eq (i : Z) (s sep : string) :
  IndexFrom i s sep =
  if HasPrefix s sep then i
  else match s with
       | EmptyString => -1
       | String _ s' => IndexFrom (i + 1) s' sep
       end.
Proof. destruct s; reflexivity. Qed.

Lemma HasPrefix_Index0 (s sep : string) :
  HasPrefix s sep = true -> Index s sep = 0.
Proof.
  unfold Index. intros Hp. rewrite IndexFrom_eq, Hp. reflexivity.
Qed.

Lemma IndexFrom_range (s sep : string) (i : Z) :
  IndexFrom i s sep = -1 \/ i <= IndexFrom i s sep.
Proof.
  revert i. induction s as [|c s IH]; intros i; rewrite IndexFrom_eq.
  - destruct (HasPrefix EmptyString sep); [right; lia | left; reflexivity].
  - destruct (HasPrefix (String c s) sep); [right; lia |].
    destruct (IH (i + 1)) as [E | E]; [left; exact E | right; lia].
Qed.

Lemma IndexFrom_shift (s sep : string) (i : Z) :
  IndexFrom i s sep =
  if IndexFrom 0 s sep =? -1 then -1 else i + IndexFrom 0 s sep.
Proof.
  revert i. induction s as [|c s IH]; intros i;
    rewrite (IndexFrom_eq i), (IndexFrom_eq 0).
  - destruct (HasPrefix EmptyString sep); simpl; [lia | reflexivity].
  - destruct (HasPrefix (String c s) sep); simpl; [lia |].
    rewrite (IH (i + 1)), (IH (0 + 1)).
    destruct (IndexFrom_range s sep 0) as [E | E].
    + rewrite E. reflexivity.
    + destruct (IndexFrom 0 s sep =? -1) eqn:E1; [apply Z.eqb_eq in E1; lia |].
      destruct (0 + 1 + IndexFrom 0 s sep =? -1) eqn:E2; [apply Z.eqb_eq in E2; lia |].
      lia.
Qed.

Lemma upperByte_SP (c : ascii) : upperByte c = SP -> c = SP.
Proof.
  destruct c as [[] [] [] [] [] [] [] []]; vm_compute; intros E;
    first [reflexivity | discriminate E].
Qed.

Lemma cutSpace_ToUpper_None (s : string) :
  cutSpace (ToUpper s) = None -> cutSpace s = None.
Proof.
  induction s as [|c s IH]; simpl; [reflexivity |].
  destruct (Ascii.eqb (upperByte c) SP) eqn:Eu; [discriminate |].
  destruct (Ascii.eqb c SP) eqn:Ec.
  - apply Ascii.eqb_eq in Ec. subst c.
    vm_compute in Eu. discriminate Eu.
  - destruct (cutSpace (ToUpper s)) as [[a b]|]; [discriminate |].
    intros _. rewrite IH; reflexivity.
Qed.

Lemma cutSpace_app (a b : string) :
  cutSpace a = None -> cutSpace (a ++ String SP b) = Some (a, b).
Proof.
  induction a as [|c a IH]; simpl.
  - intros _. reflexivity.
  - destruct (Ascii.eqb c SP); [discriminate |].
    destruct (cutSpace a) as [[x y]|]; [discriminate |].
    intros _. rewrite IH; reflexivity.
Qed.

Lemma HasPrefix_space (c : ascii) (s : string) :
  HasPrefix (String c s) " " = Ascii.eqb c SP.
Proof.
  change (HasPrefix (String c s) " ") with (if Ascii.eqb SP c then true else false).
  rewrite Ascii.eqb_sym. destruct (Ascii.eqb c SP); reflexivity.
Qed.

Lemma cutSpace_None_Index (s : string) :
  Index s " " = -1 -> cutSpace s = None.
Proof.
  unfold Index. induction s as [|c s IH]; [reflexivity |].
  rewrite IndexFrom_eq, HasPrefix_space. cbn [cutSpace].
  destruct (Ascii.eqb c SP); [discriminate |].
  rewrite IndexFrom_shift.
  destruct (IndexFrom 0 s " " =? -1) eqn:E.
  - apply Z.eqb_eq in E. intros _. rewrite (IH E). reflexivity.
  - apply Z.eqb_neq in E. intros H.
    destruct (IndexFrom_range s " " 0) as [E' | E']; lia.
Qed.

Lemma HasPrefix_ToUpper (s p : string) :
  HasPrefix s p = true -> HasPrefix (ToUpper s) (ToUpper p) = true.
Proof.
  revert s. induction p as [|a p IH]; intros s; [reflexivity |].
  destruct s as [|b s]; simpl; [discriminate |].
  destruct (Ascii.eqb a b) eqn:E; [| discriminate].
  apply Ascii.eqb_eq in E. subst b. rewrite Ascii.eqb_refl. apply IH.
Qed.

Lemma SplitN_three_tokens (a b c : string) :
  cutSpace a = None -> cutSpace b = None ->
  SplitN (a ++ " " ++ b ++ " " ++ c) 3 = [a; b; c].
Proof.
  intros Ha Hb.
  change (a ++ " " ++ b ++ " " ++ c) with (a ++ String SP (b ++ String SP c)).
  cbn [SplitN]. rewrite (cutSpace_app a _ Ha).
  cbn [SplitN]. rewrite (cutSpace_app b _ Hb). reflexivity.
Qed.

(* ===================================================================== *)
(** ** Properties of the SIP decoder                                      *)
(* ===================================================================== *)

Import Sip.

Lemma method_in_range (m : Z) :
  1 <= m <= 15 ->
  m = 1 \/ m = 2 \/ m = 3 \/ m = 4 \/ m = 5 \/ m = 6 \/ m = 7 \/ m = 8 \/
  m = 9 \/ m = 10 \/ m = 11 \/ m = 12 \/ m = 13 \/ m = 14 \/ m = 15.
Proof. lia. Qed.

Ltac each_method H :=
  apply method_in_range in H;
  repeat (destruct H as [H | H]); subst.

Lemma GetSIPMethod_of_name (tok : string) (m : SIPMethod) :
  1 <= m <= 15 -> ToUpper tok = SIPMethod_String m ->
  GetSIPMethod tok = (m, None).
Proof.
  intros Hm Hu. unfold GetSIPMethod. rewrite Hu. clear Hu.
  each_method Hm; reflexivity.
Qed.

Lemma method_name_shape (m : SIPMethod) :
  1 <= m <= 15 ->
  cutSpace (SIPMethod_String m) = None /\
  HasPrefix (SIPMethod_String m) "SIP" = false.
Proof. intros Hm. each_method Hm; split; reflexivity. Qed.

Lemma GetSIPVersion_of_name (tok : string) (v : SIPVersion) :
  v = SIPVersion1 \/ v = SIPVersion2 ->
  ToUpper tok = SIPVersion_String v ->
  GetSIPVersion tok = (v, None).
Proof.
  intros Hv Hu. unfold GetSIPVersion. rewrite Hu.
  destruct Hv as [-> | ->]; reflexivity.
Qed.

Lemma cutSpace_None_Count (x : string) :
  cutSpace x = None <-> Count x SP = 0%nat.
Proof.
  induction x as [|c x IH]; [split; reflexivity |].
  cbn [cutSpace Count]. destruct (Ascii.eqb c SP).
  - split; [discriminate | cbn; lia].
  - destruct (cutSpace x) as [[a b]|].
    + split; [discriminate |]. intros E. cbn in E. apply IH in E. discriminate E.
    + split; [intros _; cbn; apply IH; reflexivity | reflexivity].
Qed.

Lemma cutSpace_Some_Count (x a b : string) :
  cutSpace x = Some (a, b) -> Count x SP = S (Count b SP).
Proof.
  revert a. induction x as [|c x IH]; intros a; [discriminate |].
  cbn [cutSpace Count]. destruct (Ascii.eqb c SP).
  - intros E. inversion E; subst. reflexivity.
  - destruct (cutSpace x) as [[a' b']|]; [| discriminate].
    intros E. inversion E; subst. cbn. apply (IH a'). reflexivity.
Qed.

(** The number of parts is one more than the number of spaces, up to
    the limit of three. *)
Lemma SplitN_three_length (line : string) :
  List.length (SplitN line 3) = Nat.min 3 (S (Count line SP)).
Proof.
  cbn [SplitN]. destruct (cutSpace line) as [[a rest]|] eqn:E1.
  - rewrite (cutSpace_Some_Count _ _ _ E1).
    destruct (cutSpace rest) as [[b r2]|] eqn:E2.
    + rewrite (cutSpace_Some_Count _ _ _ E2). reflexivity.
    + apply cutSpace_None_Count in E2. rewrite E2. reflexivity.
  - apply cutSpace_None_Count in E1. rewrite E1. reflexivity.
Qed.

Lemma GetSIPVersion_error_kind (x : string) :
  snd (GetSIPVersion x) = None \/ snd (GetSIPVersion x) = Some (InvalidVersion x).
Proof.
  unfold GetSIPVersion.
  repeat match goal with
         | |- context [String.eqb ?a ?b] => destruct (String.eqb a b)
         end; first [left; reflexivity | right; reflexivity].
Qed.

Lemma GetSIPMethod_error_kind (x : string) :
  snd (GetSIPMethod x) = None \/ snd (GetSIPMethod x) = Some (InvalidMethod x).
Proof.
  unfold GetSIPMethod.
  repeat match goal with
         | |- context [String.eqb ?a ?b] => destruct (String.eqb a b)
         end; first [left; reflexivity | right; reflexivity].
Qed.

(** C7, as amended.  A start line that holds fewer than two space
    characters makes ParseFirstLine fail with the "invalid first SIP
    line" error, and the SIP message is returned as it was: version,
    method, response code and response status are not assigned.  A
    line with two or more space characters, wherever they stand, never
    fails with that error: the split is at single spaces, not at runs
    of white space. *)
Theorem ParseFirstLine_fewer_than_two_spaces (s : SIP) (firstLine : string) :
  ((Count firstLine SP < 2)%nat ->
   ParseFirstLine s firstLine = (s, Some (InvalidFirstLine firstLine))) /\
  ((2 <= Count firstLine SP)%nat ->
   forall l, snd (ParseFirstLine s firstLine) <> Some (InvalidFirstLine l)).
Proof.
  pose proof (SplitN_three_length firstLine) as Hlen.
  unfold ParseFirstLine. split; intros Hc.
  - destruct (SplitN firstLine 3) as [|f0 [|f1 [|f2 [|f3 r]]]]; cbn [List.length] in Hlen;
      first [reflexivity | lia].
  - intros l.
    destruct (SplitN firstLine 3) as [|f0 [|f1 [|f2 [|f3 r]]]]; cbn [List.length] in Hlen;
      try lia.
    destruct (HasPrefix f0 "SIP").
    + destruct (GetSIPVersion_error_kind f0) as [E | E];
        destruct (GetSIPVersion f0) as [v [e|]]; cbn [snd] in E; try discriminate E.
      * destruct (Atoi f1) as [code [|]]; cbn [snd]; discriminate.
      * inversion E; subst. cbn [snd]. discriminate.
    + destruct (GetSIPMethod_error_kind f0) as [E | E];
        destruct (GetSIPMethod f0) as [m [e|]]; cbn [snd] in E; try discriminate E.
      * destruct (GetSIPVersion_error_kind f2) as [E2 | E2];
          destruct (GetSIPVersion f2) as [v [e|]]; cbn [snd] in E2; try discriminate E2.
        -- cbn [snd]. discriminate.
        -- inversion E2; subst. cbn [snd]. discriminate.
      * inversion E; subst. cbn [snd]. discriminate.
Qed.

Lemma ParseFirstLine_fewer_than_two_spaces_witness :
  ParseFirstLine NewSIP "INVITE sip:bob@example.com"
  = (NewSIP, Some (InvalidFirstLine "INVITE sip:bob@example.com")).
Proof.
  apply (proj1 (ParseFirstLine_fewer_than_two_spaces NewSIP "INVITE sip:bob@example.com")).
  vm_compute. repeat constructor.
Defined.

(** C7, the claim as worded, fails: the line [INVITE  SIP/2.0] (two
    spaces) holds two whitespace-separated tokens, yet it is cut into
    the three parts [INVITE], the empty string and [SIP/2.0], and
    ParseFirstLine accepts it, assigning method and version. *)
Lemma ParseFirstLine_two_tokens_accepted :
  (length (SpecWords.whitespaceTokens Samples.doubleSpaceLine) < 3)%nat /\
  ParseFirstLine NewSIP Samples.doubleSpaceLine
  = (setVersion (setMethod NewSIP SIPMethodInvite) SIPVersion2, None).
Proof. split; [vm_compute; repeat constructor | reflexivity]. Qed.

(** C8.  For a request line [METHOD uri VERSION] whose method is, up to
    letter case, one of the fifteen methods and whose version is, up to
    letter case, SIP/1.0 or SIP/2.0, ParseFirstLine succeeds, and the
    String functions of the parsed method and version give back the
    method token in upper case and the canonical version string. *)
Theorem ParseFirstLine_request_roundtrip
    (s : SIP) (method uri version : string) (m : SIPMethod) (v : SIPVersion) :
  1 <= m <= 15 -> ToUpper method = SIPMethod_String m ->
  v = SIPVersion1 \/ v = SIPVersion2 -> ToUpper version = SIPVersion_String v ->
  Index uri " " = -1 ->
  let r := ParseFirstLine s (method ++ " " ++ uri ++ " " ++ version) in
  snd r = None /\
  Method (fst r) = m /\ Version (fst r) = v /\
  IsResponse (fst r) = IsResponse s /\
  SIPMethod_String (Method (fst r)) = ToUpper method /\
  SIPVersion_String (Version (fst r)) = ToUpper version.
Proof.
  intros Hm Hmu Hv Hvu Huri r. subst r.
  destruct (method_name_shape m Hm) as [Hsp Hpre].
  rewrite <- Hmu in Hsp, Hpre.
  apply cutSpace_ToUpper_None in Hsp.
  assert (Hnp : HasPrefix method "SIP" = false).
  { destruct (HasPrefix method "SIP") eqn:E; [| reflexivity].
    apply HasPrefix_ToUpper in E. change (ToUpper "SIP") with "SIP" in E.
    congruence. }
  unfold ParseFirstLine.
  rewrite (SplitN_three_tokens method uri version Hsp (cutSpace_None_Index uri Huri)).
  rewrite Hnp, (GetSIPMethod_of_name method m Hm Hmu),
          (GetSIPVersion_of_name version v Hv Hvu).
  simpl. rewrite Hmu, Hvu. repeat split; reflexivity.
Qed.

Lemma ParseFirstLine_request_roundtrip_witness :
  let r := ParseFirstLine NewSIP ("invite" ++ " " ++ "sip:bob@example.com" ++ " " ++ "sip/2.0") in
  snd r = None /\
  Method (fst r) = SIPMethodInvite /\ Version (fst r) = SIPVersion2 /\
  IsResponse (fst r) = IsResponse NewSIP /\
  SIPMethod_String (Method (fst r)) = ToUpper "invite" /\
  SIPVersion_String (Version (fst r)) = ToUpper "sip/2.0".
Proof.
  apply (ParseFirstLine_request_roundtrip NewSIP "invite" "sip:bob@example.com"
           "sip/2.0" SIPMethodInvite SIPVersion2).
  - vm_compute. split; discriminate.
  - reflexivity.
  - right; reflexivity.
  - reflexivity.
  - reflexivity.
Defined.

(* ===================================================================== *)
(** ** Properties of the packet pipeline                                  *)
(* ===================================================================== *)

Import Pipeline.

Lemma sipLayerOf_None (data : string) :
  (exists e, decodeSIP data = inr e) -> sipLayerOf data = None.
Proof. intros [e He]. unfold sipLayerOf. rewrite He. reflexivity. Qed.

Lemma sipLayerOf_Some (data : string) (s : SIP) :
  sipLayerOf data = Some s -> decodeSIP data = inl s.
Proof.
  unfold sipLayerOf. destruct (decodeSIP data); intros E; inversion E; reflexivity.
Qed.

Section PipelineProperties.

Context {D : Type}.
Variable DefragIPv4 : D -> IPv4 -> D * (option IPv4 * bool).
Variable redispatch : IPv4 -> list Layer.
Variable Cfg : Config.

(** SIP decoding fails on the payload of every UDP and TCP layer. *)
Let noSip (ls : list Layer) : Prop :=
  forall t, In (LayerUDP t) ls \/ In (LayerTCP t) ls ->
            exists e, decodeSIP (tPayload t) = inr e.

Lemma noSip_tail (l : Layer) (ls : list Layer) : noSip (l :: ls) -> noSip ls.
Proof. intros H t [Ht | Ht]; apply H; [left | right]; right; exact Ht. Qed.

Lemma walkLayers_no_packet (ls : list Layer) :
  noSip ls ->
  forall dfr all pkt p,
    snd (walkLayers DefragIPv4 redispatch Cfg dfr all ls pkt) <> Returned (Some p).
Proof.
  induction ls as [|layer rest IH]; intros Hno dfr all pkt p; [discriminate |].
  specialize (IH (noSip_tail _ _ Hno)).
  destruct layer as [ip | u | t |]; cbn [walkLayers].
  - destruct (firstIPv4 all) as [ip4|]; [| apply IH].
    destruct (Reasm Cfg).
    + destruct (DefragIPv4 dfr ip4) as [dfr' [[r|] [|]]];
        try (destruct (negb (Length r =? Length ip4)));
        try (destruct (ip2int (SrcIP ip4)); [destruct (ip2int (DstIP ip4)) |]);
        first [apply IH | discriminate].
    + destruct (ip2int (SrcIP ip4)); [destruct (ip2int (DstIP ip4)) |];
        first [apply IH | discriminate].
  - destruct (firstUDP all) as [udp|]; [| apply IH].
    rewrite (sipLayerOf_None (LayerPayload (LayerUDP u))); [apply IH |].
    apply Hno. left; left; reflexivity.
  - destruct (firstTCP all) as [tcp|]; [| apply IH].
    rewrite (sipLayerOf_None (LayerPayload (LayerTCP t))); [apply IH |].
    apply Hno. right; left; reflexivity.
  - apply IH.
Qed.

Lemma walkLayers_null (ls : list Layer) :
  noSip ls -> Reasm Cfg = false ->
  forall dfr all pkt,
    (forall ip, firstIPv4 all = Some ip ->
                ip2int (SrcIP ip) <> None /\ ip2int (DstIP ip) <> None) ->
    walkLayers DefragIPv4 redispatch Cfg dfr all ls pkt = (dfr, Returned None).
Proof.
  intros Hno Hre. induction ls as [|layer rest IH]; intros dfr all pkt Hip; [reflexivity |].
  specialize (IH (noSip_tail _ _ Hno)).
  destruct layer as [ip | u | t |]; cbn [walkLayers].
  - destruct (firstIPv4 all) as [ip4|] eqn:E;
      [| apply IH; intros ip0 H0; rewrite E in H0; discriminate H0].
    rewrite Hre. destruct (Hip ip4 eq_refl) as [Hs Hd].
    destruct (ip2int (SrcIP ip4)); [| congruence].
    destruct (ip2int (DstIP ip4)); [| congruence].
    apply IH. rewrite E. exact Hip.
  - destruct (firstUDP all) as [udp|]; [| apply IH; exact Hip].
    rewrite (sipLayerOf_None (LayerPayload (LayerUDP u))); [apply IH; exact Hip |].
    apply Hno. left; left; reflexivity.
  - destruct (firstTCP all) as [tcp|]; [| apply IH; exact Hip].
    rewrite (sipLayerOf_None (LayerPayload (LayerTCP t))); [apply IH; exact Hip |].
    apply Hno. right; left; reflexivity.
  - apply IH; exact Hip.
Qed.

(** A packet comes out of the loop only at a UDP or TCP layer whose
    payload decodes as SIP, and it carries that message's headers and a
    payload. *)
Lemma walkLayers_packet_from_sip (ls : list Layer) :
  forall dfr all pkt p,
    snd (walkLayers DefragIPv4 redispatch Cfg dfr all ls pkt) = Returned (Some p) ->
    exists t s,
      (In (LayerUDP t) ls \/ In (LayerTCP t) ls) /\
      decodeSIP (tPayload t) = inl s /\
      SipHeader p = Some (Headers s) /\ Payload p <> None.
Proof.
  induction ls as [|layer rest IH]; intros dfr all pkt p; [discriminate |].
  assert (Hrest : forall dfr' all' pkt',
            snd (walkLayers DefragIPv4 redispatch Cfg dfr' all' rest pkt') = Returned (Some p) ->
            exists t s,
              (In (LayerUDP t) (layer :: rest) \/ In (LayerTCP t) (layer :: rest)) /\
              decodeSIP (tPayload t) = inl s /\
              SipHeader p = Some (Headers s) /\ Payload p <> None).
  { intros dfr' all' pkt' E. destruct (IH _ _ _ _ E) as (t & s & [Hin | Hin] & Hrem);
      exists t, s; (split; [| exact Hrem]); [left | right]; right; exact Hin. }
  destruct layer as [ip | u | t |]; cbn [walkLayers].
  - destruct (firstIPv4 all) as [ip4|]; [| apply Hrest].
    destruct (Reasm Cfg).
    + destruct (DefragIPv4 dfr ip4) as [dfr' [[r|] [|]]];
        try (destruct (negb (Length r =? Length ip4)));
        try (destruct (ip2int (SrcIP ip4)); [destruct (ip2int (DstIP ip4)) |]);
        first [apply Hrest | discriminate].
    + destruct (ip2int (SrcIP ip4)); [destruct (ip2int (DstIP ip4)) |];
        first [apply Hrest | discriminate].
  - destruct (firstUDP all) as [udp|]; [| apply Hrest].
    destruct (sipLayerOf (LayerPayload (LayerUDP u))) as [s|] eqn:E; [| apply Hrest].
    cbn [snd]. intros Hp. inversion Hp; subst p. exists u, s.
    repeat split; [left; left; reflexivity | apply sipLayerOf_Some; exact E | discriminate].
  - destruct (firstTCP all) as [tcp|]; [| apply Hrest].
    destruct (sipLayerOf (LayerPayload (LayerTCP t))) as [s|] eqn:E; [| apply Hrest].
    cbn [snd]. intros Hp. inversion Hp; subst p. exists t, s.
    repeat split; [right; left; reflexivity | apply sipLayerOf_Some; exact E | discriminate].
  - apply Hrest.
Qed.

(** C1, as amended.  When SIP decoding fails on the payload of every
    UDP and TCP layer of the frame, Process returns no packet: its
    result is never a NormalizedPacket, and with reassembly switched
    off and addresses of four (or sixteen) bytes it is exactly the null
    result. *)
Theorem Process_null_when_sip_decoding_fails
    (d : Decoder D) (data : Frame) (ci : CaptureInfo) :
  (forall t, In (LayerUDP t) (frameLayers data) \/ In (LayerTCP t) (frameLayers data) ->
             exists e, decodeSIP (tPayload t) = inr e) ->
  (forall p, snd (Process DefragIPv4 redispatch Cfg d data ci) <> Returned (Some p)) /\
  (Reasm Cfg = false ->
   (forall ip, firstIPv4 (frameLayers data) = Some ip ->
               ip2int (SrcIP ip) <> None /\ ip2int (DstIP ip) <> None) ->
   snd (Process DefragIPv4 redispatch Cfg d data ci) = Returned None).
Proof.
  intros Hno. unfold Process. split.
  - intros p.
    destruct (match appPayload data with
              | Some app => _
              | None => false
              end); [discriminate |].
    pose proof (walkLayers_no_packet (frameLayers data) Hno (defragger d)
                  (frameLayers data)) as W.
    match goal with
    | |- context [walkLayers _ _ _ _ _ _ ?k] => specialize (W k p)
    end.
    destruct (walkLayers _ _ _ _ _ _ _) as [dfr r]. exact W.
  - intros Hre Hip.
    destruct (match appPayload data with
              | Some app => _
              | None => false
              end); [reflexivity |].
    rewrite (walkLayers_null (frameLayers data) Hno Hre _ _ _ Hip). reflexivity.
Qed.

(** Process hands out a packet only for a UDP or TCP layer whose
    payload decodes as SIP; the packet then carries the headers of that
    message. *)
Theorem Process_packet_only_from_sip
    (d : Decoder D) (data : Frame) (ci : CaptureInfo) (p : Packet) :
  snd (Process DefragIPv4 redispatch Cfg d data ci) = Returned (Some p) ->
  exists t s,
    (In (LayerUDP t) (frameLayers data) \/ In (LayerTCP t) (frameLayers data)) /\
    decodeSIP (tPayload t) = inl s /\
    SipHeader p = Some (Headers s) /\ Payload p <> None.
Proof.
  unfold Process.
  destruct (match appPayload data with
            | Some app => _
            | None => false
            end); [discriminate |].
  match goal with
  | |- context [walkLayers _ _ _ ?a ?b ?c ?k] =>
      pose proof (walkLayers_packet_from_sip c a b k p) as W
  end.
  destruct (walkLayers _ _ _ _ _ _ _) as [dfr r]. exact W.
Qed.

End PipelineProperties.

Lemma Process_null_when_sip_decoding_fails_witness :
  (forall p, runPlain (udpFrame Samples.notSip) <> Returned (Some p)) /\
  (Reasm plainCfg = false ->
   (forall ip, firstIPv4 (frameLayers (udpFrame Samples.notSip)) = Some ip ->
               ip2int (SrcIP ip) <> None /\ ip2int (DstIP ip) <> None) ->
   runPlain (udpFrame Samples.notSip) = Returned None).
Proof.
  apply (Process_null_when_sip_decoding_fails noDefrag noRedispatch plainCfg
           (Pipeline.mkDecoder "probe" tt) (udpFrame Samples.notSip)
           (mkCaptureInfo 1500000000 250000000)).
  intros t [H | H]; simpl in H.
  - destruct H as [H | [H | [H | [H | []]]]]; try discriminate H.
    inversion H; subst t. exists (InvalidFirstLine "hello"). reflexivity.
  - destruct H as [H | [H | [H | [H | []]]]]; discriminate H.
Defined.

(** C1, the claim as worded, fails: a UDP frame, and a TCP frame, whose
    payload is a complete line that is no SIP start line.  SIP decoding
    reports an error and Process returns null, not a packet. *)
Lemma Process_drops_undecodable_payload :
  decodeSIP Samples.notSip = inr (InvalidFirstLine "hello") /\
  runPlain (udpFrame Samples.notSip) = Returned None /\
  runPlain (tcpFrame Samples.notSip) = Returned None.
Proof. repeat split; reflexivity. Qed.

(* ===================================================================== *)
(** ** Slicing facts used by the correlator proofs                        *)
(* ===================================================================== *)

Lemma drop_app_length (a b : string) : drop (String.length a) (a ++ b) = b.
Proof. induction a as [|c a IH]; [reflexivity | exact IH]. Qed.

Lemma take_app_length (a b : string) : take (String.length a) (a ++ b) = a.
Proof. induction a as [|c a IH]; [reflexivity | simpl; rewrite IH; reflexivity]. Qed.

Lemma drop_drop (n m : nat) (s : string) : drop (n + m) s = drop m (drop n s).
Proof.
  revert s. induction n as [|n IH]; intros s; [reflexivity |].
  destruct s as [|c s]; simpl; [destruct m; reflexivity | apply IH].
Qed.

Lemma HasPrefix_app_l (s a b : string) :
  HasPrefix s (a ++ b) = true -> HasPrefix s a = true.
Proof.
  revert s. induction a as [|c a IH]; intros s; [reflexivity |].
  destruct s as [|c' s]; simpl; [discriminate |].
  destruct (Ascii.eqb c c'); [apply IH | discriminate].
Qed.

Lemma IndexFrom_skip (c : ascii) (s sep : string) (i : Z) :
  HasPrefix (String c s) sep = false ->
  IndexFrom i (String c s) sep = IndexFrom (i + 1) s sep.
Proof. intros Hp. rewrite IndexFrom_eq, Hp. reflexivity. Qed.

(* ===================================================================== *)
(** ** Properties of the correlation engine                               *)
(* ===================================================================== *)

Import Correlate.

Section SDPProperties.

Context {C : Type} `{CacheBackend C}.

(** A failed length check in any of the three extractions ends the
    call before the write. *)
Lemma cacheSDPIPPort_check_failure
    (d : Correlate.Decoder C) (payload : string) :
  Index (drop (Z.to_nat (Index payload "c=IN IP")) payload) CRLF < 16
  \/ (0 < Index payload "a=rtcp:" /\
      Index (drop (Z.to_nat (Index payload "a=rtcp:")) payload) CRLF < 11)
  \/ (Index payload "a=rtcp:" <= 0 /\
      Index (drop (Z.to_nat (Index payload "m=audio ")) payload) " RTP" < 12)
  \/ (0 < Index payload "Call-ID: " /\
      Index (drop (Z.to_nat (Index payload "Call-ID: ")) payload) CRLF < 10)
  \/ (Index payload "Call-ID: " <= 0 /\ 0 < Index payload "Call-ID:" /\
      Index (drop (Z.to_nat (Index payload "Call-ID:")) payload) CRLF < 9)
  \/ (Index payload "Call-ID: " <= 0 /\ Index payload "Call-ID:" <= 0 /\
      0 < Index payload "i: " /\
      Index (drop (Z.to_nat (Index payload "i: ")) payload) CRLF < 4)
  \/ (Index payload "Call-ID: " <= 0 /\ Index payload "Call-ID:" <= 0 /\
      Index payload "i: " <= 0) ->
  cacheSDPIPPort payload d = (tt, d, []).
Proof.
  intros Hfail. unfold cacheSDPIPPort.
  destruct ((0 <? Index payload "c=IN IP") && (0 <? Index payload "m=audio "));
    [| reflexivity].
  unfold sdpIP.
  destruct (16 <=? Index (drop (Z.to_nat (Index payload "c=IN IP")) payload) CRLF) eqn:EIP;
    [| reflexivity].
  apply Z.leb_le in EIP.
  destruct Hfail as [F | Hfail]; [lia |].
  match goal with
  | |- context [sdpPort payload ?p ?ip] => destruct (sdpPort payload p ip) as [ipPort|] eqn:EP
  end; [| reflexivity].
  unfold sdpPort in EP.
  destruct (0 <? Index payload "a=rtcp:") eqn:ER.
  - apply Z.ltb_lt in ER.
    destruct (11 <=? Index (drop (Z.to_nat (Index payload "a=rtcp:")) payload) CRLF) eqn:E11;
      [| discriminate EP].
    apply Z.leb_le in E11.
    destruct Hfail as [F | [F | Hfail]]; [lia | lia |].
    assert (HC : sdpCallID payload = None).
    { unfold sdpCallID, callIDAt.
      repeat match goal with
             | |- context [?a <? ?b] => destruct (Z.ltb_spec a b)
             | |- context [?a <=? ?b] => destruct (Z.leb_spec a b)
             end; try reflexivity; exfalso; lia. }
    rewrite HC. reflexivity.
  - apply Z.ltb_ge in ER.
    destruct (12 <=? Index (drop (Z.to_nat (Index payload "m=audio ")) payload) " RTP") eqn:E12;
      [| discriminate EP].
    apply Z.leb_le in E12.
    destruct Hfail as [F | [F | Hfail]]; [lia | lia |].
    assert (HC : sdpCallID payload = None).
    { unfold sdpCallID, callIDAt.
      repeat match goal with
             | |- context [?a <? ?b] => destruct (Z.ltb_spec a b)
             | |- context [?a <=? ?b] => destruct (Z.leb_spec a b)
             end; try reflexivity; exfalso; lia. }
    rewrite HC. reflexivity.
Qed.

(** C4.  If the connection line is shorter than 16 bytes, or the
    [a=rtcp:] construct shorter than 11, or (without [a=rtcp:]) the
    [m=audio ] construct shorter than 12, or the Call-ID extraction has
    no result, cacheSDPIPPort makes no cache call and leaves the decoder
    as it was, whatever the other fields hold. *)
Theorem cacheSDPIPPort_aborts_without_write
    (d : Correlate.Decoder C) (payload : string) :
  Index (drop (Z.to_nat (Index payload "c=IN IP")) payload) CRLF < 16
  \/ (0 < Index payload "a=rtcp:" /\
      Index (drop (Z.to_nat (Index payload "a=rtcp:")) payload) CRLF < 11)
  \/ (Index payload "a=rtcp:" <= 0 /\
      Index (drop (Z.to_nat (Index payload "m=audio ")) payload) " RTP" < 12)
  \/ (0 < Index payload "Call-ID: " /\
      Index (drop (Z.to_nat (Index payload "Call-ID: ")) payload) CRLF < 10)
  \/ (Index payload "Call-ID: " <= 0 /\ 0 < Index payload "Call-ID:" /\
      Index (drop (Z.to_nat (Index payload "Call-ID:")) payload) CRLF < 9)
  \/ (Index payload "Call-ID: " <= 0 /\ Index payload "Call-ID:" <= 0 /\
      0 < Index payload "i: " /\
      Index (drop (Z.to_nat (Index payload "i: ")) payload) CRLF < 4)
  \/ (Index payload "Call-ID: " <= 0 /\ Index payload "Call-ID:" <= 0 /\
      Index payload "i: " <= 0) ->
  cacheSDPIPPort payload d = (tt, d, []).
Proof. apply cacheSDPIPPort_check_failure. Qed.

(** C10.  A payload that begins with [c=IN IP], or with [m=audio ],
    has that marker at offset 0, which the guard [pos > 0] treats as
    absent: cacheSDPIPPort makes no cache call.  The Call-ID search
    applies the same test: for a payload that begins with [Call-ID: ]
    both Call-ID spellings are passed over, and without an [i: ] marker
    at a positive offset nothing is written. *)
Theorem cacheSDPIPPort_marker_at_offset_zero
    (d : Correlate.Decoder C) (payload : string) :
  HasPrefix payload "c=IN IP" = true
  \/ HasPrefix payload "m=audio " = true
  \/ (HasPrefix payload "Call-ID: " = true /\ Index payload "i: " <= 0) ->
  cacheSDPIPPort payload d = (tt, d, []).
Proof.
  intros [Hp | [Hp | [Hp Hi]]].
  - unfold cacheSDPIPPort. rewrite (HasPrefix_Index0 _ _ Hp). reflexivity.
  - unfold cacheSDPIPPort. rewrite (HasPrefix_Index0 _ _ Hp).
    rewrite andb_false_r. reflexivity.
  - apply cacheSDPIPPort_check_failure.
    do 6 right.
    assert (Hp' : HasPrefix payload "Call-ID:" = true).
    { apply (HasPrefix_app_l payload "Call-ID:" " "). exact Hp. }
    rewrite (HasPrefix_Index0 _ _ Hp), (HasPrefix_Index0 _ _ Hp'). lia.
Qed.

End SDPProperties.

Lemma cacheSDPIPPort_aborts_without_write_witness :
  cacheSDPIPPort Samples.inviteShortIP Samples.freshDecoder
  = (tt, Samples.freshDecoder, []).
Proof.
  apply (cacheSDPIPPort_aborts_without_write Samples.freshDecoder Samples.inviteShortIP).
  left. vm_compute. reflexivity.
Defined.

Lemma cacheSDPIPPort_marker_at_offset_zero_witness :
  cacheSDPIPPort Samples.bodyFirst Samples.freshDecoder
  = (tt, Samples.freshDecoder, []).
Proof.
  apply (cacheSDPIPPort_marker_at_offset_zero Samples.freshDecoder Samples.bodyFirst).
  left. reflexivity.
Defined.

Section RTCPProperties.

Context {C : Type} `{CacheBackend C}.
Variable IP_String : string -> string.
Variable ParseRTCP : string -> option string * option string * string.

(** C2, as amended.  When the decoder yields SSRC key [k] and does not
    signal failure, correlateRTCP looks up the RTCP cache by [k]; a hit
    returns (decoded payload, cached Call-ID, 5) and no call is made on
    the SDP cache.  On a miss it looks up the SDP cache by source IP
    text followed by source port text; on a hit there it writes
    [k -> Call-ID] to the RTCP cache with a time-to-live of 43200
    seconds and returns record type 5 if the write reports no error,
    the no-match triple if it does.  When both lookups miss it returns
    the no-match triple. *)
Theorem correlateRTCP_lookup_order
    (d : Correlate.Decoder C) (srcIP : string) (srcPort : Z) (payload : string)
    (k : string) (json : option string) (info : string) :
  ParseRTCP payload = (Some k, json, info) ->
  info = EmptyString \/ json <> None ->
  correlateRTCP IP_String ParseRTCP srcIP srcPort payload d
  = match cacheGet (RTCPCache d) k with
    | Some corrID => ((json, Some corrID, 5), d, [OpGet RTCP k])
    | None =>
        match cacheGet (SDPCache d) (IP_String srcIP ++ Itoa srcPort) with
        | Some corrID =>
            ((if snd (cacheSet (RTCPCache d) k corrID 43200)
              then noMatch else (json, Some corrID, 5)),
             withCache RTCP d (fst (cacheSet (RTCPCache d) k corrID 43200)),
             [OpGet RTCP k;
              OpGet SDP (IP_String srcIP ++ Itoa srcPort);
              OpSet RTCP k corrID 43200])
        | None =>
            (noMatch, d,
             [OpGet RTCP k; OpGet SDP (IP_String srcIP ++ Itoa srcPort)])
        end
    end.
Proof.
  intros Hparse Hok. unfold correlateRTCP. rewrite Hparse.
  assert (Hgate : negb (String.eqb info EmptyString) && isNil json = false).
  { destruct Hok as [-> | Hj]; [reflexivity |].
    destruct json; [apply andb_false_r | congruence]. }
  rewrite Hgate. change (keyOf (Some k)) with k.
  unfold bind, getC, setC, ret. cbn [cacheOf].
  destruct (cacheGet (RTCPCache d) k) as [corrID|]; [reflexivity |].
  destruct (cacheGet (SDPCache d) (IP_String srcIP ++ Itoa srcPort)) as [corrID|];
    [| reflexivity].
  destruct (cacheSet (RTCPCache d) k corrID 43200) as [x [|]]; reflexivity.
Qed.

(** A failure the decoder reports with an advisory text: a null derived
    payload together with a non-empty text gives the no-match triple,
    no cache call, and the decoder as it was. *)
Lemma correlateRTCP_advised_failure
    (d : Correlate.Decoder C) (srcIP : string) (srcPort : Z) (payload : string)
    (k : option string) (info : string) :
  ParseRTCP payload = (k, None, info) ->
  info <> EmptyString ->
  correlateRTCP IP_String ParseRTCP srcIP srcPort payload d = (noMatch, d, []).
Proof.
  intros Hparse Hinfo. unfold correlateRTCP. rewrite Hparse.
  apply String.eqb_neq in Hinfo. rewrite Hinfo. reflexivity.
Qed.


End RTCPProperties.

Lemma correlateRTCP_lookup_order_witness :
  correlateRTCP ipv4String Samples.rtcp9999 Samples.srcAddr 30001 "rr" Samples.sdpSeeded
  = ((Some "{}", Some "abc", 5),
     withCache RTCP Samples.sdpSeeded (Samples.seeded 1024 "9999" "abc" 43200),
     [OpGet RTCP "9999"; OpGet SDP "10.0.0.530001"; OpSet RTCP "9999" "abc" 43200]).
Proof.
  etransitivity.
  - apply (correlateRTCP_lookup_order ipv4String Samples.rtcp9999 Samples.sdpSeeded
             Samples.srcAddr 30001 "rr" "9999" (Some "{}") EmptyString).
    + reflexivity.
    + left; reflexivity.
  - vm_compute. reflexivity.
Defined.

(** C2, the claim as worded, fails: the SSRC lookup misses, the SDP
    lookup by [10.0.0.530001] hits, the write to the RTCP cache reports
    an error, and correlateRTCP returns the no-match triple, not record
    type 5. *)
Lemma correlateRTCP_failed_promotion_is_no_match :
  cacheGet (RTCPCache Samples.sdpSeededRtcpFull) "9999" = None /\
  cacheGet (SDPCache Samples.sdpSeededRtcpFull) "10.0.0.530001" = Some "abc" /\
  correlateRTCP ipv4String Samples.rtcp9999 Samples.srcAddr 30001 "rr"
    Samples.sdpSeededRtcpFull
  = (noMatch, Samples.sdpSeededRtcpFull,
     [OpGet RTCP "9999"; OpGet SDP "10.0.0.530001"; OpSet RTCP "9999" "abc" 43200]).
Proof. repeat split; reflexivity. Qed.


(** The contract is needed.  A decoder that returned a null derived
    payload with an empty advisory text would not stop correlateRTCP:
    the RTCP cache is consulted, SSRC 1234 is found there and record
    type 5 is returned with a null payload. *)
Lemma correlateRTCP_null_payload_still_looked_up :
  Samples.rtcpNoJson "rr" = (Some "1234", None, EmptyString) /\
  correlateRTCP ipv4String Samples.rtcpNoJson Samples.srcAddr 30001 "rr" Samples.rtcpSeeded
  = ((None, Some "abc", 5), Samples.rtcpSeeded, [OpGet RTCP "1234"]).
Proof. split; reflexivity. Qed.

(* ===================================================================== *)
(** ** Log-line and NG correlation                                        *)
(* ===================================================================== *)

Lemma correlateLOG_shape (payload : string) :
  correlateLOG payload = noMatch \/
  exists callID, correlateLOG payload = (Some payload, Some callID, 100).
Proof.
  unfold correlateLOG.
  repeat match goal with
         | |- context [if ?b then _ else _] => destruct b
         | |- context [match ?o with Some _ => _ | None => _ end] => destruct o
         end;
    first [left; reflexivity | right; eexists; reflexivity].
Qed.

Lemma correlateLOG_bracket_bound (payload callID : string) :
  Index payload "ID=" <= 0 ->
  correlateLOG payload = (Some payload, Some callID, 100) ->
  8 <= len callID <= 64.
Proof.
  intros Hid. unfold correlateLOG.
  destruct (0 <? Index payload "ID=") eqn:E; [apply Z.ltb_lt in E; lia |].
  destruct (0 <? Index payload ": ["); [| discriminate].
  match goal with
  | |- context [match ?o with Some _ => _ | None => _ end] => destruct o as [c|]
  end; [| discriminate].
  destruct ((8 <=? len c) && (len c <=? 64)) eqn:B; [| discriminate].
  intros R. inversion R; subst c.
  apply andb_true_iff in B. destruct B as [B1 B2].
  apply Z.leb_le in B1, B2. lia.
Qed.

(** C5, the claim as worded, fails.  A line that begins with
    [ID=callid123 ] gives no match.  The two bracket lines the claim
    names give no match, and so does the same line with an identifier
    of eight bytes; with a byte in front of the marker the [ port ]
    form yields the identifier together with the closing bracket. *)
Lemma correlateLOG_bracket_lines_not_extracted :
  correlateLOG "ID=callid123 rest" = noMatch /\
  correlateLOG ": [abc123] port 5060" = noMatch /\
  correlateLOG ": [abc123]: message" = noMatch /\
  correlateLOG ": [abcdefgh] port 5060" = noMatch /\
  correlateLOG "x: [abcdefgh] port 5060"
  = (Some "x: [abcdefgh] port 5060", Some "abcdefgh]", 100).
Proof. repeat split; reflexivity. Qed.

Section NGProperties.

Context {C : Type} `{CacheBackend C}.
Variable unmarshalNG : string -> string * RawNG * bool.
Variable jsonMarshal : RawNG -> option string.

(** Whenever the first entry the range visits is a [call-id] whose
    value is not a byte slice, correlateNG panics before any cache
    call. *)
Lemma correlateNG_panics_on_untyped_call_id
    (d : Correlate.Decoder C) (payload cookie : string) (v : RawNG)
    (rest : list (string * RawNG)) :
  unmarshalNG payload = (cookie, NGDict (("call-id", v) :: rest), false) ->
  (forall b, v <> NGBytes b) ->
  correlateNG unmarshalNG jsonMarshal payload d = (NGPanicked, d, []).
Proof.
  intros Hu Hv. unfold correlateNG. rewrite Hu. cbn [rangeNG].
  change (String.eqb "call-id" "call-id") with true. cbv iota.
  destruct v; try reflexivity. exfalso. apply (Hv b). reflexivity.
Qed.

End NGProperties.

(** C9.  correlateNG is not total: on a decoded dictionary whose
    [call-id] is an integer the type assertion to a byte slice panics;
    no triple is returned. *)
Theorem correlateNG_int_call_id_panics :
  correlateNG Samples.ngIntCallID Samples.noJson "d7:call-idi5ee" Samples.freshDecoder
  = (NGPanicked, Samples.freshDecoder, []).
Proof. reflexivity. Qed.

(* ===================================================================== *)
(** ** Further properties of the SIP decoder                              *)
(* ===================================================================== *)

Lemma method_range_facts (m : SIPMethod) :
  1 <= m <= 15 -> SIPMethod_String m <> "Unknown method".
Proof. intros Hm. each_method Hm; discriminate. Qed.

(** X1.  On an ASCII token GetSIPMethod and SIPMethod.String are
    inverse to each other up to letter case: the token is accepted with
    method [m] exactly when [m] is one of the fifteen methods and the
    token, in upper case, is the text String gives for [m]. *)
Theorem GetSIPMethod_accepts_iff (tok : string) (m : SIPMethod) :
  isASCII tok = true ->
  GetSIPMethod tok = (m, None) <->
  1 <= m <= 15 /\ ToUpper tok = SIPMethod_String m.
Proof.
  intros _. split.
  - unfold GetSIPMethod.
    repeat match goal with
           | |- context [String.eqb ?a ?b] =>
               let E := fresh "E" in
               destruct (String.eqb a b) eqn:E;
               [ apply String.eqb_eq in E; intros R; inversion R; subst m;
                 split; [vm_compute; split; discriminate | exact E] | ]
           end.
    discriminate.
  - intros [Hm Hu]. apply GetSIPMethod_of_name; assumption.
Qed.

Lemma GetSIPMethod_accepts_iff_witness :
  GetSIPMethod "Invite" = (SIPMethodInvite, None) <->
  1 <= SIPMethodInvite <= 15 /\ ToUpper "Invite" = SIPMethod_String SIPMethodInvite.
Proof.
  apply (GetSIPMethod_accepts_iff "Invite" SIPMethodInvite). reflexivity.
Defined.

Lemma GetSIPMethod_unknown (tok : string) :
  (forall m, 1 <= m <= 15 -> ToUpper tok <> SIPMethod_String m) ->
  GetSIPMethod tok = (0, Some (InvalidMethod tok)).
Proof.
  intros Hno. unfold GetSIPMethod.
  repeat match goal with
         | |- context [String.eqb ?a ?b] =>
             let E := fresh "E" in
             destruct (String.eqb a b) eqn:E;
             [ apply String.eqb_eq in E; exfalso | ]
         end; try reflexivity.
  all: match goal with
       | E : ToUpper _ = _ |- _ =>
           first [ solve [apply (Hno 1); [lia
                 | exact E]]
                 | solve [apply (Hno 2); [lia
                 | exact E]]
                 | solve [apply (Hno 3); [lia
                 | exact E]]
                 | solve [apply (Hno 4); [lia
                 | exact E]]
                 | solve [apply (Hno 5); [lia
                 | exact E]]
                 | solve [apply (Hno 6); [lia
                 | exact E]]
                 | solve [apply (Hno 7); [lia
                 | exact E]]
                 | solve [apply (Hno 8); [lia
                 | exact E]]
                 | solve [apply (Hno 9); [lia
                 | exact E]]
                 | solve [apply (Hno 10); [lia
                 | exact E]]
                 | solve [apply (Hno 11); [lia
                 | exact E]]
                 | solve [apply (Hno 12); [lia
                 | exact E]]
                 | solve [apply (Hno 13); [lia
                 | exact E]]
                 | solve [apply (Hno 14); [lia
                 | exact E]]
                 | solve [apply (Hno 15); [lia
                 | exact E]] ]
       end.
Qed.

(** X2.  An ASCII token that is not, in upper case, one of the fifteen
    method names is refused with the invalid-method error carrying the
    token as written; the method value returned with the error is 0,
    which String prints as "Unknown method". *)
Theorem GetSIPMethod_rejects_unknown (tok : string) :
  isASCII tok = true ->
  (forall m, 1 <= m <= 15 -> ToUpper tok <> SIPMethod_String m) ->
  GetSIPMethod tok = (0, Some (InvalidMethod tok)) /\
  SIPMethod_String (fst (GetSIPMethod tok)) = "Unknown method".
Proof.
  intros _ Hno. rewrite (GetSIPMethod_unknown tok Hno). split; reflexivity.
Qed.

Lemma GetSIPMethod_rejects_unknown_witness :
  GetSIPMethod "FOO" = (0, Some (InvalidMethod "FOO")) /\
  SIPMethod_String (fst (GetSIPMethod "FOO")) = "Unknown method".
Proof.
  apply (GetSIPMethod_rejects_unknown "FOO").
  - reflexivity.
  - intros m Hm. each_method Hm; discriminate.
Defined.

(** X3.  GetSIPVersion accepts an ASCII token exactly when it is, in
    upper case, SIP/1.0 or SIP/2.0, and String of the version returned
    is that upper-case text; every other ASCII token is refused with
    the invalid-version error and version 0, which String prints as
    SIP/2.0. *)
Theorem GetSIPVersion_accepts_iff (tok : string) (v : SIPVersion) :
  isASCII tok = true ->
  (GetSIPVersion tok = (v, None) <->
   (v = SIPVersion1 \/ v = SIPVersion2) /\ ToUpper tok = SIPVersion_String v) /\
  (snd (GetSIPVersion tok) <> None ->
   GetSIPVersion tok = (0, Some (InvalidVersion tok)) /\
   SIPVersion_String (fst (GetSIPVersion tok)) = "SIP/2.0").
Proof.
  intros _. split; [split |].
  - unfold GetSIPVersion.
    destruct (String.eqb (ToUpper tok) "SIP/1.0") eqn:E1.
    { apply String.eqb_eq in E1. intros R; inversion R; subst v.
      split; [left; reflexivity | exact E1]. }
    destruct (String.eqb (ToUpper tok) "SIP/2.0") eqn:E2.
    { apply String.eqb_eq in E2. intros R; inversion R; subst v.
      split; [right; reflexivity | exact E2]. }
    discriminate.
  - intros [Hv Hu]. apply GetSIPVersion_of_name; assumption.
  - unfold GetSIPVersion.
    destruct (String.eqb (ToUpper tok) "SIP/1.0"); [intros N; elim N; reflexivity |].
    destruct (String.eqb (ToUpper tok) "SIP/2.0"); [intros N; elim N; reflexivity |].
    intros _. split; reflexivity.
Qed.

Lemma GetSIPVersion_accepts_iff_witness :
  (GetSIPVersion "sip/2.0" = (SIPVersion2, None) <->
   (SIPVersion2 = SIPVersion1 \/ SIPVersion2 = SIPVersion2)
   /\ ToUpper "sip/2.0" = SIPVersion_String SIPVersion2) /\
  (snd (GetSIPVersion "sip/2.0") <> None ->
   GetSIPVersion "sip/2.0" = (0, Some (InvalidVersion "sip/2.0")) /\
   SIPVersion_String (fst (GetSIPVersion "sip/2.0")) = "SIP/2.0").
Proof.
  apply (GetSIPVersion_accepts_iff "sip/2.0" SIPVersion2). reflexivity.
Defined.

Lemma version_name_shape (v : SIPVersion) :
  v = SIPVersion1 \/ v = SIPVersion2 -> cutSpace (SIPVersion_String v) = None.
Proof. intros [-> | ->]; reflexivity. Qed.

(** X4.  A status line [VERSION code status], whose version token
    begins with upper-case SIP and is SIP/1.0 or SIP/2.0 up to letter
    case, and whose code is a decimal number, is parsed as a response:
    IsResponse is set, the version and the code are stored, and the
    status is everything after the second space, further spaces
    included.  The method is not touched. *)
Theorem ParseFirstLine_response
    (s : SIP) (version code status : string) (v : SIPVersion) (n : Z) :
  HasPrefix version "SIP" = true ->
  v = SIPVersion1 \/ v = SIPVersion2 ->
  ToUpper version = SIPVersion_String v ->
  Index code " " = -1 ->
  Atoi code = (n, false) ->
  ParseFirstLine s (version ++ " " ++ code ++ " " ++ status)
  = (setResponseStatus (setResponseCode (setVersion (setIsResponse s true) v) n) status,
     None).
Proof.
  intros Hp Hv Hu Hc Ha.
  pose proof (version_name_shape v Hv) as Hsp. rewrite <- Hu in Hsp.
  apply cutSpace_ToUpper_None in Hsp.
  unfold ParseFirstLine.
  rewrite (SplitN_three_tokens version code status Hsp (cutSpace_None_Index code Hc)).
  rewrite Hp, (GetSIPVersion_of_name version v Hv Hu), Ha. reflexivity.
Qed.

Lemma ParseFirstLine_response_witness :
  ParseFirstLine NewSIP ("SIP/2.0" ++ " " ++ "501" ++ " " ++ "Not Implemented")
  = (setResponseStatus
       (setResponseCode (setVersion (setIsResponse NewSIP true) SIPVersion2) 501)
       "Not Implemented",
     None).
Proof.
  apply (ParseFirstLine_response NewSIP "SIP/2.0" "501" "Not Implemented" SIPVersion2 501).
  - reflexivity.
  - right; reflexivity.
  - reflexivity.
  - reflexivity.
  - reflexivity.
Defined.

(** X5.  The test for a response is case-sensitive while the version
    match is not: a status line whose version token is SIP/1.0 or
    SIP/2.0 in another letter case than upper-case SIP is taken for a
    request and refused as an invalid method; IsResponse and the
    version stay as they were and the method is set to 0. *)
Theorem ParseFirstLine_lowercase_status_line
    (s : SIP) (version code status : string) (v : SIPVersion) :
  HasPrefix version "SIP" = false ->
  v = SIPVersion1 \/ v = SIPVersion2 ->
  ToUpper version = SIPVersion_String v ->
  Index code " " = -1 ->
  ParseFirstLine s (version ++ " " ++ code ++ " " ++ status)
  = (setMethod s 0, Some (InvalidMethod version)).
Proof.
  intros Hp Hv Hu Hc.
  pose proof (version_name_shape v Hv) as Hsp. rewrite <- Hu in Hsp.
  apply cutSpace_ToUpper_None in Hsp.
  unfold ParseFirstLine.
  rewrite (SplitN_three_tokens version code status Hsp (cutSpace_None_Index code Hc)).
  rewrite Hp.
  assert (E : GetSIPMethod version = (0, Some (InvalidMethod version))).
  { apply GetSIPMethod_unknown. intros m Hm. rewrite Hu.
    destruct Hv as [-> | ->]; each_method Hm; discriminate. }
  rewrite E. reflexivity.
Qed.

Lemma ParseFirstLine_lowercase_status_line_witness :
  ParseFirstLine NewSIP ("sip/2.0" ++ " " ++ "200" ++ " " ++ "OK")
  = (setMethod NewSIP 0, Some (InvalidMethod "sip/2.0")).
Proof.
  apply (ParseFirstLine_lowercase_status_line NewSIP "sip/2.0" "200" "OK" SIPVersion2).
  - reflexivity.
  - right; reflexivity.
  - reflexivity.
  - reflexivity.
Defined.

(** *** The read loop *)

Lemma app_assoc_s (a b c : string) : (a ++ b) ++ c = a ++ (b ++ c).
Proof.
  induction a as [|x a IH]; [reflexivity |].
  change (String x ((a ++ b) ++ c) = String x (a ++ b ++ c)). congruence.
Qed.

Lemma app_nil_r_s (a : string) : a ++ EmptyString = a.
Proof.
  induction a as [|x a IH]; [reflexivity |].
  change (String x (a ++ EmptyString) = String x a). congruence.
Qed.

Lemma len_zero_iff (l : string) : (len l =? 0) = true <-> l = EmptyString.
Proof.
  destruct l; unfold len; simpl; split; intros E;
    first [reflexivity | discriminate | apply Z.eqb_eq in E; lia].
Qed.

Lemma len_nonzero (l : string) : l <> EmptyString -> (len l =? 0) = false.
Proof.
  intros Hl. destruct (len l =? 0) eqn:E; [| reflexivity].
  apply len_zero_iff in E. contradiction.
Qed.

Lemma HasPrefix_one (c a : ascii) (s : string) :
  HasPrefix (String c s) (String a EmptyString) = Ascii.eqb a c.
Proof.
  change (HasPrefix (String c s) (String a EmptyString))
    with (if Ascii.eqb a c then true else false).
  destruct (Ascii.eqb a c); reflexivity.
Qed.

(** A string without the byte [a]: its head is another byte and its
    tail is without [a] too. *)
Lemma Index_one_cons (c a : ascii) (s : string) :
  Index (String c s) (String a EmptyString) = -1 ->
  Ascii.eqb c a = false /\ Index s (String a EmptyString) = -1.
Proof.
  unfold Index. rewrite IndexFrom_eq, HasPrefix_one, (Ascii.eqb_sym a c).
  destruct (Ascii.eqb c a); [discriminate |].
  rewrite IndexFrom_shift. intros E. split; [reflexivity |].
  destruct (IndexFrom 0 s (String a EmptyString) =? -1) eqn:E1;
    [apply Z.eqb_eq in E1; exact E1 |].
  destruct (IndexFrom_range s (String a EmptyString) 0); lia.
Qed.

(** The byte [a] first occurs right after a prefix that is without it. *)
Lemma Index_one_app (p rest : string) (a : ascii) :
  Index p (String a EmptyString) = -1 ->
  Index (p ++ String a rest) (String a EmptyString) = len p.
Proof.
  induction p as [|c p IH]; intros Hp.
  - unfold Index. change (EmptyString ++ String a rest) with (String a rest).
    rewrite IndexFrom_eq, HasPrefix_one, Ascii.eqb_refl. reflexivity.
  - destruct (Index_one_cons c a p Hp) as [Hc Hrest].
    unfold Index in *.
    change (String c p ++ String a rest) with (String c (p ++ String a rest)).
    rewrite IndexFrom_eq, HasPrefix_one, (Ascii.eqb_sym a c), Hc.
    rewrite IndexFrom_shift, (IH Hrest).
    destruct (len p =? -1) eqn:E; [apply Z.eqb_eq in E; unfold len in E; lia |].
    unfold len. simpl String.length. lia.
Qed.

Lemma readLines_no_line_feed (buf cur : string) (n : nat) (s : SIP) :
  Index buf (String LF EmptyString) = -1 ->
  readLines buf cur n s = (s, None).
Proof.
  revert cur. induction buf as [|c buf IH]; intros cur Hb; [reflexivity |].
  destruct (Index_one_cons c LF buf Hb) as [Hc Hrest].
  cbn [readLines]. rewrite Hc. apply IH. exact Hrest.
Qed.

(** One round of the loop: the bytes up to the next line feed, together
    with what was read before, make the line. *)
Lemma readLines_line (line rest cur : string) (n : nat) (s : SIP) :
  Index line (String LF EmptyString) = -1 ->
  readLines (line ++ String LF rest) cur n s
  = let l := Trim ((cur ++ line) ++ String LF EmptyString) CRLF in
    if len l =? 0 then (setPayload s rest, None)
    else if (n =? 0)%nat then
      match ParseFirstLine s l with
      | (s', Some e) => (s', Some e)
      | (s', None) => readLines rest EmptyString (S n) s'
      end
    else readLines rest EmptyString (S n) (parseHeader s l).
Proof.
  revert cur. induction line as [|c line IH]; intros cur Hl.
  - change (EmptyString ++ String LF rest) with (String LF rest).
    cbn [readLines]. rewrite Ascii.eqb_refl.
    rewrite app_nil_r_s.
    reflexivity.
  - destruct (Index_one_cons c LF line Hl) as [Hc Hrest].
    change (String c line ++ String LF rest) with (String c (line ++ String LF rest)).
    cbn [readLines]. rewrite Hc.
    rewrite (IH (cur ++ String c EmptyString) Hrest).
    rewrite (app_assoc_s cur (String c EmptyString) line). reflexivity.
Qed.

(** X6.  A payload that holds no line feed apart from leading and
    trailing ones decodes without error and leaves the message as it
    was: its only line is not terminated, so it is never parsed, not
    even as a start line. *)
Theorem DecodeFromBytes_no_complete_line (s : SIP) (data : string) :
  Index (Trim data (String LF EmptyString)) (String LF EmptyString) = -1 ->
  DecodeFromBytes s data = (s, None).
Proof. intros H. unfold DecodeFromBytes. apply readLines_no_line_feed. exact H. Qed.

Lemma DecodeFromBytes_no_complete_line_witness :
  DecodeFromBytes NewSIP (String LF ("not a start line" ++ CRLF)) = (NewSIP, None).
Proof.
  apply (DecodeFromBytes_no_complete_line NewSIP (String LF ("not a start line" ++ CRLF))).
  reflexivity.
Defined.

(** X7.  When the first complete line is not empty and ParseFirstLine
    refuses it, DecodeFromBytes returns that error with the message as
    ParseFirstLine left it; nothing after the first line is read. *)
Theorem DecodeFromBytes_first_line_error
    (s s' : SIP) (data line rest : string) (e : error) :
  Trim data (String LF EmptyString) = line ++ String LF rest ->
  Index line (String LF EmptyString) = -1 ->
  Trim (line ++ String LF EmptyString) CRLF <> EmptyString ->
  ParseFirstLine s (Trim (line ++ String LF EmptyString) CRLF) = (s', Some e) ->
  DecodeFromBytes s data = (s', Some e).
Proof.
  intros Hd Hl Hne Hp. unfold DecodeFromBytes.
  rewrite Hd, (readLines_line line rest EmptyString 0 s Hl).
  cbv zeta. change (EmptyString ++ line) with line.
  rewrite (len_nonzero _ Hne), Hp. reflexivity.
Qed.

Lemma DecodeFromBytes_first_line_error_witness :
  DecodeFromBytes NewSIP ("FOO sip:bob SIP/2.0" ++ CRLF ++ "Via: x" ++ CRLF)
  = (setMethod NewSIP 0, Some (InvalidMethod "FOO")).
Proof.
  apply (DecodeFromBytes_first_line_error NewSIP (setMethod NewSIP 0)
           ("FOO sip:bob SIP/2.0" ++ CRLF ++ "Via: x" ++ CRLF)
           ("FOO sip:bob SIP/2.0" ++ String CR EmptyString)
           ("Via: x" ++ String CR EmptyString)
           (InvalidMethod "FOO")).
  - reflexivity.
  - reflexivity.
  - discriminate.
  - reflexivity.
Defined.

(** X8.  When the first complete line is empty once carriage returns
    and line feeds are trimmed, no start line is parsed: everything
    after that line becomes the payload and no error is returned. *)
Theorem DecodeFromBytes_blank_first_line (s : SIP) (data line rest : string) :
  Trim data (String LF EmptyString) = line ++ String LF rest ->
  Index line (String LF EmptyString) = -1 ->
  Trim (line ++ String LF EmptyString) CRLF = EmptyString ->
  DecodeFromBytes s data = (setPayload s rest, None).
Proof.
  intros Hd Hl He. unfold DecodeFromBytes.
  rewrite Hd, (readLines_line line rest EmptyString 0 s Hl).
  cbv zeta. change (EmptyString ++ line) with line.
  rewrite He. reflexivity.
Qed.

Lemma DecodeFromBytes_blank_first_line_witness :
  DecodeFromBytes NewSIP (CRLF ++ "INVITE sip:bob SIP/2.0" ++ CRLF ++ "Via: x")
  = (setPayload NewSIP ("INVITE sip:bob SIP/2.0" ++ CRLF ++ "Via: x"), None).
Proof.
  apply (DecodeFromBytes_blank_first_line NewSIP
           (CRLF ++ "INVITE sip:bob SIP/2.0" ++ CRLF ++ "Via: x")
           (String CR EmptyString)
           ("INVITE sip:bob SIP/2.0" ++ CRLF ++ "Via: x")).
  - reflexivity.
  - reflexivity.
  - reflexivity.
Defined.

Lemma readLines_header_lines (hs : list string) :
  Forall (fun h => Index h (String LF EmptyString) = -1 /\
                   Trim (h ++ String LF EmptyString) CRLF <> EmptyString) hs ->
  forall (tail : string) (n : nat) (s : SIP),
    readLines (List.fold_right (fun h acc => h ++ String LF acc) tail hs)
              EmptyString (S n) s
    = readLines tail EmptyString (S (List.length hs + n))
        (List.fold_left
           (fun acc h => parseHeader acc (Trim (h ++ String LF EmptyString) CRLF)) hs s).
Proof.
  induction 1 as [|h hs [Hh Hne] _ IH]; intros tail n s; [reflexivity |].
  cbn [List.fold_right List.fold_left List.length].
  rewrite (readLines_line h _ EmptyString (S n) s Hh). cbv zeta.
  change (EmptyString ++ h) with h. rewrite (len_nonzero _ Hne).
  change ((S n =? 0)%nat) with false. cbv iota.
  rewrite (IH tail (S n)). f_equal. f_equal. lia.
Qed.

(** X9.  A message made of a start line that ParseFirstLine accepts,
    header lines that are not empty, a blank line and a body decodes
    without error: the header lines are folded into the message one by
    one in arrival order, and the body is stored as the payload exactly
    as it stands after the blank line, without being split into
    lines. *)
Theorem DecodeFromBytes_message
    (s s1 : SIP) (data first blank body : string) (hs : list string) :
  Trim data (String LF EmptyString)
  = first ++ String LF
      (List.fold_right (fun h acc => h ++ String LF acc) (blank ++ String LF body) hs) ->
  Index first (String LF EmptyString) = -1 ->
  Trim (first ++ String LF EmptyString) CRLF <> EmptyString ->
  ParseFirstLine s (Trim (first ++ String LF EmptyString) CRLF) = (s1, None) ->
  Forall (fun h => Index h (String LF EmptyString) = -1 /\
                   Trim (h ++ String LF EmptyString) CRLF <> EmptyString) hs ->
  Index blank (String LF EmptyString) = -1 ->
  Trim (blank ++ String LF EmptyString) CRLF = EmptyString ->
  DecodeFromBytes s data
  = (setPayload
       (List.fold_left
          (fun acc h => parseHeader acc (Trim (h ++ String LF EmptyString) CRLF)) hs s1)
       body,
     None).
Proof.
  intros Hd Hf Hne Hp Hhs Hb Hbe. unfold DecodeFromBytes.
  rewrite Hd, (readLines_line first _ EmptyString 0 s Hf). cbv zeta.
  change (EmptyString ++ first) with first.
  rewrite (len_nonzero _ Hne), Hp. change ((0 =? 0)%nat) with true. cbv iota.
  rewrite (readLines_header_lines hs Hhs).
  rewrite (readLines_line blank body EmptyString _ _ Hb). cbv zeta.
  change (EmptyString ++ blank) with blank. rewrite Hbe. reflexivity.
Qed.

Lemma length_app_s (a b : string) :
  String.length (a ++ b) = (String.length a + String.length b)%nat.
Proof.
  induction a as [|x a IH]; [reflexivity |].
  change (S (String.length (a ++ b)) = S (String.length a + String.length b)).
  congruence.
Qed.

Lemma take_all (a : string) : take (String.length a) a = a.
Proof.
  rewrite <- (app_nil_r_s a) at 2. apply take_app_length.
Qed.

Lemma GetHeader_default (s : SIP) (q : string) :
  GetHeader s q = default [] (Headers s !! ToLower q).
Proof.
  unfold GetHeader. destruct (Headers s !! ToLower q) as [[|v vs]|]; reflexivity.
Qed.

(** X10.  A header line [name:value] whose name is ASCII text and holds
    no colon adds the value, trimmed of spaces, at the end of the
    sequence kept under the name, trimmed and in lower case; a lookup
    by an ASCII name of any spelling of that name then gives the
    earlier values followed by the new one, the first header of that
    name stays the first, and lookups of other ASCII names are
    unchanged.  A line without a colon changes nothing. *)
Theorem parseHeader_appends_value (s : SIP) (name value q line : string) :
  isASCII name = true ->
  isASCII q = true ->
  Index name ":" = -1 ->
  (GetHeader (parseHeader s (name ++ ":" ++ value)) q
   = if String.eqb (ToLower q) (ToLower (Trim name " "))
     then (GetHeader s q ++ [Trim value " "])%list
     else GetHeader s q) /\
  (GetFirstHeader (parseHeader s (name ++ ":" ++ value)) q
   = if String.eqb (ToLower q) (ToLower (Trim name " "))
     then match GetHeader s q with
          | v :: _ => v
          | [] => Trim value " "
          end
     else GetFirstHeader s q) /\
  (Index line ":" = -1 -> parseHeader s line = s).
Proof.
  intros _ _ Hn.
  assert (Hidx : Index (name ++ ":" ++ value) ":" = len name).
  { change (name ++ ":" ++ value) with (name ++ String ":" value).
    apply (Index_one_app name value ":"%char). exact Hn. }
  assert (Hname : slice (name ++ ":" ++ value) 0 (len name) = name).
  { unfold slice. rewrite Z.sub_0_r. unfold len. rewrite Nat2Z.id.
    change (Z.to_nat 0) with 0%nat. cbn [drop]. apply take_app_length. }
  assert (Hvalue : slice (name ++ ":" ++ value) (len name + 1) (len (name ++ ":" ++ value))
                   = value).
  { unfold slice, len.
    change (name ++ ":" ++ value) with (name ++ String ":" value).
    rewrite length_app_s. cbn [String.length].
    replace (Z.to_nat (Z.of_nat (String.length name + S (String.length value))
                       - (Z.of_nat (String.length name) + 1)))
      with (String.length value) by lia.
    replace (Z.to_nat (Z.of_nat (String.length name) + 1))
      with (String.length name + 1)%nat by lia.
    rewrite drop_drop, drop_app_length. cbn [drop]. apply take_all. }
  assert (Hparse : parseHeader s (name ++ ":" ++ value)
                   = addHeader s (ToLower (Trim name " ")) (Trim value " ")).
  { unfold parseHeader. rewrite Hidx.
    destruct (0 <=? len name) eqn:E; [| apply Z.leb_gt in E; unfold len in E; lia].
    rewrite Hname, Hvalue. reflexivity. }
  split; [| split].
  - rewrite Hparse, !GetHeader_default. unfold addHeader. cbn [Headers].
    destruct (String.eqb_spec (ToLower q) (ToLower (Trim name " "))) as [-> | Hne].
    + rewrite lookup_insert_eq. reflexivity.
    + rewrite lookup_insert_ne by congruence. reflexivity.
  - rewrite Hparse, GetHeader_default. unfold GetFirstHeader, addHeader. cbn [Headers].
    destruct (String.eqb_spec (ToLower q) (ToLower (Trim name " "))) as [-> | Hne].
    + rewrite lookup_insert_eq.
      destruct (Headers s !! ToLower (Trim name " ")) as [[|v vs]|]; reflexivity.
    + rewrite lookup_insert_ne by congruence. reflexivity.
  - intros Hl. unfold parseHeader. rewrite Hl. reflexivity.
Qed.

Lemma parseHeader_appends_value_witness :
  (GetHeader (parseHeader (addHeader NewSIP "via" "a") (" Via " ++ ":" ++ " b ")) "VIA"
   = if String.eqb (ToLower "VIA") (ToLower (Trim " Via " " "))
     then (GetHeader (addHeader NewSIP "via" "a") "VIA" ++ [Trim " b " " "])%list
     else GetHeader (addHeader NewSIP "via" "a") "VIA") /\
  (GetFirstHeader (parseHeader (addHeader NewSIP "via" "a") (" Via " ++ ":" ++ " b ")) "VIA"
   = if String.eqb (ToLower "VIA") (ToLower (Trim " Via " " "))
     then match GetHeader (addHeader NewSIP "via" "a") "VIA" with
          | v :: _ => v
          | [] => Trim " b " " "
          end
     else GetFirstHeader (addHeader NewSIP "via" "a") "VIA") /\
  (Index "no colon here" ":" = -1 ->
   parseHeader (addHeader NewSIP "via" "a") "no colon here" = addHeader NewSIP "via" "a").
Proof.
  apply (parseHeader_appends_value (addHeader NewSIP "via" "a") " Via " " b " "VIA"
           "no colon here"); reflexivity.
Defined.

Lemma DecodeFromBytes_message_witness :
  DecodeFromBytes NewSIP
    ("INVITE sip:bob SIP/2.0" ++ CRLF ++ "Via: a" ++ CRLF ++ "via: b" ++ CRLF
     ++ CRLF ++ "v=0" ++ CRLF ++ "s=-" ++ CRLF)
  = (setPayload
       (List.fold_left
          (fun acc h => parseHeader acc (Trim (h ++ String LF EmptyString) CRLF))
          ["Via: a" ++ String CR EmptyString; "via: b" ++ String CR EmptyString]
          (setVersion (setMethod NewSIP SIPMethodInvite) SIPVersion2))
       ("v=0" ++ CRLF ++ "s=-" ++ String CR EmptyString),
     None).
Proof.
  apply (DecodeFromBytes_message NewSIP
           (setVersion (setMethod NewSIP SIPMethodInvite) SIPVersion2)
           ("INVITE sip:bob SIP/2.0" ++ CRLF ++ "Via: a" ++ CRLF ++ "via: b" ++ CRLF
            ++ CRLF ++ "v=0" ++ CRLF ++ "s=-" ++ CRLF)
           ("INVITE sip:bob SIP/2.0" ++ String CR EmptyString)
           (String CR EmptyString)
           ("v=0" ++ CRLF ++ "s=-" ++ String CR EmptyString)
           ["Via: a" ++ String CR EmptyString; "via: b" ++ String CR EmptyString]).
  - reflexivity.
  - reflexivity.
  - discriminate.
  - reflexivity.
  - repeat constructor; discriminate.
  - reflexivity.
  - reflexivity.
Defined.

(* ===================================================================== *)
(** ** Further properties of the packet pipeline                          *)
(* ===================================================================== *)

Lemma lor_shiftl_low (x y n : Z) :
  0 <= n -> 0 <= y < 2 ^ n -> Z.lor (Z.shiftl x n) y = x * 2 ^ n + y.
Proof.
  intros Hn Hy. rewrite <- (Z.shiftl_mul_pow2 x n Hn).
  rewrite <- (Z.add_lor_land (Z.shiftl x n) y).
  assert (E : Z.land (Z.shiftl x n) y = 0).
  { apply Z.bits_inj'. intros k Hk.
    rewrite Z.land_spec, Z.bits_0, (Z.shiftl_spec x n k Hk).
    destruct (Z.lt_ge_cases k n) as [Hlt | Hge].
    - rewrite (Z.testbit_neg_r x (k - n)) by lia. reflexivity.
    - assert (Hyk : Z.testbit y k = false).
      { destruct (Z.eq_dec y 0) as [-> | Hy0]; [apply Z.bits_0 |].
        apply Z.bits_above_log2; [lia |].
        apply Z.lt_le_trans with n; [| exact Hge].
        apply Z.log2_lt_pow2; lia. }
      rewrite Hyk. apply andb_false_r. }
  rewrite E. lia.
Qed.

Lemma BigEndian_Uint32_four (a b c d : ascii) (rest : string) :
  BigEndian_Uint32 (String a (String b (String c (String d rest))))
  = Some (Z.of_nat (nat_of_ascii a) * 2 ^ 24 + Z.of_nat (nat_of_ascii b) * 2 ^ 16
          + Z.of_nat (nat_of_ascii c) * 2 ^ 8 + Z.of_nat (nat_of_ascii d)).
Proof.
  unfold BigEndian_Uint32, byteAt. cbn [String.get Nat.eqb Nat.pred].
  pose proof (nat_ascii_bounded a). pose proof (nat_ascii_bounded b).
  pose proof (nat_ascii_bounded c). pose proof (nat_ascii_bounded d).
  f_equal.
  set (A := Z.of_nat (nat_of_ascii a)). set (B := Z.of_nat (nat_of_ascii b)).
  set (Cc := Z.of_nat (nat_of_ascii c)). set (Dd := Z.of_nat (nat_of_ascii d)).
  assert (HA : 0 <= A < 256) by (unfold A; lia).
  assert (HB : 0 <= B < 256) by (unfold B; lia).
  assert (HC : 0 <= Cc < 256) by (unfold Cc; lia).
  assert (HD : 0 <= Dd < 256) by (unfold Dd; lia).
  replace (Z.shiftl A 24) with (Z.shiftl (Z.shiftl A 8) 16)
    by (rewrite Z.shiftl_shiftl by lia; reflexivity).
  rewrite <- Z.shiftl_lor, (lor_shiftl_low A B 8) by lia.
  replace (Z.shiftl (A * 2 ^ 8 + B) 16) with (Z.shiftl (Z.shiftl (A * 2 ^ 8 + B) 8) 8)
    by (rewrite Z.shiftl_shiftl by lia; reflexivity).
  rewrite <- Z.shiftl_lor, (lor_shiftl_low _ Cc 8) by lia.
  rewrite (lor_shiftl_low _ Dd 8) by lia.
  lia.
Qed.

(** X11.  ip2int reads a four-byte address as a big-endian 32-bit
    number; of a sixteen-byte address it reads the last four bytes in
    the same way; and it panics exactly on an address shorter than four
    bytes. *)
Theorem ip2int_big_endian :
  (forall a b c d : ascii,
      ip2int (String a (String b (String c (String d EmptyString))))
      = Some (Z.of_nat (nat_of_ascii a) * 2 ^ 24 + Z.of_nat (nat_of_ascii b) * 2 ^ 16
              + Z.of_nat (nat_of_ascii c) * 2 ^ 8 + Z.of_nat (nat_of_ascii d))) /\
  (forall (pre : string) (a b c d : ascii),
      String.length pre = 12%nat ->
      ip2int (pre ++ String a (String b (String c (String d EmptyString))))
      = ip2int (String a (String b (String c (String d EmptyString))))) /\
  (forall ip : string, ip2int ip = None <-> (String.length ip < 4)%nat).
Proof.
  split; [| split].
  - intros a b c d. unfold ip2int.
    change (len (String a (String b (String c (String d EmptyString)))) =? 16) with false.
    cbv iota. apply BigEndian_Uint32_four.
  - intros pre a b c d Hpre. unfold ip2int at 1.
    assert (E : len (pre ++ String a (String b (String c (String d EmptyString)))) = 16).
    { unfold len. rewrite length_app_s, Hpre. reflexivity. }
    rewrite E. change (16 =? 16) with true. cbv iota.
    unfold slice. change (Z.to_nat (16 - 12)) with 4%nat.
    change (Z.to_nat 12) with 12%nat. rewrite <- Hpre, drop_app_length.
    reflexivity.
  - intros ip.
    destruct ip as [|a [|b [|c [|d rest]]]];
      try (split; [intros _; cbn [String.length]; lia | intros _; reflexivity]).
    split; [| cbn [String.length]; lia].
    unfold ip2int.
    destruct (len (String a (String b (String c (String d rest)))) =? 16) eqn:E.
    + apply Z.eqb_eq in E. unfold len in E. cbn [String.length] in E.
      do 12 (destruct rest as [|? rest]; [exfalso; cbn [String.length] in E; lia |]).
      destruct rest as [|? rest]; [| exfalso; cbn [String.length] in E; lia].
      unfold slice. change (Z.to_nat (16 - 12)) with 4%nat.
      change (Z.to_nat 12) with 12%nat. cbn [drop take].
      rewrite BigEndian_Uint32_four. discriminate.
    + rewrite BigEndian_Uint32_four. discriminate.
Qed.

Lemma firstIPv4_app (pre post : list Layer) (ip : IPv4) :
  firstIPv4 pre = Some ip -> firstIPv4 (pre ++ post)%list = Some ip.
Proof.
  induction pre as [|l pre IH]; [discriminate |].
  destruct l; simpl; first [apply IH | intros E; exact E].
Qed.

Section FirstTransport.

Context {D : Type}.
Variable DefragIPv4 : D -> IPv4 -> D * (option IPv4 * bool).
Variable redispatch : IPv4 -> list Layer.
Variable Cfg : Config.

(** No UDP or TCP layer. *)
Let below (ls : list Layer) : Prop :=
  Forall (fun l => l = LayerOther \/ exists ip, l = LayerIPv4 ip) ls.

Let transport (isUDP : bool) (u : Transport) : Layer :=
  if isUDP then LayerUDP u else LayerTCP u.

Lemma first_transport_found (pre post : list Layer) (isUDP : bool) (u : Transport) :
  below pre ->
  (if isUDP then firstUDP else firstTCP) (pre ++ transport isUDP u :: post)%list = Some u.
Proof.
  induction 1 as [|l pre [-> | [ip ->]] _ IH]; destruct isUDP; simpl; first [reflexivity | exact IH].
Qed.

Lemma walkLayers_first_transport
    (all ls post : list Layer) (isUDP : bool) (u : Transport) (s : SIP)
    (ip : IPv4) (sa da : Z) (dfr : D) :
  Reasm Cfg = false ->
  firstIPv4 all = Some ip ->
  ip2int (SrcIP ip) = Some sa -> ip2int (DstIP ip) = Some da ->
  (if isUDP then firstUDP else firstTCP) all = Some u ->
  decodeSIP (tPayload u) = inl s ->
  below ls ->
  forall pkt,
    walkLayers DefragIPv4 redispatch Cfg dfr all (ls ++ transport isUDP u :: post)%list pkt
    = (dfr,
       Returned (Some (setSipHeader
                         (setTransport
                            (match firstIPv4 ls with
                             | Some _ => setAddrs pkt sa da
                             | None => pkt
                             end) u)
                         (Headers s)))).
Proof.
  intros Hre Hip Hsa Hda Hfirst Hsip Hls.
  induction Hls as [|l ls [-> | [ip' ->]] _ IH]; intros pkt.
  - destruct isUDP; cbn [app transport walkLayers firstIPv4];
      rewrite Hfirst; cbn [LayerPayload]; unfold sipLayerOf; rewrite Hsip; reflexivity.
  - cbn [app walkLayers firstIPv4]. apply IH.
  - cbn [app walkLayers firstIPv4]. rewrite Hip, Hre, Hsa, Hda. rewrite IH.
    destruct (firstIPv4 ls); reflexivity.
Qed.

Lemma Process_first_transport_core
    (d : Pipeline.Decoder D) (ci : CaptureInfo) (pre post : list Layer) (app : option string)
    (isUDP : bool) (u : Transport) (s : SIP) (ip : IPv4) (sa da : Z) :
  Reasm Cfg = false ->
  HepFilter Cfg = EmptyString \/
    (forall a, app = Some a -> Contains a (HepFilter Cfg) = false) ->
  below pre ->
  firstIPv4 pre = Some ip ->
  ip2int (SrcIP ip) = Some sa -> ip2int (DstIP ip) = Some da ->
  decodeSIP (tPayload u) = inl s ->
  Process DefragIPv4 redispatch Cfg d
    (mkFrame (pre ++ transport isUDP u :: post)%list app) ci
  = (d,
     Returned (Some {| Host := decHost d;
                       Tsec := uint32 (tsUnix ci);
                       Tmsec := uint32 (tsNanosecond ci / 1000);
                       Srcip := sa; Dstip := da;
                       Sport := uint16 (SrcPort u); Dport := uint16 (DstPort u);
                       Payload := Some (tPayload u);
                       SipHeader := Some (Headers s) |})).
Proof.
  intros Hre Hfilter Hpre Hip Hsa Hda Hsip. unfold Process. cbn [appPayload frameLayers].
  assert (Hnf : match app with
                | Some a => negb (String.eqb (HepFilter Cfg) EmptyString)
                            && Contains a (HepFilter Cfg)
                | None => false
                end = false).
  { destruct app as [a|]; [| reflexivity].
    destruct Hfilter as [-> | Hc]; [reflexivity |].
    rewrite (Hc a eq_refl). apply andb_false_r. }
  rewrite Hnf.
  rewrite (walkLayers_first_transport _ pre post isUDP u s ip sa da (defragger d) Hre
             (firstIPv4_app pre _ ip Hip) Hsa Hda
             (first_transport_found pre post isUDP u Hpre) Hsip Hpre).
  rewrite Hip. destruct d; reflexivity.
Qed.

(** X12.  With reassembly switched off and the content filter not
    matching, a frame whose layers before its first UDP or TCP layer
    include an IPv4 layer, and whose transport payload decodes as SIP,
    gives one packet: host and timestamp (seconds and microseconds,
    each reduced to 32 bits), the addresses of the first IPv4 layer,
    the ports reduced to 16 bits, the transport payload and the headers
    of the decoded message.  Layers after that transport layer are not
    looked at, and the decoder is unchanged. *)
Theorem Process_returns_at_first_transport
    (d : Pipeline.Decoder D) (ci : CaptureInfo) (pre post : list Layer) (app : option string)
    (isUDP : bool) (u : Transport) (s : SIP) (ip : IPv4) (sa da : Z) :
  Reasm Cfg = false ->
  HepFilter Cfg = EmptyString \/
    (forall a, app = Some a -> Contains a (HepFilter Cfg) = false) ->
  Forall (fun l => l = LayerOther \/ exists ip, l = LayerIPv4 ip) pre ->
  firstIPv4 pre = Some ip ->
  ip2int (SrcIP ip) = Some sa -> ip2int (DstIP ip) = Some da ->
  decodeSIP (tPayload u) = inl s ->
  Process DefragIPv4 redispatch Cfg d
    (mkFrame (pre ++ (if isUDP then LayerUDP u else LayerTCP u) :: post)%list app) ci
  = (d,
     Returned (Some {| Host := decHost d;
                       Tsec := uint32 (tsUnix ci);
                       Tmsec := uint32 (tsNanosecond ci / 1000);
                       Srcip := sa; Dstip := da;
                       Sport := uint16 (SrcPort u); Dport := uint16 (DstPort u);
                       Payload := Some (tPayload u);
                       SipHeader := Some (Headers s) |})).
Proof. apply Process_first_transport_core. Qed.

(** X13.  Under the same conditions a transport payload that holds no
    line feed apart from leading and trailing ones (media, or a single
    unterminated line) is handed on as a packet whose SIP header map is
    empty. *)
Theorem Process_emits_payload_without_lines
    (d : Pipeline.Decoder D) (ci : CaptureInfo) (pre post : list Layer) (app : option string)
    (isUDP : bool) (u : Transport) (ip : IPv4) (sa da : Z) :
  Reasm Cfg = false ->
  HepFilter Cfg = EmptyString \/
    (forall a, app = Some a -> Contains a (HepFilter Cfg) = false) ->
  Forall (fun l => l = LayerOther \/ exists ip, l = LayerIPv4 ip) pre ->
  firstIPv4 pre = Some ip ->
  ip2int (SrcIP ip) = Some sa -> ip2int (DstIP ip) = Some da ->
  Index (Trim (tPayload u) (String LF EmptyString)) (String LF EmptyString) = -1 ->
  Process DefragIPv4 redispatch Cfg d
    (mkFrame (pre ++ (if isUDP then LayerUDP u else LayerTCP u) :: post)%list app) ci
  = (d,
     Returned (Some {| Host := decHost d;
                       Tsec := uint32 (tsUnix ci);
                       Tmsec := uint32 (tsNanosecond ci / 1000);
                       Srcip := sa; Dstip := da;
                       Sport := uint16 (SrcPort u); Dport := uint16 (DstPort u);
                       Payload := Some (tPayload u);
                       SipHeader := Some ∅ |})).
Proof.
  intros Hre Hfilter Hpre Hip Hsa Hda Hno.
  apply (Process_first_transport_core d ci pre post app isUDP u NewSIP ip sa da);
    try assumption.
  unfold decodeSIP, DecodeFromBytes. rewrite (readLines_no_line_feed _ _ _ _ Hno).
  reflexivity.
Qed.

End FirstTransport.

Lemma Process_returns_at_first_transport_witness :
  Process noDefrag noRedispatch plainCfg (Pipeline.mkDecoder "probe" tt)
    (mkFrame ([LayerOther;
               LayerIPv4 (mkIPv4 (ip4bytes 10 0 0 5) (ip4bytes 10 0 0 9) 60 EmptyString)]
              ++ (if true
                  then LayerUDP (mkTransport 70000 5060
                                   ("OPTIONS sip:a SIP/2.0" ++ CRLF ++ "x"))
                  else LayerTCP (mkTransport 70000 5060
                                   ("OPTIONS sip:a SIP/2.0" ++ CRLF ++ "x")))
              :: [LayerOther])%list
       (Some ("OPTIONS sip:a SIP/2.0" ++ CRLF ++ "x")))
    (mkCaptureInfo 1500000000 250000000)
  = (Pipeline.mkDecoder "probe" tt,
     Returned (Some {| Host := "probe";
                       Tsec := uint32 1500000000;
                       Tmsec := uint32 (250000000 / 1000);
                       Srcip := 167772165; Dstip := 167772169;
                       Sport := uint16 70000; Dport := uint16 5060;
                       Payload := Some ("OPTIONS sip:a SIP/2.0" ++ CRLF ++ "x");
                       SipHeader :=
                         Some (Headers (setVersion (setMethod NewSIP SIPMethodOptions)
                                          SIPVersion2)) |})).
Proof.
  apply (Process_returns_at_first_transport noDefrag noRedispatch plainCfg
           (Pipeline.mkDecoder "probe" tt) (mkCaptureInfo 1500000000 250000000)
           [LayerOther;
            LayerIPv4 (mkIPv4 (ip4bytes 10 0 0 5) (ip4bytes 10 0 0 9) 60 EmptyString)]
           [LayerOther] (Some ("OPTIONS sip:a SIP/2.0" ++ CRLF ++ "x")) true
           (mkTransport 70000 5060 ("OPTIONS sip:a SIP/2.0" ++ CRLF ++ "x"))
           (setVersion (setMethod NewSIP SIPMethodOptions) SIPVersion2)
           (mkIPv4 (ip4bytes 10 0 0 5) (ip4bytes 10 0 0 9) 60 EmptyString)
           167772165 167772169).
  - reflexivity.
  - left; reflexivity.
  - constructor; [left; reflexivity |].
    constructor; [right; eexists; reflexivity | constructor].
  - reflexivity.
  - reflexivity.
  - reflexivity.
  - reflexivity.
Defined.

Lemma Process_emits_payload_without_lines_witness :
  Process noDefrag noRedispatch plainCfg (Pipeline.mkDecoder "probe" tt)
    (mkFrame ([LayerOther;
               LayerIPv4 (mkIPv4 (ip4bytes 10 0 0 5) (ip4bytes 10 0 0 9) 60 EmptyString)]
              ++ (if false
                  then LayerUDP (mkTransport 4000 4002 (String (ascii_of_nat 128) "media"))
                  else LayerTCP (mkTransport 4000 4002 (String (ascii_of_nat 128) "media")))
              :: [])%list
       None)
    (mkCaptureInfo 1500000000 250000000)
  = (Pipeline.mkDecoder "probe" tt,
     Returned (Some {| Host := "probe";
                       Tsec := uint32 1500000000;
                       Tmsec := uint32 (250000000 / 1000);
                       Srcip := 167772165; Dstip := 167772169;
                       Sport := uint16 4000; Dport := uint16 4002;
                       Payload := Some (String (ascii_of_nat 128) "media");
                       SipHeader := Some ∅ |})).
Proof.
  apply (Process_emits_payload_without_lines noDefrag noRedispatch plainCfg
           (Pipeline.mkDecoder "probe" tt) (mkCaptureInfo 1500000000 250000000)
           [LayerOther;
            LayerIPv4 (mkIPv4 (ip4bytes 10 0 0 5) (ip4bytes 10 0 0 9) 60 EmptyString)]
           [] None false
           (mkTransport 4000 4002 (String (ascii_of_nat 128) "media"))
           (mkIPv4 (ip4bytes 10 0 0 5) (ip4bytes 10 0 0 9) 60 EmptyString)
           167772165 167772169).
  - reflexivity.
  - left; reflexivity.
  - constructor; [left; reflexivity |].
    constructor; [right; eexists; reflexivity | constructor].
  - reflexivity.
  - reflexivity.
  - reflexivity.
  - reflexivity.
Defined.

(* ===================================================================== *)
(** ** Further properties of the correlation engine                       *)
(* ===================================================================== *)

Lemma bumpLast_app (ip port : string) :
  port <> EmptyString -> bumpLast (ip ++ port) = ip ++ bumpLast port.
Proof.
  intros Hp. induction ip as [|c ip IH]; [reflexivity |].
  change (String c ip ++ port) with (String c (ip ++ port)).
  change (String c ip ++ bumpLast port) with (String c (ip ++ bumpLast port)).
  cbn [bumpLast]. rewrite IH.
  destruct (ip ++ port) eqn:E; [| reflexivity].
  destruct ip; [| discriminate E].
  change (EmptyString ++ port) with port in E. contradiction.
Qed.

Lemma bumpLast_last (p : string) (d : ascii) :
  bumpLast (p ++ String d EmptyString) = p ++ String (byteSucc d) EmptyString.
Proof.
  rewrite bumpLast_app by discriminate. reflexivity.
Qed.

Lemma bumpLast_length (s : string) : String.length (bumpLast s) = String.length s.
Proof.
  induction s as [|c s IH]; [reflexivity |].
  cbn [bumpLast]. destruct s as [|c' s']; [reflexivity |].
  cbn [String.length] in *. congruence.
Qed.

Lemma digitsFrom_app (p : string) (d : ascii) :
  forall acc,
    digitsFrom acc (p ++ String d EmptyString)
    = match digitsFrom acc p with
      | Some v => if isDigit d then Some (10 * v + (Z.of_nat (nat_of_ascii d) - 48)) else None
      | None => None
      end.
Proof.
  induction p as [|c p IH]; intros acc.
  - change (EmptyString ++ String d EmptyString) with (String d EmptyString).
    cbn [digitsFrom]. destruct (isDigit d); reflexivity.
  - change (String c p ++ String d EmptyString) with (String c (p ++ String d EmptyString)).
    cbn [digitsFrom]. destruct (isDigit c); [apply IH | reflexivity].
Qed.

Lemma byteSucc_digit (d : ascii) :
  isDigit d = true ->
  (if Ascii.eqb d "9" then isDigit (byteSucc d) = false
   else isDigit (byteSucc d) = true /\
        Z.of_nat (nat_of_ascii (byteSucc d)) = Z.of_nat (nat_of_ascii d) + 1).
Proof.
  destruct d as [[] [] [] [] [] [] [] []]; intros H;
    first [discriminate H | reflexivity | split; reflexivity].
Qed.

(** X14.  The RTCP port derived from the RTP port is its text with the
    last byte incremented, the address before it left alone.  For a
    decimal port that does not end in 9 this is the port plus one; for
    a port ending in 9 the last byte becomes a colon and the result is
    no decimal number. *)
Theorem bumpLast_is_plus_one_without_carry (ip p : string) (d : ascii) (v : Z) :
  digitsFrom 0 p = Some v ->
  isDigit d = true ->
  bumpLast (ip ++ p ++ String d EmptyString)
  = ip ++ p ++ String (byteSucc d) EmptyString /\
  digitsFrom 0 (p ++ String (byteSucc d) EmptyString)
  = (if Ascii.eqb d "9" then None
     else Some (10 * v + (Z.of_nat (nat_of_ascii d) - 48) + 1)) /\
  (Ascii.eqb d "9" = true -> byteSucc d = ":"%char).
Proof.
  intros Hp Hd. split; [| split].
  - rewrite bumpLast_app, bumpLast_last; [reflexivity |].
    destruct p; discriminate.
  - rewrite digitsFrom_app, Hp.
    pose proof (byteSucc_digit d Hd) as B.
    destruct (Ascii.eqb d "9").
    + rewrite B. reflexivity.
    + destruct B as [B1 B2]. rewrite B1, B2. f_equal. lia.
  - intros E. apply Ascii.eqb_eq in E. subst d. reflexivity.
Qed.

Lemma bumpLast_is_plus_one_without_carry_witness :
  bumpLast ("10.0.0.5" ++ "3000" ++ String "9" EmptyString)
  = "10.0.0.5" ++ "3000" ++ String (byteSucc "9") EmptyString /\
  digitsFrom 0 ("3000" ++ String (byteSucc "9") EmptyString)
  = (if Ascii.eqb "9" "9" then None
     else Some (10 * 3000 + (Z.of_nat (nat_of_ascii "9") - 48) + 1)) /\
  (Ascii.eqb "9" "9" = true -> byteSucc "9" = ":"%char).
Proof.
  apply (bumpLast_is_plus_one_without_carry "10.0.0.5" "3000" "9"%char 3000).
  - reflexivity.
  - reflexivity.
Defined.

(** *** Lengths of what the scans cut out *)

Lemma HasPrefix_length (s p : string) :
  HasPrefix s p = true -> (String.length p <= String.length s)%nat.
Proof.
  revert s. induction p as [|a p IH]; intros s; [cbn; lia |].
  destruct s as [|b s]; [discriminate |].
  change (HasPrefix (String b s) (String a p))
    with (if Ascii.eqb a b then HasPrefix s p else false).
  destruct (Ascii.eqb a b); [| discriminate].
  intros Hp. specialize (IH s Hp). cbn [String.length]. lia.
Qed.

Lemma IndexFrom_bound (s sep : string) :
  forall i, 0 <= i -> 0 <= IndexFrom i s sep ->
            IndexFrom i s sep - i + len sep <= len s.
Proof.
  induction s as [|c s IH]; intros i Hi; rewrite IndexFrom_eq.
  - destruct (HasPrefix EmptyString sep) eqn:E; [| lia].
    apply HasPrefix_length in E. unfold len. lia.
  - destruct (HasPrefix (String c s) sep) eqn:E.
    + apply HasPrefix_length in E. unfold len. lia.
    + intros H0. specialize (IH (i + 1) ltac:(lia) H0).
      unfold len in *. cbn [String.length]. lia.
Qed.

Lemma Index_bound (s sep : string) :
  0 <= Index s sep -> Index s sep + len sep <= len s.
Proof.
  intros H0. pose proof (IndexFrom_bound s sep 0 ltac:(lia) H0). unfold Index. lia.
Qed.

Lemma drop_length (n : nat) (s : string) :
  String.length (drop n s) = (String.length s - n)%nat.
Proof.
  revert s. induction n as [|n IH]; intros s; [cbn; lia |].
  destruct s as [|c s]; [reflexivity |]. cbn [drop String.length]. apply IH.
Qed.

Lemma take_length (n : nat) (s : string) :
  (n <= String.length s)%nat -> String.length (take n s) = n.
Proof.
  revert s. induction n as [|n IH]; intros s Hn; [reflexivity |].
  destruct s as [|c s]; [cbn in Hn; lia |].
  cbn [take String.length] in *. rewrite IH; lia.
Qed.

Lemma slice_len (s : string) (lo hi : Z) :
  0 <= lo <= hi -> hi <= len s -> len (slice s lo hi) = hi - lo.
Proof.
  intros Hlo Hhi. unfold slice, len in *.
  rewrite take_length; [lia |]. rewrite drop_length. lia.
Qed.

Lemma slice_to_Index_len (s sep : string) (lo : Z) :
  0 <= lo <= Index s sep -> len (slice s lo (Index s sep)) = Index s sep - lo.
Proof.
  intros H. apply slice_len; [exact H |].
  pose proof (Index_bound s sep ltac:(lia)). unfold len in *. lia.
Qed.

Lemma len_app (a b : string) : len (a ++ b) = len a + len b.
Proof. unfold len. rewrite length_app_s. lia. Qed.

Lemma sdpIP_length (payload ip : string) (pos : Z) :
  sdpIP payload pos = Some ip -> 7 <= len ip.
Proof.
  unfold sdpIP.
  destruct (16 <=? Index (drop (Z.to_nat pos) payload) CRLF) eqn:E; [| discriminate].
  apply Z.leb_le in E. intros R; inversion R; subst ip.
  change (len "c=IN IP" + 2) with 9.
  rewrite slice_to_Index_len; lia.
Qed.

Lemma sdpPort_length (payload ip key : string) (pos : Z) :
  sdpPort payload pos ip = Some key -> len ip + 4 <= len key.
Proof.
  unfold sdpPort. destruct (0 <? Index payload "a=rtcp:").
  - destruct (11 <=? Index (drop (Z.to_nat (Index payload "a=rtcp:")) payload) CRLF) eqn:E;
      [| discriminate].
    apply Z.leb_le in E. intros R; inversion R; subst key.
    rewrite len_app. change (len "a=rtcp:") with 7.
    rewrite slice_to_Index_len; lia.
  - destruct (12 <=? Index (drop (Z.to_nat pos) payload) " RTP") eqn:E; [| discriminate].
    apply Z.leb_le in E. intros R; inversion R; subst key.
    unfold len at 2. rewrite bumpLast_length. fold (len (ip ++ slice (drop (Z.to_nat pos) payload) (len "m=audio ") (Index (drop (Z.to_nat pos) payload) " RTP"))).
    rewrite len_app. change (len "m=audio ") with 8.
    rewrite slice_to_Index_len; lia.
Qed.

Lemma callIDAt_length (payload marker callID : string) (pos minLen : Z) :
  len marker < minLen ->
  callIDAt payload marker pos minLen = Some callID -> 1 <= len callID.
Proof.
  intros Hm. unfold callIDAt.
  destruct (minLen <=? Index (drop (Z.to_nat pos) payload) CRLF) eqn:E; [| discriminate].
  apply Z.leb_le in E. intros R; inversion R; subst callID.
  rewrite slice_to_Index_len; unfold len in *; lia.
Qed.

Lemma sdpCallID_length (payload callID : string) :
  sdpCallID payload = Some callID -> 1 <= len callID.
Proof.
  unfold sdpCallID.
  destruct (0 <? Index payload "Call-ID: ");
    [apply callIDAt_length; reflexivity |].
  destruct (0 <? Index payload "Call-ID:");
    [apply callIDAt_length; reflexivity |].
  destruct (0 <? Index payload "i: ");
    [apply callIDAt_length; reflexivity | discriminate].
Qed.

Section SDPFootprint.

Context {C : Type} `{CacheBackend C}.

(** At most one cache call, a write to the SDP cache. *)
Lemma cacheSDPIPPort_one_write (d : Correlate.Decoder C) (payload : string) :
  cacheSDPIPPort payload d = (tt, d, [])
  \/ exists key callID,
       11 <= len key /\ 1 <= len callID /\
       cacheSDPIPPort payload d
       = (tt,
          Correlate.mkDecoder (fst (cacheSet (SDPCache d) key callID 120))
                              (RTCPCache d) (SIPCache d),
          [OpSet SDP key callID 120]).
Proof.
  unfold cacheSDPIPPort.
  destruct ((0 <? Index payload "c=IN IP") && (0 <? Index payload "m=audio "));
    [| left; reflexivity].
  destruct (sdpIP payload (Index payload "c=IN IP")) as [ip|] eqn:EIP; [| left; reflexivity].
  destruct (sdpPort payload (Index payload "m=audio ") ip) as [key|] eqn:EP;
    [| left; reflexivity].
  destruct (sdpCallID payload) as [callID|] eqn:EC; [| left; reflexivity].
  right. exists key, callID.
  pose proof (sdpIP_length _ _ _ EIP). pose proof (sdpPort_length _ _ _ _ EP).
  pose proof (sdpCallID_length _ _ EC).
  repeat split; [lia | lia |].
  unfold bind, setC, ret. cbn [cacheOf withCache].
  destruct (cacheSet (SDPCache d) key callID 120) as [x err]. reflexivity.
Qed.

(** X15.  cacheSDPIPPort never reads a cache and never touches the
    RTCP or the SIP cache.  It either does nothing at all, or makes
    exactly one call: a write to the SDP cache with a time-to-live of
    120 seconds, whose key has at least 11 bytes and whose value, the
    Call-ID, at least one. *)
Theorem cacheSDPIPPort_footprint (d : Correlate.Decoder C) (payload : string) :
  cacheSDPIPPort payload d = (tt, d, [])
  \/ exists key callID,
       11 <= len key /\ 1 <= len callID /\
       cacheSDPIPPort payload d
       = (tt,
          Correlate.mkDecoder (fst (cacheSet (SDPCache d) key callID 120))
                              (RTCPCache d) (SIPCache d),
          [OpSet SDP key callID 120]).
Proof. apply cacheSDPIPPort_one_write. Qed.

Lemma sdpIP_text (payload hd ip r1 : string) (pos : Z) :
  String.length hd = 9%nat ->
  drop (Z.to_nat pos) payload = hd ++ ip ++ CRLF ++ r1 ->
  Index (hd ++ ip ++ CRLF ++ r1) CRLF = 9 + len ip ->
  7 <= len ip ->
  sdpIP payload pos = Some ip.
Proof.
  intros Hhd Hd Hi Hl. unfold sdpIP. rewrite Hd, Hi.
  destruct (16 <=? 9 + len ip) eqn:E; [| apply Z.leb_gt in E; lia].
  f_equal. unfold slice. change (len "c=IN IP" + 2) with 9.
  replace (Z.to_nat (9 + len ip - 9)) with (String.length ip) by (unfold len; lia).
  change (Z.to_nat 9) with 9%nat. rewrite <- Hhd, drop_app_length.
  apply take_app_length.
Qed.

(** X16.  When an [a=rtcp:] attribute stands at a positive offset, its
    value is the port: the key is the connection address followed by
    the attribute's text up to the line end, unchanged, and the
    [m=audio ] line is only required to exist, it is not examined. *)
Theorem cacheSDPIPPort_rtcp_attribute
    (d : Correlate.Decoder C) (payload hd ip r1 port r2 callID : string) :
  0 < Index payload "c=IN IP" -> 0 < Index payload "m=audio " ->
  String.length hd = 9%nat ->
  drop (Z.to_nat (Index payload "c=IN IP")) payload = hd ++ ip ++ CRLF ++ r1 ->
  Index (hd ++ ip ++ CRLF ++ r1) CRLF = 9 + len ip ->
  7 <= len ip ->
  0 < Index payload "a=rtcp:" ->
  drop (Z.to_nat (Index payload "a=rtcp:")) payload = "a=rtcp:" ++ port ++ CRLF ++ r2 ->
  Index ("a=rtcp:" ++ port ++ CRLF ++ r2) CRLF = 7 + len port ->
  4 <= len port ->
  sdpCallID payload = Some callID ->
  cacheSDPIPPort payload d
  = (tt,
     withCache SDP d (fst (cacheSet (SDPCache d) (ip ++ port) callID 120)),
     [OpSet SDP (ip ++ port) callID 120]).
Proof.
  intros HpI HpM Hhd HdI HiI HlI HpR HdR HiR HlR HC.
  unfold cacheSDPIPPort.
  apply Z.ltb_lt in HpI, HpM. rewrite HpI, HpM. cbn [andb].
  rewrite (sdpIP_text payload hd ip r1 _ Hhd HdI HiI HlI).
  assert (HP : sdpPort payload (Index payload "m=audio ") ip = Some (ip ++ port)).
  { unfold sdpPort. apply Z.ltb_lt in HpR. rewrite HpR, HdR, HiR.
    destruct (11 <=? 7 + len port) eqn:E; [| apply Z.leb_gt in E; lia].
    f_equal. f_equal. unfold slice. change (len "a=rtcp:") with 7.
    replace (Z.to_nat (7 + len port - 7)) with (String.length port) by (unfold len; lia).
    change (Z.to_nat 7) with 7%nat.
    change (drop 7 ("a=rtcp:" ++ port ++ CRLF ++ r2)) with (port ++ CRLF ++ r2).
    apply take_app_length. }
  rewrite HP, HC. unfold bind, setC, ret. cbn [cacheOf].
  destruct (cacheSet (SDPCache d) (ip ++ port) callID 120) as [x err]. reflexivity.
Qed.

(** X17.  Without an [a=rtcp:] attribute at a positive offset the port
    is the text between [m=audio ] and the following [ RTP], and the
    key is the connection address followed by that text with its last
    byte incremented. *)
Theorem cacheSDPIPPort_audio_port
    (d : Correlate.Decoder C) (payload hd ip r1 port r2 callID : string) :
  0 < Index payload "c=IN IP" -> 0 < Index payload "m=audio " ->
  String.length hd = 9%nat ->
  drop (Z.to_nat (Index payload "c=IN IP")) payload = hd ++ ip ++ CRLF ++ r1 ->
  Index (hd ++ ip ++ CRLF ++ r1) CRLF = 9 + len ip ->
  7 <= len ip ->
  Index payload "a=rtcp:" <= 0 ->
  drop (Z.to_nat (Index payload "m=audio ")) payload = "m=audio " ++ port ++ " RTP" ++ r2 ->
  Index ("m=audio " ++ port ++ " RTP" ++ r2) " RTP" = 8 + len port ->
  4 <= len port ->
  sdpCallID payload = Some callID ->
  cacheSDPIPPort payload d
  = (tt,
     withCache SDP d (fst (cacheSet (SDPCache d) (ip ++ bumpLast port) callID 120)),
     [OpSet SDP (ip ++ bumpLast port) callID 120]).
Proof.
  intros HpI HpM Hhd HdI HiI HlI HpR HdM HiM HlM HC.
  unfold cacheSDPIPPort.
  apply Z.ltb_lt in HpI, HpM. rewrite HpI, HpM. cbn [andb].
  rewrite (sdpIP_text payload hd ip r1 _ Hhd HdI HiI HlI).
  assert (HP : sdpPort payload (Index payload "m=audio ") ip = Some (ip ++ bumpLast port)).
  { unfold sdpPort. apply Z.ltb_ge in HpR. rewrite HpR, HdM, HiM.
    destruct (12 <=? 8 + len port) eqn:E; [| apply Z.leb_gt in E; lia].
    f_equal. unfold slice. change (len "m=audio ") with 8.
    replace (Z.to_nat (8 + len port - 8)) with (String.length port) by (unfold len; lia).
    change (Z.to_nat 8) with 8%nat.
    change (drop 8 ("m=audio " ++ port ++ " RTP" ++ r2)) with (port ++ " RTP" ++ r2).
    rewrite take_app_length. apply bumpLast_app.
    intros ->. unfold len in HlM. cbn in HlM. lia. }
  rewrite HP, HC. unfold bind, setC, ret. cbn [cacheOf].
  destruct (cacheSet (SDPCache d) (ip ++ bumpLast port) callID 120) as [x err].
  reflexivity.
Qed.

End SDPFootprint.

Lemma cacheSDPIPPort_footprint_holds_on_invite :
  exists key callID,
    cacheSDPIPPort Samples.invite Samples.freshDecoder
    = (tt,
       Correlate.mkDecoder (fst (cacheSet (SDPCache Samples.freshDecoder) key callID 120))
                           (RTCPCache Samples.freshDecoder) (SIPCache Samples.freshDecoder),
       [OpSet SDP key callID 120]).
Proof. exists "10.0.0.530001", "abc". reflexivity. Qed.

Lemma cacheSDPIPPort_rtcp_attribute_witness :
  cacheSDPIPPort Samples.inviteRtcp Samples.freshDecoder
  = (tt,
     withCache SDP Samples.freshDecoder
       (fst (cacheSet (SDPCache Samples.freshDecoder) ("10.0.0.5" ++ "40002") "abc" 120)),
     [OpSet SDP ("10.0.0.5" ++ "40002") "abc" 120]).
Proof.
  apply (cacheSDPIPPort_rtcp_attribute Samples.freshDecoder Samples.inviteRtcp
           "c=IN IP4 " "10.0.0.5"
           ("m=audio 30000 RTP/AVP 0" ++ CRLF ++ "a=rtcp:40002" ++ CRLF)
           "40002" EmptyString "abc").
  - vm_compute. reflexivity.
  - vm_compute. reflexivity.
  - reflexivity.
  - reflexivity.
  - reflexivity.
  - vm_compute. discriminate.
  - vm_compute. reflexivity.
  - reflexivity.
  - reflexivity.
  - vm_compute. discriminate.
  - reflexivity.
Defined.

Lemma cacheSDPIPPort_audio_port_witness :
  cacheSDPIPPort Samples.invite Samples.freshDecoder
  = (tt,
     withCache SDP Samples.freshDecoder
       (fst (cacheSet (SDPCache Samples.freshDecoder)
               ("10.0.0.5" ++ bumpLast "30000") "abc" 120)),
     [OpSet SDP ("10.0.0.5" ++ bumpLast "30000") "abc" 120]).
Proof.
  apply (cacheSDPIPPort_audio_port Samples.freshDecoder Samples.invite
           "c=IN IP4 " "10.0.0.5"
           ("m=audio 30000 RTP/AVP 0" ++ CRLF)
           "30000" ("/AVP 0" ++ CRLF) "abc").
  - vm_compute. reflexivity.
  - vm_compute. reflexivity.
  - reflexivity.
  - reflexivity.
  - reflexivity.
  - vm_compute. discriminate.
  - vm_compute. discriminate.
  - reflexivity.
  - reflexivity.
  - vm_compute. discriminate.
  - reflexivity.
Defined.

Section RTCPFurther.

Context {C : Type} `{CacheBackend C}.
Variable IP_String : string -> string.
Variable ParseRTCP : string -> option string * option string * string.

Lemma correlateRTCP_unfold
    (d : Correlate.Decoder C) (srcIP : string) (srcPort : Z) (payload : string)
    (key json : option string) (info : string) :
  ParseRTCP payload = (key, json, info) ->
  info = EmptyString \/ json <> None ->
  correlateRTCP IP_String ParseRTCP srcIP srcPort payload d
  = match cacheGet (RTCPCache d) (keyOf key), key with
    | Some corrID, Some _ => ((json, Some corrID, 5), d, [OpGet RTCP (keyOf key)])
    | _, _ =>
        match cacheGet (SDPCache d) (IP_String srcIP ++ Itoa srcPort) with
        | Some corrID =>
            ((if snd (cacheSet (RTCPCache d) (keyOf key) corrID 43200)
              then noMatch else (json, Some corrID, 5)),
             withCache RTCP d (fst (cacheSet (RTCPCache d) (keyOf key) corrID 43200)),
             [OpGet RTCP (keyOf key);
              OpGet SDP (IP_String srcIP ++ Itoa srcPort);
              OpSet RTCP (keyOf key) corrID 43200])
        | None =>
            (noMatch, d,
             [OpGet RTCP (keyOf key); OpGet SDP (IP_String srcIP ++ Itoa srcPort)])
        end
    end.
Proof.
  intros Hparse Hok. unfold correlateRTCP. rewrite Hparse.
  assert (Hgate : negb (String.eqb info EmptyString) && isNil json = false).
  { destruct Hok as [-> | Hj]; [reflexivity |].
    destruct json; [apply andb_false_r | congruence]. }
  rewrite Hgate. unfold bind, getC, setC, ret. cbn [cacheOf].
  destruct (cacheGet (RTCPCache d) (keyOf key)) as [corrID|], key as [k|];
    try reflexivity;
    destruct (cacheGet (SDPCache d) (IP_String srcIP ++ Itoa srcPort)) as [c2|];
    try reflexivity;
    match goal with
    | |- context [cacheSet ?a ?b ?c ?e] => destruct (cacheSet a b c e) as [x [|]]
    end; reflexivity.
Qed.

(** X18.  Whatever the decoder returns, correlateRTCP leaves the SDP
    and the SIP cache as they were, reads only the RTCP and the SDP
    cache, writes only to the RTCP cache and only with a time-to-live
    of 43200 seconds, and returns either the no-match triple or the
    decoder's derived payload with a correlation id and record type
    5. *)
Theorem correlateRTCP_footprint
    (d : Correlate.Decoder C) (srcIP : string) (srcPort : Z) (payload : string) :
  let '(r, d', t) := correlateRTCP IP_String ParseRTCP srcIP srcPort payload d in
  SDPCache d' = SDPCache d /\ SIPCache d' = SIPCache d /\
  (r = noMatch \/ exists corrID, r = (snd (fst (ParseRTCP payload)), Some corrID, 5)) /\
  Forall (fun op => match op with
                    | OpGet c _ => c = RTCP \/ c = SDP
                    | OpSet c _ _ ttl => c = RTCP /\ ttl = 43200
                    end) t.
Proof.
  destruct (ParseRTCP payload) as [[key json] info] eqn:EP.
  destruct (negb (String.eqb info EmptyString) && isNil json) eqn:G.
  - unfold correlateRTCP. rewrite EP, G. cbn.
    repeat split; [left; reflexivity | constructor].
  - assert (Hok : info = EmptyString \/ json <> None).
    { destruct (String.eqb_spec info EmptyString) as [-> | Hne]; [left; reflexivity |].
      right. destruct json; [discriminate | discriminate G]. }
    rewrite (correlateRTCP_unfold d srcIP srcPort payload key json info EP Hok).
    cbn [fst snd].
    destruct (cacheGet (RTCPCache d) (keyOf key)) as [corrID|], key as [k|];
      try (repeat split; [right; eexists; reflexivity | repeat constructor]);
      destruct (cacheGet (SDPCache d) (IP_String srcIP ++ Itoa srcPort)) as [c2|];
      try (repeat split; [left; reflexivity | repeat constructor; right; reflexivity]);
      (repeat split;
       [ match goal with
         | |- context [cacheSet ?a ?b ?c ?e] => destruct (snd (cacheSet a b c e))
         end; [left; reflexivity | right; eexists; reflexivity]
       | constructor; [left; reflexivity |];
         constructor; [right; reflexivity |];
         constructor; [split; reflexivity | constructor] ]).
Qed.

(** X19.  Promotion makes the next report take the short path.  After
    a call that missed the RTCP cache, hit the SDP cache and wrote the
    binding without error, a second report with the same SSRC (the
    written entry being readable) is answered from the RTCP cache
    alone: one lookup, the same Call-ID, record type 5, no call on the
    SDP cache. *)
Theorem correlateRTCP_second_report_uses_rtcp_cache
    (d : Correlate.Decoder C) (srcIP srcIP2 : string) (srcPort srcPort2 : Z)
    (payload payload2 k corrID : string) (json json2 : option string)
    (info info2 : string) :
  ParseRTCP payload = (Some k, json, info) ->
  info = EmptyString \/ json <> None ->
  ParseRTCP payload2 = (Some k, json2, info2) ->
  info2 = EmptyString \/ json2 <> None ->
  cacheGet (RTCPCache d) k = None ->
  cacheGet (SDPCache d) (IP_String srcIP ++ Itoa srcPort) = Some corrID ->
  snd (cacheSet (RTCPCache d) k corrID 43200) = false ->
  cacheGet (fst (cacheSet (RTCPCache d) k corrID 43200)) k = Some corrID ->
  let '(r1, d1, _) := correlateRTCP IP_String ParseRTCP srcIP srcPort payload d in
  r1 = (json, Some corrID, 5) /\
  correlateRTCP IP_String ParseRTCP srcIP2 srcPort2 payload2 d1
  = ((json2, Some corrID, 5), d1, [OpGet RTCP k]).
Proof.
  intros HP1 Hok1 HP2 Hok2 Hmiss Hsdp Hset Hget.
  rewrite (correlateRTCP_unfold d srcIP srcPort payload (Some k) json info HP1 Hok1).
  change (keyOf (Some k)) with k. rewrite Hmiss, Hsdp, Hset.
  split; [reflexivity |].
  rewrite (correlateRTCP_unfold _ srcIP2 srcPort2 payload2 (Some k) json2 info2 HP2 Hok2).
  change (keyOf (Some k)) with k. cbn [withCache RTCPCache]. rewrite Hget. reflexivity.
Qed.

(** X20.  The SDP path end to end.  Once cacheSDPIPPort has written a
    Call-ID under a key and the entry is readable, an RTCP report whose
    source address and port spell that key, and whose SSRC is not yet
    in the RTCP cache, is correlated to that Call-ID with record type
    5, provided the promotion write reports no error. *)
Theorem cacheSDPIPPort_then_correlateRTCP
    (d d1 : Correlate.Decoder C) (sip key callID : string)
    (srcIP : string) (srcPort : Z) (payload k : string)
    (json : option string) (info : string) :
  cacheSDPIPPort sip d = (tt, d1, [OpSet SDP key callID 120]) ->
  cacheGet (SDPCache d1) key = Some callID ->
  ParseRTCP payload = (Some k, json, info) ->
  info = EmptyString \/ json <> None ->
  cacheGet (RTCPCache d) k = None ->
  IP_String srcIP ++ Itoa srcPort = key ->
  snd (cacheSet (RTCPCache d) k callID 43200) = false ->
  fst (fst (correlateRTCP IP_String ParseRTCP srcIP srcPort payload d1))
  = (json, Some callID, 5).
Proof.
  intros Hsdp Hget HP Hok Hmiss Hkey Hset.
  assert (HR : RTCPCache d1 = RTCPCache d).
  { destruct (cacheSDPIPPort_one_write d sip) as [E | (k' & c' & _ & _ & E)];
      rewrite E in Hsdp; inversion Hsdp; reflexivity. }
  rewrite (correlateRTCP_unfold d1 srcIP srcPort payload (Some k) json info HP Hok).
  change (keyOf (Some k)) with k. rewrite HR, Hmiss, Hkey, Hget, Hset. reflexivity.
Qed.

(** X21.  A report for which the decoder gives no SSRC key never
    correlates through the RTCP cache, not even when that cache holds
    an entry under the empty key: the SDP cache decides, and a hit
    there is written to the RTCP cache under the empty key. *)
Theorem correlateRTCP_nil_key
    (d : Correlate.Decoder C) (srcIP : string) (srcPort : Z) (payload : string)
    (json : option string) (info : string) :
  ParseRTCP payload = (None, json, info) ->
  info = EmptyString \/ json <> None ->
  correlateRTCP IP_String ParseRTCP srcIP srcPort payload d
  = match cacheGet (SDPCache d) (IP_String srcIP ++ Itoa srcPort) with
    | Some corrID =>
        ((if snd (cacheSet (RTCPCache d) EmptyString corrID 43200)
          then noMatch else (json, Some corrID, 5)),
         withCache RTCP d (fst (cacheSet (RTCPCache d) EmptyString corrID 43200)),
         [OpGet RTCP EmptyString;
          OpGet SDP (IP_String srcIP ++ Itoa srcPort);
          OpSet RTCP EmptyString corrID 43200])
    | None =>
        (noMatch, d,
         [OpGet RTCP EmptyString; OpGet SDP (IP_String srcIP ++ Itoa srcPort)])
    end.
Proof.
  intros HP Hok.
  rewrite (correlateRTCP_unfold d srcIP srcPort payload None json info HP Hok).
  change (keyOf None) with EmptyString.
  destruct (cacheGet (RTCPCache d) EmptyString); reflexivity.
Qed.

End RTCPFurther.

Lemma correlateRTCP_second_report_uses_rtcp_cache_witness :
  let '(r1, d1, _) :=
    correlateRTCP ipv4String Samples.rtcp9999 Samples.srcAddr 30001 "rr1" Samples.sdpSeeded in
  r1 = (Some "{}", Some "abc", 5) /\
  correlateRTCP ipv4String Samples.rtcp9999 "elsewhere" 7 "rr2" d1
  = ((Some "{}", Some "abc", 5), d1, [OpGet RTCP "9999"]).
Proof.
  apply (correlateRTCP_second_report_uses_rtcp_cache ipv4String Samples.rtcp9999
           Samples.sdpSeeded Samples.srcAddr "elsewhere" 30001 7 "rr1" "rr2" "9999" "abc"
           (Some "{}") (Some "{}") EmptyString EmptyString).
  - reflexivity.
  - left; reflexivity.
  - reflexivity.
  - left; reflexivity.
  - reflexivity.
  - reflexivity.
  - reflexivity.
  - reflexivity.
Defined.

Lemma cacheSDPIPPort_then_correlateRTCP_witness :
  fst (fst (correlateRTCP ipv4String Samples.rtcp9999 Samples.srcAddr 30001 "rr"
              (withCache SDP Samples.freshDecoder
                 (Samples.seeded 1024 "10.0.0.530001" "abc" 120))))
  = (Some "{}", Some "abc", 5).
Proof.
  apply (cacheSDPIPPort_then_correlateRTCP ipv4String Samples.rtcp9999
           Samples.freshDecoder
           (withCache SDP Samples.freshDecoder
              (Samples.seeded 1024 "10.0.0.530001" "abc" 120))
           Samples.invite "10.0.0.530001" "abc" Samples.srcAddr 30001 "rr" "9999"
           (Some "{}") EmptyString).
  - vm_compute. reflexivity.
  - reflexivity.
  - reflexivity.
  - left; reflexivity.
  - reflexivity.
  - reflexivity.
  - reflexivity.
Defined.

Lemma correlateRTCP_nil_key_witness :
  correlateRTCP ipv4String Samples.rtcpNoKey Samples.srcAddr 30001 "rr"
    Samples.emptyKeySeeded
  = match cacheGet (SDPCache Samples.emptyKeySeeded)
            (ipv4String Samples.srcAddr ++ Itoa 30001) with
    | Some corrID =>
        ((if snd (cacheSet (RTCPCache Samples.emptyKeySeeded) EmptyString corrID 43200)
          then noMatch else (Some "{}", Some corrID, 5)),
         withCache RTCP Samples.emptyKeySeeded
           (fst (cacheSet (RTCPCache Samples.emptyKeySeeded) EmptyString corrID 43200)),
         [OpGet RTCP EmptyString;
          OpGet SDP (ipv4String Samples.srcAddr ++ Itoa 30001);
          OpSet RTCP EmptyString corrID 43200])
    | None =>
        (noMatch, Samples.emptyKeySeeded,
         [OpGet RTCP EmptyString; OpGet SDP (ipv4String Samples.srcAddr ++ Itoa 30001)])
    end.
Proof.
  apply (correlateRTCP_nil_key ipv4String Samples.rtcpNoKey Samples.emptyKeySeeded
           Samples.srcAddr 30001 "rr" (Some "{}") EmptyString).
  - reflexivity.
  - left; reflexivity.
Defined.

(** *** Log lines *)

Lemma Index_after_ID (x : string) :
  Index ("ID=" ++ x) " " = if Index x " " =? -1 then -1 else 3 + Index x " ".
Proof.
  unfold Index.
  change ("ID=" ++ x) with (String "I" (String "D" (String "=" x))).
  do 3 (rewrite IndexFrom_skip by reflexivity).
  apply IndexFrom_shift.
Qed.

Lemma bracket_slice (id tail : string) :
  slice (": [" ++ id ++ tail) (len ": [") (3 + len id) = id.
Proof.
  unfold slice. change (len ": [") with 3.
  replace (Z.to_nat (3 + len id - 3)) with (String.length id) by (unfold len; lia).
  change (Z.to_nat 3) with 3%nat.
  change (drop 3 (": [" ++ id ++ tail)) with (id ++ tail).
  apply take_app_length.
Qed.

Lemma correlateLOG_ID_with_space_core (payload id rest : string) :
  0 < Index payload "ID=" ->
  drop (Z.to_nat (Index payload "ID=")) payload = "ID=" ++ id ++ " " ++ rest ->
  Index id " " = -1 ->
  id <> EmptyString ->
  correlateLOG payload = (Some payload, Some id, 100).
Proof.
  intros Hpos Hd Hid Hne. unfold correlateLOG.
  apply Z.ltb_lt in Hpos. rewrite Hpos, Hd.
  assert (Hi : Index ("ID=" ++ id ++ " " ++ rest) " " = 3 + len id).
  { rewrite Index_after_ID.
    change (id ++ " " ++ rest) with (id ++ String " " rest).
    rewrite (Index_one_app id rest " "%char Hid).
    destruct (len id =? -1) eqn:E; [| reflexivity].
    apply Z.eqb_eq in E. unfold len in E. lia. }
  rewrite Hi.
  assert (Hl : 1 <= len id) by (destruct id; [contradiction | unfold len; cbn; lia]).
  destruct (4 <=? 3 + len id) eqn:E; [| apply Z.leb_gt in E; lia].
  f_equal. f_equal. f_equal. unfold slice. change (len "ID=") with 3.
  replace (Z.to_nat (3 + len id - 3)) with (String.length id) by (unfold len; lia).
  change (Z.to_nat 3) with 3%nat.
  change (drop 3 ("ID=" ++ id ++ " " ++ rest)) with (id ++ " " ++ rest).
  apply take_app_length.
Qed.

Lemma correlateLOG_ID_at_line_end_core (payload id : string) :
  0 < Index payload "ID=" ->
  drop (Z.to_nat (Index payload "ID=")) payload = "ID=" ++ id ->
  Index id " " = -1 ->
  correlateLOG payload
  = if (5 <=? len id) && (len id <=? 61) then (Some payload, Some id, 100) else noMatch.
Proof.
  intros Hpos Hd Hid. unfold correlateLOG.
  apply Z.ltb_lt in Hpos. rewrite Hpos, Hd.
  rewrite Index_after_ID, Hid.
  change (-1 =? -1) with true. cbv iota. change (4 <=? -1) with false. cbv iota.
  assert (Hlen : len ("ID=" ++ id) = 3 + len id).
  { rewrite len_app. reflexivity. }
  rewrite Hlen.
  replace (8 <=? 3 + len id) with (5 <=? len id)
    by (destruct (Z.leb_spec 5 (len id)), (Z.leb_spec 8 (3 + len id)); lia || reflexivity).
  replace (3 + len id <=? 64) with (len id <=? 61)
    by (destruct (Z.leb_spec (len id) 61), (Z.leb_spec (3 + len id) 64); lia || reflexivity).
  destruct ((5 <=? len id) && (len id <=? 61)); [| reflexivity].
  f_equal. f_equal. f_equal. unfold slice.
  replace (Z.to_nat (3 + len id - 3)) with (String.length id) by (unfold len; lia).
  change (Z.to_nat 3) with 3%nat.
  change (drop 3 ("ID=" ++ id)) with id. apply take_all.
Qed.

Lemma correlateLOG_bracket_port_core (payload id rest : string) :
  Index payload "ID=" <= 0 ->
  0 < Index payload ": [" ->
  drop (Z.to_nat (Index payload ": [")) payload = ": [" ++ id ++ " port " ++ rest ->
  Index (": [" ++ id ++ " port " ++ rest) " port " = 3 + len id ->
  5 <= len id ->
  correlateLOG payload
  = if (8 <=? len id) && (len id <=? 64) then (Some payload, Some id, 100) else noMatch.
Proof.
  intros Hno Hpos Hd Hi Hl. unfold correlateLOG.
  apply Z.ltb_ge in Hno. apply Z.ltb_lt in Hpos. rewrite Hno, Hpos, Hd, Hi.
  destruct (8 <=? 3 + len id) eqn:E; [| apply Z.leb_gt in E; lia].
  rewrite bracket_slice. reflexivity.
Qed.

Lemma correlateLOG_bracket_colon_core (payload id rest : string) :
  Index payload "ID=" <= 0 ->
  0 < Index payload ": [" ->
  drop (Z.to_nat (Index payload ": [")) payload = ": [" ++ id ++ "]: " ++ rest ->
  Index (": [" ++ id ++ "]: " ++ rest) " port " < 8 ->
  Index (": [" ++ id ++ "]: " ++ rest) "]: " = 3 + len id ->
  1 <= len id ->
  correlateLOG payload
  = if (8 <=? len id) && (len id <=? 64) then (Some payload, Some id, 100) else noMatch.
Proof.
  intros Hno Hpos Hd Hport Hi Hl. unfold correlateLOG.
  apply Z.ltb_ge in Hno. apply Z.ltb_lt in Hpos. rewrite Hno, Hpos, Hd, Hi.
  destruct (8 <=? Index (": [" ++ id ++ "]: " ++ rest) " port ") eqn:E8;
    [apply Z.leb_le in E8; lia |].
  destruct (4 <=? 3 + len id) eqn:E; [| apply Z.leb_gt in E; lia].
  rewrite bracket_slice. reflexivity.
Qed.

(** X22.  The [ID=] form with a terminating space.  When the first
    [ID=] marker stands at a positive offset and is followed by a
    non-empty identifier without a space and then a space, correlateLOG
    returns the whole line, that identifier and record type 100,
    whatever the identifier's length. *)
Theorem correlateLOG_ID_with_space (payload id rest : string) :
  0 < Index payload "ID=" ->
  drop (Z.to_nat (Index payload "ID=")) payload = "ID=" ++ id ++ " " ++ rest ->
  Index id " " = -1 ->
  id <> EmptyString ->
  correlateLOG payload = (Some payload, Some id, 100).
Proof. apply correlateLOG_ID_with_space_core. Qed.

Lemma correlateLOG_ID_with_space_witness :
  correlateLOG "call ID=a next" = (Some "call ID=a next", Some "a", 100).
Proof.
  apply (correlateLOG_ID_with_space "call ID=a next" "a" "next").
  - vm_compute. reflexivity.
  - reflexivity.
  - reflexivity.
  - discriminate.
Defined.

(** X23.  The [ID=] form at the end of a line.  When the first [ID=]
    marker stands at a positive offset and no space follows it, the
    identifier is everything after the marker, and it is returned
    exactly when marker and identifier together have between 8 and 64
    bytes, that is, when the identifier has between 5 and 61. *)
Theorem correlateLOG_ID_at_line_end (payload id : string) :
  0 < Index payload "ID=" ->
  drop (Z.to_nat (Index payload "ID=")) payload = "ID=" ++ id ->
  Index id " " = -1 ->
  correlateLOG payload
  = if (5 <=? len id) && (len id <=? 61) then (Some payload, Some id, 100) else noMatch.
Proof. apply correlateLOG_ID_at_line_end_core. Qed.

Lemma correlateLOG_ID_at_line_end_witness :
  correlateLOG "call ID=abcd"
  = if (5 <=? len "abcd") && (len "abcd" <=? 61)
    then (Some "call ID=abcd", Some "abcd", 100) else noMatch.
Proof.
  apply (correlateLOG_ID_at_line_end "call ID=abcd" "abcd").
  - vm_compute. reflexivity.
  - reflexivity.
  - reflexivity.
Defined.

(** X24.  The bracket form ending in [ port ].  Without an [ID=]
    marker at a positive offset, and with the first [: [] marker at a
    positive offset, the identifier is everything between [: [] and the
    first [ port ], a closing bracket included; it is returned exactly
    when it has between 8 and 64 bytes. *)
Theorem correlateLOG_bracket_port (payload id rest : string) :
  Index payload "ID=" <= 0 ->
  0 < Index payload ": [" ->
  drop (Z.to_nat (Index payload ": [")) payload = ": [" ++ id ++ " port " ++ rest ->
  Index (": [" ++ id ++ " port " ++ rest) " port " = 3 + len id ->
  5 <= len id ->
  correlateLOG payload
  = if (8 <=? len id) && (len id <=? 64) then (Some payload, Some id, 100) else noMatch.
Proof. apply correlateLOG_bracket_port_core. Qed.

Lemma correlateLOG_bracket_port_witness :
  correlateLOG "x: [abcdefg] port 5060"
  = if (8 <=? len "abcdefg]") && (len "abcdefg]" <=? 64)
    then (Some "x: [abcdefg] port 5060", Some "abcdefg]", 100) else noMatch.
Proof.
  apply (correlateLOG_bracket_port "x: [abcdefg] port 5060" "abcdefg]" "5060").
  - vm_compute. discriminate.
  - vm_compute. reflexivity.
  - reflexivity.
  - reflexivity.
  - vm_compute. discriminate.
Defined.

(** X25.  The bracket form ending in []: ].  Under the same conditions
    on the markers, when no [ port ] is found at offset 8 or later, the
    identifier is the text between [: [] and the first []: ]; it is
    returned exactly when it has between 8 and 64 bytes. *)
Theorem correlateLOG_bracket_colon (payload id rest : string) :
  Index payload "ID=" <= 0 ->
  0 < Index payload ": [" ->
  drop (Z.to_nat (Index payload ": [")) payload = ": [" ++ id ++ "]: " ++ rest ->
  Index (": [" ++ id ++ "]: " ++ rest) " port " < 8 ->
  Index (": [" ++ id ++ "]: " ++ rest) "]: " = 3 + len id ->
  1 <= len id ->
  correlateLOG payload
  = if (8 <=? len id) && (len id <=? 64) then (Some payload, Some id, 100) else noMatch.
Proof. apply correlateLOG_bracket_colon_core. Qed.

Lemma correlateLOG_bracket_colon_witness :
  correlateLOG "x: [abcdefgh]: message"
  = if (8 <=? len "abcdefgh") && (len "abcdefgh" <=? 64)
    then (Some "x: [abcdefgh]: message", Some "abcdefgh", 100) else noMatch.
Proof.
  apply (correlateLOG_bracket_colon "x: [abcdefgh]: message" "abcdefgh" "message").
  - vm_compute. discriminate.
  - vm_compute. reflexivity.
  - reflexivity.
  - vm_compute. reflexivity.
  - reflexivity.
  - vm_compute. discriminate.
Defined.

(** *** NG control messages *)

Section NGFurther.

Context {C : Type} `{CacheBackend C}.
Variable unmarshalNG : string -> string * RawNG * bool.
Variable jsonMarshal : RawNG -> option string.

(** What a run over the dictionary may do: calls on the SIP cache under
    the cookie only, writes with a time-to-live of 10 seconds, the
    other two caches as they were, and one of three results. *)
Let ngFootprint (cookie : string) (d : Correlate.Decoder C)
    (x : ngOutcome * Correlate.Decoder C * list CacheOp) : Prop :=
  let '(r, d', t) := x in
  SDPCache d' = SDPCache d /\ RTCPCache d' = RTCPCache d /\
  Forall (fun op => match op with
                    | OpGet c k => c = SIPNG /\ k = cookie
                    | OpSet c k _ ttl => c = SIPNG /\ k = cookie /\ ttl = 10
                    end) t /\
  (r = NGPanicked \/ r = NGReturned noMatch \/
   exists data corrID, r = NGReturned (Some data, Some corrID, 100)).

Lemma ngFootprint_step (cookie : string) (d d1 : Correlate.Decoder C) (op : CacheOp)
    (x : ngOutcome * Correlate.Decoder C * list CacheOp) :
  SDPCache d1 = SDPCache d -> RTCPCache d1 = RTCPCache d ->
  match op with
  | OpGet c k => c = SIPNG /\ k = cookie
  | OpSet c k _ ttl => c = SIPNG /\ k = cookie /\ ttl = 10
  end ->
  ngFootprint cookie d1 x ->
  ngFootprint cookie d (let '(r, d', t) := x in (r, d', op :: t)).
Proof.
  intros H1 H2 Hop. destruct x as [[r d'] t]. unfold ngFootprint.
  intros (A & B & F & R). repeat split; [congruence | congruence | | exact R].
  constructor; assumption.
Qed.

Lemma rangeNG_footprint (cookie : string) (entries : list (string * RawNG)) :
  forall d, ngFootprint cookie d (rangeNG jsonMarshal cookie entries d).
Proof.
  induction entries as [|[k v] rest IH]; intros d.
  - cbn. repeat split; [constructor | right; left; reflexivity].
  - assert (Hssrc :
      forall d1, SDPCache d1 = SDPCache d -> RTCPCache d1 = RTCPCache d ->
        ngFootprint cookie d
          ((if String.eqb k "SSRC"
            then match jsonMarshal v with
                 | None => ret (NGReturned noMatch)
                 | Some data =>
                     bind (getC SIPNG cookie)
                       (fun hit => match hit with
                                   | Some corrID =>
                                       ret (NGReturned (Some data, Some corrID, 100))
                                   | None => rangeNG jsonMarshal cookie rest
                                   end)
                 end
            else rangeNG jsonMarshal cookie rest) d1)).
    { intros d1 E1 E2.
      assert (Hrec : ngFootprint cookie d (rangeNG jsonMarshal cookie rest d1)).
      { specialize (IH d1). destruct (rangeNG jsonMarshal cookie rest d1) as [[r d'] t].
        unfold ngFootprint in *. destruct IH as (A & B & F & R).
        repeat split; [congruence | congruence | exact F | exact R]. }
      destruct (String.eqb k "SSRC"); [| exact Hrec].
      destruct (jsonMarshal v) as [data|].
      - unfold bind, getC, ret. cbn [cacheOf].
        destruct (cacheGet (SIPCache d1) cookie) as [corrID|].
        + cbn. repeat split; [exact E1 | exact E2 | | ].
          * constructor; [split; reflexivity | constructor].
          * right; right. eexists _, _. reflexivity.
        + pose proof (ngFootprint_step cookie d d1 (OpGet SIPNG cookie)
                        (rangeNG jsonMarshal cookie rest d1) E1 E2
                        (conj eq_refl eq_refl) (IH d1)) as S.
          destruct (rangeNG jsonMarshal cookie rest d1) as [[r d'] t]. exact S.
      - cbn. repeat split; [exact E1 | exact E2 | constructor | right; left; reflexivity]. }
    cbn [rangeNG].
    destruct (String.eqb k "call-id"); [| apply Hssrc; reflexivity].
    destruct v as [| callid | n | l | es];
      try (cbn; repeat split; [constructor | left; reflexivity]).
    unfold bind at 1, setC. cbn [cacheOf].
    destruct (cacheSet (SIPCache d) cookie callid 10) as [x err].
    destruct err.
    + cbn. repeat split; [| right; left; reflexivity].
      constructor; [repeat split | constructor].
    + pose proof (Hssrc (withCache SIPNG d x) eq_refl eq_refl) as S.
      match goal with
      | S : ngFootprint _ _ ?run |- _ => destruct run as [[r d'] t] eqn:Erun
      end.
      unfold ngFootprint in *. destruct S as (A & B & F & R).
      cbn [app]. repeat split; [exact A | exact B | | exact R].
      constructor; [repeat split | exact F].
Qed.

(** X26.  Whatever the decoder returns, correlateNG leaves the SDP and
    the RTCP cache as they were; every cache call it makes is on the
    SIP cache under the message's cookie, writes carry a time-to-live
    of 10 seconds; and it ends in a panic, in the no-match triple, or
    in serialized SSRC data with a correlation id and record type
    100. *)
Theorem correlateNG_footprint (d : Correlate.Decoder C) (payload : string) :
  let '(r, d', t) := correlateNG unmarshalNG jsonMarshal payload d in
  SDPCache d' = SDPCache d /\ RTCPCache d' = RTCPCache d /\
  Forall (fun op => match op with
                    | OpGet c k => c = SIPNG /\ k = fst (fst (unmarshalNG payload))
                    | OpSet c k _ ttl =>
                        c = SIPNG /\ k = fst (fst (unmarshalNG payload)) /\ ttl = 10
                    end) t /\
  (r = NGPanicked \/ r = NGReturned noMatch \/
   exists data corrID, r = NGReturned (Some data, Some corrID, 100)).
Proof.
  unfold correlateNG. destruct (unmarshalNG payload) as [[cookie rawNG] err].
  cbn [fst].
  destruct err; [cbn; repeat split; [constructor | right; left; reflexivity] |].
  destruct rawNG as [| b | n | l | es];
    try (cbn; repeat split; [constructor | right; left; reflexivity]).
  exact (rangeNG_footprint cookie es d).
Qed.

(** X27.  The outcome depends on the order in which the dictionary is
    visited.  For a message that carries both a byte-slice call-id and
    an SSRC entry, with a cookie not yet bound, a write that succeeds
    and is readable: visiting call-id first returns the serialized SSRC
    data with the call-id and record type 100; visiting SSRC first
    returns the no-match triple.  The binding is written either way. *)
Theorem correlateNG_visiting_order
    (d : Correlate.Decoder C) (p1 p2 cookie callid data : string) (v : RawNG) :
  unmarshalNG p1 = (cookie, NGDict [("call-id", NGBytes callid); ("SSRC", v)], false) ->
  unmarshalNG p2 = (cookie, NGDict [("SSRC", v); ("call-id", NGBytes callid)], false) ->
  jsonMarshal v = Some data ->
  cacheGet (SIPCache d) cookie = None ->
  snd (cacheSet (SIPCache d) cookie callid 10) = false ->
  cacheGet (fst (cacheSet (SIPCache d) cookie callid 10)) cookie = Some callid ->
  correlateNG unmarshalNG jsonMarshal p1 d
  = (NGReturned (Some data, Some callid, 100),
     withCache SIPNG d (fst (cacheSet (SIPCache d) cookie callid 10)),
     [OpSet SIPNG cookie callid 10; OpGet SIPNG cookie]) /\
  correlateNG unmarshalNG jsonMarshal p2 d
  = (NGReturned noMatch,
     withCache SIPNG d (fst (cacheSet (SIPCache d) cookie callid 10)),
     [OpGet SIPNG cookie; OpSet SIPNG cookie callid 10]).
Proof.
  intros H1 H2 Hj Hmiss Hset Hget. split.
  - unfold correlateNG. rewrite H1. cbn [rangeNG].
    change (String.eqb "call-id" "call-id") with true.
    change (String.eqb "call-id" "SSRC") with false.
    change (String.eqb "SSRC" "call-id") with false.
    change (String.eqb "SSRC" "SSRC") with true. cbv iota.
    rewrite Hj. unfold bind, setC, getC, ret. cbn [cacheOf].
    destruct (cacheSet (SIPCache d) cookie callid 10) as [x err].
    cbn [fst snd] in *. subst err. cbn [withCache SIPCache]. rewrite Hget. reflexivity.
  - unfold correlateNG. rewrite H2. cbn [rangeNG].
    change (String.eqb "call-id" "call-id") with true.
    change (String.eqb "call-id" "SSRC") with false.
    change (String.eqb "SSRC" "call-id") with false.
    change (String.eqb "SSRC" "SSRC") with true. cbv iota.
    rewrite Hj. unfold bind, setC, getC, ret. cbn [cacheOf].
    rewrite Hmiss.
    destruct (cacheSet (SIPCache d) cookie callid 10) as [x err].
    cbn [fst snd] in *. subst err. reflexivity.
Qed.

End NGFurther.

Lemma correlateNG_visiting_order_witness :
  correlateNG Samples.ngBoth Samples.jsonStub "call-id first" Samples.freshDecoder
  = (NGReturned (Some "{}", Some "abc", 100),
     withCache SIPNG Samples.freshDecoder
       (fst (cacheSet (SIPCache Samples.freshDecoder) "cookie1" "abc" 10)),
     [OpSet SIPNG "cookie1" "abc" 10; OpGet SIPNG "cookie1"]) /\
  correlateNG Samples.ngBoth Samples.jsonStub "SSRC first" Samples.freshDecoder
  = (NGReturned noMatch,
     withCache SIPNG Samples.freshDecoder
       (fst (cacheSet (SIPCache Samples.freshDecoder) "cookie1" "abc" 10)),
     [OpGet SIPNG "cookie1"; OpSet SIPNG "cookie1" "abc" 10]).
Proof.
  apply (correlateNG_visiting_order Samples.ngBoth Samples.jsonStub Samples.freshDecoder
           "call-id first" "SSRC first" "cookie1" "abc" "{}" (NGInt 7)).
  - reflexivity.
  - reflexivity.
  - reflexivity.
  - reflexivity.
  - reflexivity.
  - reflexivity.
Defined.

Section NGExchange.

Context {C : Type} `{CacheBackend C}.
Variable unmarshalNG : string -> string * RawNG * bool.
Variable jsonMarshal : RawNG -> option string.

(** X28.  The two-message exchange.  A message that carries only a
    byte-slice call-id binds the cookie and returns the no-match
    triple; a later message with the same cookie that carries only an
    SSRC entry (the binding being readable) returns the serialized
    SSRC data with that call-id and record type 100, after a single
    lookup.  The same SSRC message without a binding returns the
    no-match triple and writes nothing. *)
Theorem correlateNG_offer_then_report
    (d : Correlate.Decoder C) (offer report cookie callid data : string) (v : RawNG) :
  unmarshalNG offer = (cookie, NGDict [("call-id", NGBytes callid)], false) ->
  unmarshalNG report = (cookie, NGDict [("SSRC", v)], false) ->
  jsonMarshal v = Some data ->
  snd (cacheSet (SIPCache d) cookie callid 10) = false ->
  cacheGet (fst (cacheSet (SIPCache d) cookie callid 10)) cookie = Some callid ->
  (let '(r1, d1, t1) := correlateNG unmarshalNG jsonMarshal offer d in
   r1 = NGReturned noMatch /\ t1 = [OpSet SIPNG cookie callid 10] /\
   correlateNG unmarshalNG jsonMarshal report d1
   = (NGReturned (Some data, Some callid, 100), d1, [OpGet SIPNG cookie])) /\
  (cacheGet (SIPCache d) cookie = None ->
   correlateNG unmarshalNG jsonMarshal report d
   = (NGReturned noMatch, d, [OpGet SIPNG cookie])).
Proof.
  intros Ho Hr Hj Hset Hget. split.
  - unfold correlateNG. rewrite Ho, Hr. cbn [rangeNG].
    change (String.eqb "call-id" "call-id") with true.
    change (String.eqb "call-id" "SSRC") with false.
    change (String.eqb "SSRC" "call-id") with false.
    change (String.eqb "SSRC" "SSRC") with true. cbv iota.
    rewrite Hj. unfold bind, setC, getC, ret. cbn [cacheOf].
    destruct (cacheSet (SIPCache d) cookie callid 10) as [x err].
    cbn [fst snd] in *. subst err. cbn [withCache SIPCache app].
    rewrite Hget. repeat split.
  - intros Hmiss. unfold correlateNG. rewrite Hr. cbn [rangeNG].
    change (String.eqb "SSRC" "call-id") with false.
    change (String.eqb "SSRC" "SSRC") with true. cbv iota.
    rewrite Hj. unfold bind, getC, ret. cbn [cacheOf]. rewrite Hmiss. reflexivity.
Qed.

End NGExchange.

Lemma correlateNG_offer_then_report_witness :
  (let '(r1, d1, t1) :=
     correlateNG Samples.ngExchange Samples.jsonStub "offer" Samples.freshDecoder in
   r1 = NGReturned noMatch /\ t1 = [OpSet SIPNG "cookie1" "abc" 10] /\
   correlateNG Samples.ngExchange Samples.jsonStub "report" d1
   = (NGReturned (Some "{}", Some "abc", 100), d1, [OpGet SIPNG "cookie1"])) /\
  (cacheGet (SIPCache Samples.freshDecoder) "cookie1" = None ->
   correlateNG Samples.ngExchange Samples.jsonStub "report" Samples.freshDecoder
   = (NGReturned noMatch, Samples.freshDecoder, [OpGet SIPNG "cookie1"])).
Proof.
  apply (correlateNG_offer_then_report Samples.ngExchange Samples.jsonStub
           Samples.freshDecoder "offer" "report" "cookie1" "abc" "{}" (NGInt 7)).
  - reflexivity.
  - reflexivity.
  - reflexivity.
  - reflexivity.
  - reflexivity.
Defined.

Lemma Process_packet_only_from_sip_witness :
  exists t s,
    (In (LayerUDP t) (frameLayers (udpFrame "OPTIONS sip:a SIP/2.0"))
     \/ In (LayerTCP t) (frameLayers (udpFrame "OPTIONS sip:a SIP/2.0"))) /\
    decodeSIP (tPayload t) = inl s /\
    SipHeader {| Host := "probe"; Tsec := 1500000000; Tmsec := 250000;
                 Srcip := 167772165; Dstip := 167772169;
                 Sport := 5060; Dport := 5060;
                 Payload := Some "OPTIONS sip:a SIP/2.0";
                 SipHeader := Some ∅ |} = Some (Headers s) /\
    Pipeline.Payload {| Host := "probe"; Tsec := 1500000000; Tmsec := 250000;
                        Srcip := 167772165; Dstip := 167772169;
                        Sport := 5060; Dport := 5060;
                        Payload := Some "OPTIONS sip:a SIP/2.0";
                        SipHeader := Some ∅ |} <> None.
Proof.
  apply (Process_packet_only_from_sip noDefrag noRedispatch plainCfg
           (Pipeline.mkDecoder "probe" tt) (udpFrame "OPTIONS sip:a SIP/2.0")
           (mkCaptureInfo 1500000000 250000000)).
  reflexivity.
Defined.

(* ===================================================================== *)
(** ** The SDP key of the specification's example                        *)
(* ===================================================================== *)

Lemma IndexFrom_skip_marker (m x : string) :
  Index m (String CR EmptyString) = -1 ->
  forall i, IndexFrom i (m ++ x) CRLF = IndexFrom (i + len m) x CRLF.
Proof.
  induction m as [|c m IH]; intros Hm i.
  - change (EmptyString ++ x) with x. f_equal. unfold len. cbn. lia.
  - destruct (Index_one_cons c CR m Hm) as [Hc Hrest].
    change (String c m ++ x) with (String c (m ++ x)).
    rewrite IndexFrom_skip.
    + rewrite (IH Hrest). f_equal. unfold len. cbn [String.length]. lia.
    + change (HasPrefix (String c (m ++ x)) CRLF)
        with (if Ascii.eqb CR c then HasPrefix (m ++ x) (String LF EmptyString) else false).
      rewrite Ascii.eqb_sym, Hc. reflexivity.
Qed.

(** One arm of the Call-ID chain on a header [marker id CRLF ...]. *)
Lemma callIDAt_header (payload marker callID rest : string) (pos minLen : Z) :
  Index marker (String CR EmptyString) = -1 ->
  drop (Z.to_nat pos) payload = marker ++ callID ++ CRLF ++ rest ->
  Index (callID ++ CRLF ++ rest) CRLF = len callID ->
  minLen <= len marker + len callID ->
  callIDAt payload marker pos minLen = Some callID.
Proof.
  intros Hm Hd Hi Hl. unfold callIDAt. rewrite Hd. unfold Index at 1 2.
  rewrite (IndexFrom_skip_marker marker _ Hm 0), IndexFrom_shift.
  unfold Index in Hi. rewrite Hi.
  destruct (len callID =? -1) eqn:E; [apply Z.eqb_eq in E; unfold len in E; lia |].
  destruct (minLen <=? 0 + len marker + len callID) eqn:E2; [| apply Z.leb_gt in E2; lia].
  f_equal. unfold slice.
  replace (Z.to_nat (0 + len marker + len callID - len marker)) with (String.length callID)
    by (unfold len; lia).
  unfold len at 1. rewrite Nat2Z.id, drop_app_length. apply take_app_length.
Qed.

Section SDPExample.

Context {C : Type} `{CacheBackend C}.

(** C3, as amended.  Take a payload whose first [c=IN IP] marker, at a
    positive offset, starts the body
    [c=IN IP4 10.0.0.5 CRLF m=audio 30000 RTP/AVP 0 CRLF], whose first
    [m=audio ] marker is that body's, and which has no [a=rtcp:]
    attribute.  Let the Call-ID be found the way the code looks for
    it: [marker] is the first of [Call-ID: ], [Call-ID:] and [i: ] that
    occurs at a positive offset, and its first occurrence is followed
    by a non-empty identifier and CRLF.  Then cacheSDPIPPort derives
    port 30001 from 30000 by incrementing the last byte and makes one
    cache call, the write of key [10.0.0.530001] with that identifier
    as value and a time-to-live of 120 seconds on the SDP cache. *)
Theorem cacheSDPIPPort_writes_incremented_port
    (d : Correlate.Decoder C) (payload post marker callID rest : string) (pIP : Z) :
  Index payload "c=IN IP" = pIP -> 0 < pIP ->
  drop (Z.to_nat pIP) payload
    = "c=IN IP4 10.0.0.5" ++ CRLF ++ "m=audio 30000 RTP/AVP 0" ++ CRLF ++ post ->
  Index payload "m=audio " = pIP + 19 ->
  Index payload "a=rtcp:" = -1 ->
  (marker = "Call-ID: " /\ 0 < Index payload "Call-ID: ")
  \/ (marker = "Call-ID:" /\ Index payload "Call-ID: " <= 0 /\
      0 < Index payload "Call-ID:")
  \/ (marker = "i: " /\ Index payload "Call-ID: " <= 0 /\
      Index payload "Call-ID:" <= 0 /\ 0 < Index payload "i: ") ->
  drop (Z.to_nat (Index payload marker)) payload = marker ++ callID ++ CRLF ++ rest ->
  Index (callID ++ CRLF ++ rest) CRLF = len callID ->
  0 < len callID ->
  cacheSDPIPPort payload d
  = (tt,
     withCache SDP d (fst (cacheSet (SDPCache d) "10.0.0.530001" callID 120)),
     [OpSet SDP "10.0.0.530001" callID 120]).
Proof.
  intros HpIP Hpos Hbody HpPort Hrtcp Hmarker Hhdr Hcrlf Hlen.
  assert (HIP : sdpIP payload pIP = Some "10.0.0.5").
  { unfold sdpIP. rewrite Hbody. reflexivity. }
  assert (HPort : sdpPort payload (pIP + 19) "10.0.0.5" = Some "10.0.0.530001").
  { unfold sdpPort. rewrite Hrtcp. cbn [Z.ltb Z.compare].
    replace (Z.to_nat (pIP + 19)) with (Z.to_nat pIP + 19)%nat by lia.
    rewrite drop_drop, Hbody. reflexivity. }
  assert (HCID : sdpCallID payload = Some callID).
  { unfold sdpCallID.
    destruct Hmarker as [[-> H1] | [[-> (H1 & H2)] | [-> (H1 & H2 & H3)]]].
    - apply Z.ltb_lt in H1. rewrite H1.
      apply (callIDAt_header payload "Call-ID: " callID rest _ 10 eq_refl Hhdr Hcrlf).
      change (len "Call-ID: ") with 9. lia.
    - apply Z.ltb_ge in H1. apply Z.ltb_lt in H2. rewrite H1, H2.
      apply (callIDAt_header payload "Call-ID:" callID rest _ 9 eq_refl Hhdr Hcrlf).
      change (len "Call-ID:") with 8. lia.
    - apply Z.ltb_ge in H1, H2. apply Z.ltb_lt in H3. rewrite H1, H2, H3.
      apply (callIDAt_header payload "i: " callID rest _ 4 eq_refl Hhdr Hcrlf).
      change (len "i: ") with 3. lia. }
  unfold cacheSDPIPPort. rewrite HpIP, HpPort.
  destruct (0 <? pIP) eqn:E1; [| apply Z.ltb_ge in E1; lia].
  destruct (0 <? pIP + 19) eqn:E2; [| apply Z.ltb_ge in E2; lia].
  cbn [andb]. rewrite HIP, HPort, HCID.
  unfold bind, setC, ret. cbn [cacheOf].
  destruct (cacheSet (SDPCache d) "10.0.0.530001" callID 120) as [x err].
  reflexivity.
Qed.

End SDPExample.

Lemma cacheSDPIPPort_writes_incremented_port_witness :
  cacheSDPIPPort Samples.inviteCompact Samples.freshDecoder
  = (tt,
     withCache SDP Samples.freshDecoder
       (fst (cacheSet (SDPCache Samples.freshDecoder) "10.0.0.530001" "abc" 120)),
     [OpSet SDP "10.0.0.530001" "abc" 120]).
Proof.
  apply (cacheSDPIPPort_writes_incremented_port Samples.freshDecoder Samples.inviteCompact
           EmptyString "i: " "abc"
           (CRLF ++ "v=0" ++ CRLF ++ Samples.sdpBody) 51).
  - reflexivity.
  - lia.
  - reflexivity.
  - reflexivity.
  - reflexivity.
  - right; right. repeat split; vm_compute; congruence.
  - reflexivity.
  - reflexivity.
  - vm_compute. reflexivity.
Defined.

(** C3, the claim as worded, fails.  Both messages hold the quoted
    body, no [a=rtcp:] attribute and a Call-ID header with value
    [abc].  With the header name in lower case no spelling the code
    looks for occurs, and nothing is written; with an extension header
    whose name ends in [Call-ID] standing before it, the first
    [Call-ID: ] marker is inside that header and its value [zzz] is
    written in place of the Call-ID. *)
Lemma cacheSDPIPPort_call_id_missed_or_mistaken :
  Contains Samples.inviteLowerCallID Samples.sdpBody = true /\
  Index Samples.inviteLowerCallID "a=rtcp:" = -1 /\
  cacheSDPIPPort Samples.inviteLowerCallID Samples.freshDecoder
  = (tt, Samples.freshDecoder, []) /\
  Contains Samples.inviteXCallID Samples.sdpBody = true /\
  Index Samples.inviteXCallID "a=rtcp:" = -1 /\
  cacheSDPIPPort Samples.inviteXCallID Samples.freshDecoder
  = (tt,
     withCache SDP Samples.freshDecoder
       (fst (cacheSet (SDPCache Samples.freshDecoder) "10.0.0.530001" "zzz" 120)),
     [OpSet SDP "10.0.0.530001" "zzz" 120]).
Proof. repeat split; vm_compute; reflexivity. Qed.

(* ===================================================================== *)
(** ** The log-line heuristics as a whole                                 *)
(* ===================================================================== *)

Lemma correlateLOG_no_marker (payload : string) :
  Index payload "ID=" <= 0 -> Index payload ": [" <= 0 ->
  correlateLOG payload = noMatch.
Proof.
  intros H1 H2. unfold correlateLOG.
  apply Z.ltb_ge in H1, H2. rewrite H1, H2. reflexivity.
Qed.

Lemma correlateLOG_bracket_unterminated (payload : string) :
  Index payload "ID=" <= 0 -> 0 < Index payload ": [" ->
  Index (drop (Z.to_nat (Index payload ": [")) payload) " port " < 8 ->
  Index (drop (Z.to_nat (Index payload ": [")) payload) "]: " < 4 ->
  correlateLOG payload = noMatch.
Proof.
  intros H1 H2 H3 H4. unfold correlateLOG.
  apply Z.ltb_ge in H1. apply Z.ltb_lt in H2. apply Z.leb_gt in H3, H4.
  rewrite H1, H2, H3, H4. reflexivity.
Qed.

Lemma correlateLOG_ID_out_of_bound (payload : string) :
  0 < Index payload "ID=" ->
  Index (drop (Z.to_nat (Index payload "ID=")) payload) " " < 4 ->
  len (drop (Z.to_nat (Index payload "ID=")) payload) < 8
  \/ 64 < len (drop (Z.to_nat (Index payload "ID=")) payload) ->
  correlateLOG payload = noMatch.
Proof.
  intros H1 H2 H3. unfold correlateLOG.
  apply Z.ltb_lt in H1. apply Z.leb_gt in H2. rewrite H1, H2.
  destruct H3 as [H3 | H3].
  - apply Z.leb_gt in H3. rewrite H3. reflexivity.
  - apply Z.leb_gt in H3. rewrite H3. apply andb_false_r || (rewrite andb_false_r; reflexivity).
Qed.

Lemma correlateLOG_ID_rest_of_line (payload : string) :
  0 < Index payload "ID=" ->
  Index (drop (Z.to_nat (Index payload "ID=")) payload) " " < 4 ->
  8 <= len (drop (Z.to_nat (Index payload "ID=")) payload) <= 64 ->
  correlateLOG payload
  = (Some payload,
     Some (slice (drop (Z.to_nat (Index payload "ID=")) payload) 3
             (len (drop (Z.to_nat (Index payload "ID=")) payload))),
     100).
Proof.
  intros H1 H2 [H3 H4]. unfold correlateLOG.
  apply Z.ltb_lt in H1. apply Z.leb_gt in H2. apply Z.leb_le in H3, H4.
  rewrite H1, H2, H3, H4. reflexivity.
Qed.

(** C5, as amended.  On a line whose first [ID=] marker stands at a
    positive offset and is followed by an identifier and a space, as in
    [... ID=callid123 rest], correlateLOG returns the whole line, the
    identifier and record type 100; when no space follows, the rest of
    the line is the identifier and it is returned exactly when marker
    and identifier together have 8 to 64 bytes.  On a line without
    [ID=] at a positive offset whose first [: [] marker stands at a
    positive offset, the identifier is the text between [: [] and
    [ port ] (a closing bracket included) or else between [: [] and
    []: ], and it is returned with record type 100 exactly when its
    length is within [8,64].  The lines [: [abc123] port 5060] and
    [: [abc123]: message] themselves give no match (marker at offset 0,
    identifier of 6 bytes).  A line without a marker at a positive
    offset, a bracket form without terminator and an [ID=] form out of
    bound give the no-match triple; an [ID=] form without a space
    behind the identifier and within the bound gives the rest of the
    line; there is no other result than the no-match triple or (line,
    identifier, 100). *)
Theorem correlateLOG_behaviour :
  (forall payload id rest : string,
      0 < Index payload "ID=" ->
      drop (Z.to_nat (Index payload "ID=")) payload = "ID=" ++ id ++ " " ++ rest ->
      Index id " " = -1 -> id <> EmptyString ->
      correlateLOG payload = (Some payload, Some id, 100)) /\
  (forall payload id : string,
      0 < Index payload "ID=" ->
      drop (Z.to_nat (Index payload "ID=")) payload = "ID=" ++ id ->
      Index id " " = -1 ->
      correlateLOG payload
      = if (5 <=? len id) && (len id <=? 61)
        then (Some payload, Some id, 100) else noMatch) /\
  (forall payload id rest : string,
      Index payload "ID=" <= 0 -> 0 < Index payload ": [" ->
      drop (Z.to_nat (Index payload ": [")) payload = ": [" ++ id ++ " port " ++ rest ->
      Index (": [" ++ id ++ " port " ++ rest) " port " = 3 + len id ->
      5 <= len id ->
      correlateLOG payload
      = if (8 <=? len id) && (len id <=? 64)
        then (Some payload, Some id, 100) else noMatch) /\
  (forall payload id rest : string,
      Index payload "ID=" <= 0 -> 0 < Index payload ": [" ->
      drop (Z.to_nat (Index payload ": [")) payload = ": [" ++ id ++ "]: " ++ rest ->
      Index (": [" ++ id ++ "]: " ++ rest) " port " < 8 ->
      Index (": [" ++ id ++ "]: " ++ rest) "]: " = 3 + len id ->
      1 <= len id ->
      correlateLOG payload
      = if (8 <=? len id) && (len id <=? 64)
        then (Some payload, Some id, 100) else noMatch) /\
  correlateLOG ": [abc123] port 5060" = noMatch /\
  correlateLOG ": [abc123]: message" = noMatch /\
  (forall payload : string,
      Index payload "ID=" <= 0 -> Index payload ": [" <= 0 ->
      correlateLOG payload = noMatch) /\
  (forall payload : string,
      Index payload "ID=" <= 0 -> 0 < Index payload ": [" ->
      Index (drop (Z.to_nat (Index payload ": [")) payload) " port " < 8 ->
      Index (drop (Z.to_nat (Index payload ": [")) payload) "]: " < 4 ->
      correlateLOG payload = noMatch) /\
  (forall payload : string,
      0 < Index payload "ID=" ->
      Index (drop (Z.to_nat (Index payload "ID=")) payload) " " < 4 ->
      len (drop (Z.to_nat (Index payload "ID=")) payload) < 8
      \/ 64 < len (drop (Z.to_nat (Index payload "ID=")) payload) ->
      correlateLOG payload = noMatch) /\
  (forall payload : string,
      0 < Index payload "ID=" ->
      Index (drop (Z.to_nat (Index payload "ID=")) payload) " " < 4 ->
      8 <= len (drop (Z.to_nat (Index payload "ID=")) payload) <= 64 ->
      correlateLOG payload
      = (Some payload,
         Some (slice (drop (Z.to_nat (Index payload "ID=")) payload) 3
                 (len (drop (Z.to_nat (Index payload "ID=")) payload))),
         100)) /\
  (forall payload : string,
      correlateLOG payload = noMatch \/
      exists callID, correlateLOG payload = (Some payload, Some callID, 100)).
Proof.
  split; [exact correlateLOG_ID_with_space_core |].
  split; [exact correlateLOG_ID_at_line_end_core |].
  split; [exact correlateLOG_bracket_port_core |].
  split; [exact correlateLOG_bracket_colon_core |].
  split; [reflexivity |].
  split; [reflexivity |].
  split; [exact correlateLOG_no_marker |].
  split; [exact correlateLOG_bracket_unterminated |].
  split; [exact correlateLOG_ID_out_of_bound |].
  split; [exact correlateLOG_ID_rest_of_line | exact correlateLOG_shape].
Qed.

Lemma correlateLOG_behaviour_witness :
  correlateLOG "... ID=callid123 rest"
  = (Some "... ID=callid123 rest", Some "callid123", 100).
Proof.
  apply (proj1 correlateLOG_behaviour "... ID=callid123 rest" "callid123" "rest").
  - vm_compute. reflexivity.
  - reflexivity.
  - reflexivity.
  - discriminate.
Defined.
